(** * Web research agent: the orchestrator and its relevance engine

    A shallow embedding of the research pipeline (src/agent, src/tools,
    src/utils) and the properties its specification states about it.

    Python values are embedded as follows.
    - [str] is [string]; a character is a code point below 256.
    - an exception is its class name and its [str()] text; code that can
      raise returns an [outcome].
    - a value decoded from a model reply is a [json] tree; a number is an
      integer or a float, and a Python [bool] counts as the integer 0 or 1
      as in Python.
    - a list of dictionaries that the code mutates in place is a [list] whose
      positions are the object identities; lists that hold the same objects
      are lists of positions into it. *)

From Stdlib Require Import List ZArith Bool Ascii String Lia PeanoNat Sorted.
From Stdlib Require Import DecimalString QArith_base.
Import ListNotations.

Local Open Scope string_scope.
Local Open Scope Z_scope.
Local Open Scope list_scope.

(* ================================================================== *)
(** ** Python built-ins used by the sources *)

Module Py.

(** An exception object: [type(e).__name__] and [str(e)]. *)
Record exn : Type := mk_exn { exn_type : string; exn_text : string }.

(** The result of a call that may raise. *)
Inductive outcome (A : Type) : Type :=
| Ok (a : A)
| Raise (e : exn).
Arguments Ok {A} a.
Arguments Raise {A} e.

(** [str.isspace] on one code point below 256. *)
Definition is_space (c : ascii) : bool :=
  let n := nat_of_ascii c in
  ((9 <=? n) && (n <=? 13) || (28 <=? n) && (n <=? 32)
   || (n =? 133) || (n =? 160))%nat.

(** [str.lower] on one code point below 256. *)
Definition lower_char (c : ascii) : ascii :=
  let n := nat_of_ascii c in
  if ((65 <=? n) && (n <=? 90)
      || (192 <=? n) && (n <=? 222) && negb (n =? 215))%nat
  then ascii_of_nat (n + 32) else c.

Fixpoint lower (s : string) : string :=
  match s with
  | EmptyString => EmptyString
  | String c t => String (lower_char c) (lower t)
  end.

(** [s.startswith(p)]. *)
Fixpoint startswith (p s : string) : bool :=
  match p, s with
  | EmptyString, _ => true
  | String a p', String b s' => Ascii.eqb a b && startswith p' s'
  | String _ _, EmptyString => false
  end.

(** [needle in hay]. *)
Fixpoint contains (needle hay : string) : bool :=
  startswith needle hay
  || match hay with
     | EmptyString => false
     | String _ t => contains needle t
     end.

(** [hay.count(needle)]: occurrences that do not overlap, found from the
    left.  [skip] characters of the last occurrence remain to be passed. *)
Fixpoint count_from (needle : string) (skip : nat) (hay : string) : Z :=
  match hay with
  | EmptyString => 0
  | String _ t =>
      match skip with
      | S k => count_from needle k t
      | O => if startswith needle hay
             then 1 + count_from needle (String.length needle - 1) t
             else count_from needle O t
      end
  end.

Definition count (needle hay : string) : Z :=
  match needle with
  | EmptyString => Z.of_nat (String.length hay) + 1
  | _ => count_from needle O hay
  end.

(** [s.split()]: the maximal runs of characters that are not white space.
    [cur] is the run being read, reversed. *)
Fixpoint rev_string (acc s : string) : string :=
  match s with
  | EmptyString => acc
  | String c t => rev_string (String c acc) t
  end.

Definition flush (cur : string) (rest : list string) : list string :=
  match cur with
  | EmptyString => rest
  | _ => rev_string EmptyString cur :: rest
  end.

Fixpoint split_from (cur s : string) : list string :=
  match s with
  | EmptyString => flush cur []
  | String c t =>
      if is_space c then flush cur (split_from EmptyString t)
      else split_from (String c cur) t
  end.

Definition split (s : string) : list string := split_from EmptyString s.

(** [s.strip()]. *)
Fixpoint lstrip (s : string) : string :=
  match s with
  | String c t => if is_space c then lstrip t else s
  | EmptyString => EmptyString
  end.

Definition strip (s : string) : string :=
  rev_string EmptyString (lstrip (rev_string EmptyString (lstrip s))).

(** [text] references [query]: the query occurs in it. *)
Definition mentions (query text : string) : Prop :=
  exists before after, text = (before ++ query ++ after)%string.

(** [l[:k]] for any integer [k]. *)
Definition slice_to {A} (k : Z) (l : list A) : list A :=
  if 0 <=? k then firstn (Z.to_nat k) l
  else firstn (List.length l - Z.to_nat (- k)) l.

(** [len(l)]. *)
Definition len {A} (l : list A) : Z := Z.of_nat (List.length l).

(** [s.replace(old, new)] where [old] and [new] are one character each. *)
Fixpoint replace_char (old new : ascii) (s : string) : string :=
  match s with
  | EmptyString => EmptyString
  | String c t =>
      String (if Ascii.eqb c old then new else c) (replace_char old new t)
  end.

(** [str(z)] of an integer, as an f-string renders it. *)
Definition str_of_int (z : Z) : string := NilZero.string_of_int (Z.to_int z).

End Py.

Import Py.

(** A Python [float] by its exact value: not-a-number, an infinity, or a
    rational (every finite double is one). *)
Inductive pyfloat : Type :=
| FNan
| FInf (negative : bool)
| FFinite (q : Q).

(** [a <= f], [f < b] and [f == a] for an integer and a float: Python
    compares the exact values; every comparison with not-a-number is
    false. *)
Definition int_le_float (a : Z) (f : pyfloat) : bool :=
  match f with
  | FNan => false
  | FInf negative => negb negative
  | FFinite q => Qle_bool (inject_Z a) q
  end.

Definition float_lt_int (f : pyfloat) (b : Z) : bool :=
  match f with
  | FNan => false
  | FInf negative => negative
  | FFinite q => negb (Qle_bool (inject_Z b) q)
  end.

Definition float_eq_int (f : pyfloat) (a : Z) : bool :=
  match f with
  | FFinite q => Qeq_bool q (inject_Z a)
  | _ => false
  end.

(** [bool(f)]: every float but zero is true. *)
Definition float_truth (f : pyfloat) : bool :=
  match f with
  | FFinite q => negb (Qeq_bool q (inject_Z 0))
  | _ => true
  end.

(** Values decoded from a model reply ([json.loads]). *)
#[local] Set Warnings "-register-all".
Inductive json : Type :=
| JNull
| JBool (b : bool)
| JInt (z : Z)
| JFloat (f : pyfloat)
| JStr (s : string)
| JList (l : list json)
| JDict (d : list (string * json)).

(** [d.get(key)] on a decoded object: [None] when the key is missing. *)
Fixpoint dict_get (key : string) (d : list (string * json)) : option json :=
  match d with
  | [] => None
  | (k, v) :: rest => if String.eqb k key then Some v else dict_get key rest
  end.

(** What a generative call produced: the text, and what
    [_extract_and_clean_json] (regular expressions and [json.loads], both
    library code) makes of that text, [None] when every parse attempt
    failed. *)
Record reply : Type := mk_reply { raw : string; decoded : option json }.

(* ================================================================== *)
(** ** src/tools/search_tool.py *)

Module SearchTool.

(** One search result: the dictionary every backend builds, its text
    fields taken as strings. *)
Record candidate : Type := mk_candidate {
  url : string;
  title : string;
  snippet : string;
  metadata : json
}.

(** The configured backend ([_search_serpapi], [_search_google_cse] or
    [_mock_search], chosen once by [__init__]): term and news flag to a
    result list, or an exception of the HTTP layer. *)
Definition backend : Type := string -> bool -> outcome (list candidate).

(** [any(r["url"] == result["url"] for r in results)]. *)
Definition seen (results : list candidate) (result : candidate) : bool :=
  existsb (fun r => String.eqb (url r) (url result)) results.

(** The inner loop of [search]: add new results, avoiding duplicates. *)
Fixpoint add_results (limit : Z) (results term_results : list candidate)
  : list candidate :=
  match term_results with
  | [] => results
  | result :: rest =>
      if limit <=? len results then results
      else if seen results result then add_results limit results rest
      else add_results limit (results ++ [result]) rest
  end.

(** The outer loop of [search]: one term after the other; an exception
    raised for a term is logged and the loop goes on. *)
Fixpoint search_terms_loop (b : backend) (is_news_query : bool) (limit : Z)
    (results : list candidate) (search_terms : list string)
  : list candidate :=
  match search_terms with
  | [] => results
  | term :: rest =>
      if limit <=? len results then results
      else match b term is_news_query with
           | Ok term_results =>
               search_terms_loop b is_news_query limit
                 (add_results limit results term_results) rest
           | Raise _ =>
               search_terms_loop b is_news_query limit results rest
           end
  end.

(** [SearchTool.search].  [result_limit] is the instance's default, used
    when [limit] is [None] or 0. *)
Definition search (b : backend) (result_limit : Z)
    (search_terms : list string) (query_type : string) (limit : option Z)
  : list candidate :=
  let limit := match limit with
               | None => result_limit
               | Some 0 => result_limit
               | Some l => l
               end in
  let is_news_query := String.eqb query_type "news" in
  slice_to limit (search_terms_loop b is_news_query limit [] search_terms).

(** A term whose search raised, or came back empty (the backends return
    an empty list on an HTTP error). *)
Definition failed (b : backend) (is_news_query : bool) (term : string)
  : Prop :=
  match b term is_news_query with
  | Raise _ => True
  | Ok [] => True
  | Ok (_ :: _) => False
  end.

(** [_mock_search].  [str_title] is [str.title], library code; the
    half-second sleep has no part in the result. *)
Definition domains : list string :=
  ["wikipedia.org"; "blog.example.com"; "news.example.com";
   "research.example.org"; "academic.example.edu"].

(** [f"{n:02d}"] for the day and month numbers, which are positive. *)
Definition two_digits (n : Z) : string :=
  if n <? 10 then ("0" ++ str_of_int n)%string else str_of_int n.

(** The dictionary appended at step [i] of the loop. *)
Definition mock_result (str_title : string -> string) (query : string)
    (is_news : bool) (i : Z) : candidate :=
  let sanitized_query := replace_char " " "-" (lower query) in
  let domain := nth (Z.to_nat (i mod len domains)) domains "" in
  if is_news then
    let date := ("2023-" ++ two_digits (i mod 12 + 1) ++ "-"
                 ++ two_digits (i mod 28 + 1))%string in
    mk_candidate
      ("https://news.example.com/" ++ sanitized_query ++ "-article-"
       ++ str_of_int (i + 1))%string
      ("Latest News About " ++ str_title query ++ " - Article "
       ++ str_of_int (i + 1))%string
      ("This news article discusses recent developments in " ++ query
       ++ "...")%string
      (JDict [("source", JStr "Example News"); ("date", JStr date);
              ("source_api", JStr "mock")])
  else
    mk_candidate
      ("https://" ++ domain ++ "/" ++ sanitized_query ++ "-"
       ++ str_of_int (i + 1))%string
      ("Information About " ++ str_title query ++ " - Result "
       ++ str_of_int (i + 1))%string
      ("This webpage contains information about " ++ query
       ++ " including definitions, examples, and applications...")%string
      (JDict [("display_link", JStr domain); ("source_api", JStr "mock")]).

Definition mock_search (str_title : string -> string) (query : string)
    (is_news : bool) : list candidate :=
  let results := map (mock_result str_title query is_news) [0; 1; 2; 3; 4] in
  let results :=
    if negb is_news then
      let wiki_term := replace_char " " "_" query in
      mk_candidate
        ("https://en.wikipedia.org/wiki/" ++ wiki_term)%string
        (str_title query ++ " - Wikipedia")%string
        ("This Wikipedia article provides comprehensive information about "
         ++ query
         ++ ", including its history, significance, and key concepts...")%string
        (JDict [("display_link", JStr "en.wikipedia.org");
                ("source_api", JStr "mock")])
      :: results
    else results in
  firstn 10 results.


End SearchTool.

(* ================================================================== *)
(** ** src/tools/scraper.py *)

Module WebScraper.

(** What [scrape] asks of the outside world, in the order it asks. *)
Inductive event : Type :=
| CacheLookup (base_url : string)
| RobotsRead (base_url : string)
| NewspaperFetch (url : string)
| HttpGet (url : string).

(** The world a scraper instance lives in.  [_scrape_with_newspaper] and
    [_scrape_with_beautifulsoup] are calls into newspaper3k, requests and
    BeautifulSoup wrapped in a catch-all that returns [None]; [urlparse]
    and the robots parser are library code. *)
Record world : Type := mk_world {
  respect_robots : bool;
  base_url_of : string -> outcome string;
  robots_can_fetch : string -> string -> outcome bool;
  scrape_with_newspaper : string -> option string;
  scrape_with_beautifulsoup : string -> option string;
  clean_content : string -> string
}.

(** [self.robots_cache]: base URL to permission, latest entry first. *)
Definition robots_cache : Type := list (string * bool).

Fixpoint cache_get (base_url : string) (c : robots_cache) : option bool :=
  match c with
  | [] => None
  | (k, v) :: rest =>
      if String.eqb k base_url then Some v else cache_get base_url rest
  end.

Definition robots_disallowed : string :=
  "[Access to this content is restricted by the website's robots.txt policy]".

(** [_can_fetch]: the permission, the cache after the call, and what was
    asked of the world. *)
Definition can_fetch (w : world) (c : robots_cache) (url : string)
  : bool * robots_cache * list event :=
  match base_url_of w url with
  | Raise _ => (true, c, [])
  | Ok base_url =>
      match cache_get base_url c with
      | Some allowed => (allowed, c, [CacheLookup base_url])
      | None =>
          match robots_can_fetch w base_url url with
          | Ok allowed =>
              (allowed, (base_url, allowed) :: c,
               [CacheLookup base_url; RobotsRead base_url])
          | Raise _ =>
              (true, (base_url, true) :: c,
               [CacheLookup base_url; RobotsRead base_url])
          end
      end
  end.

(** Python truth of an [Optional[str]]. *)
Definition truthy (content : option string) : bool :=
  match content with
  | Some (String _ _) => true
  | _ => false
  end.

(** The extraction steps of [scrape] that follow the permission check. *)
Definition extract (w : world) (url : string)
  : option string * list event :=
  let content := scrape_with_newspaper w url in
  let short :=
    match content with
    | Some text => negb (truthy content)
                   || (Z.of_nat (String.length (strip text)) <? 100)
    | None => true
    end in
  let '(content, asked) :=
    if short
    then (scrape_with_beautifulsoup w url, [NewspaperFetch url; HttpGet url])
    else (content, [NewspaperFetch url]) in
  let content :=
    if truthy content then option_map (clean_content w) content
    else content in
  (content, asked).

(** [WebScraper.scrape]: the text or [None], the permission cache after
    the call, and what was asked of the world. *)
Definition scrape (w : world) (c : robots_cache) (url : string)
  : option string * robots_cache * list event :=
  if match url with EmptyString => true | _ => false end
     || negb (startswith "http://" url || startswith "https://" url)
  then (None, c, [])
  else
    let '(allowed, c', asked) :=
      if respect_robots w then can_fetch w c url else (true, c, []) in
    if respect_robots w && negb allowed
    then (Some robots_disallowed, c', asked)
    else
      let '(content, asked') := extract w url in
      (content, c', asked ++ asked').

End WebScraper.

(* ================================================================== *)
(** ** The query analysis dictionary (src/agent/query_analyzer.py) *)

(** What [QueryAnalyzer.analyze] returns, its text fields taken as
    strings.  The fallback dictionaries of [_get_llm_analysis] carry no
    [result_limit]. *)
Record query_analysis : Type := mk_query_analysis {
  query_type : string;
  topics : list string;
  search_terms : list string;
  time_sensitivity : string;
  required_depth : string;
  result_limit : option Z
}.

(* ================================================================== *)
(** ** src/tools/content_analyzer.py *)

Module ContentAnalyzer.

(** The [published_date] entry of a content item, read the way
    [_basic_text_filter] reads it: missing or empty; rejected by
    [datetime.fromisoformat] (ValueError); carrying a UTC offset, so that
    subtracting it from the naive [datetime.now()] raises TypeError; or a
    naive instant, in microseconds. *)
Inductive date_field : Type :=
| NoDate
| BadDate
| AwareDate
| NaiveDate (microseconds : Z).

(** A content item: the dictionary [ResearchAgent.research] builds for a
    scraped source, with the entries the analyzer adds to it. *)
Record item : Type := mk_item {
  url : string;
  title : string;
  content : string;
  metadata : json;
  published_date : date_field;
  relevance_score : option json;
  relevance_reason : option json
}.

Definition set_score (score : json) (it : item) : item :=
  mk_item (url it) (title it) (content it) (metadata it)
          (published_date it) (Some score) (relevance_reason it).

Definition set_rank (score reason : json) (it : item) : item :=
  mk_item (url it) (title it) (content it) (metadata it)
          (published_date it) (Some score) (Some reason).

(** *** Objects and references *)

Definition no_item : item :=
  mk_item "" "" "" JNull NoDate None None.

(** The object at position [r] of the store. *)
Definition deref (store : list item) (r : nat) : item :=
  nth r store no_item.

(** In-place update of the object at position [r]. *)
Fixpoint update (store : list item) (r : nat) (f : item -> item)
  : list item :=
  match store, r with
  | [], _ => []
  | it :: rest, O => f it :: rest
  | it :: rest, S r' => it :: update rest r' f
  end.

(** *** Phase A: [_basic_text_filter] *)

Definition common_words : list string :=
  ["the"; "a"; "an"; "and"; "or"; "but"; "in"; "on"; "at"; "to"; "for";
   "with"; "by"; "about"; "of"].

(** [key_terms]: the tokens of the search terms, then of the topics. *)
Definition key_terms_of (q : query_analysis) : list string :=
  let all_key_terms :=
    flat_map (fun term => split (lower term)) (search_terms q)
    ++ flat_map (fun topic => split (lower topic)) (topics q) in
  filter (fun term => negb (existsb (String.eqb term) common_words)
                      && (2 <? Z.of_nat (String.length term)))
         all_key_terms.

Definition microseconds_per_day : Z := 86400000000.

Definition threshold : Z := 5.
Definition max_results : nat := 20.

(** The score one item receives; [now] is what [datetime.now()] returns
    while the item is scored. *)
Definition raw_score (now : Z) (q : query_analysis) (it : item) : Z :=
  let content := lower (content it) in
  let title := lower (title it) in
  let url := lower (url it) in
  let key_terms := key_terms_of q in
  let score := 0 in
  let title_score :=
    fold_left (fun acc term => if contains term title then acc + 10 else acc)
              key_terms 0 in
  let score := score + Z.min 50 title_score in
  let url_score :=
    fold_left (fun acc term => if contains term url then acc + 3 else acc)
              key_terms 0 in
  let score := score + Z.min 15 url_score in
  let content_score :=
    fold_left (fun acc term =>
                 let term_count := count term content in
                 if 0 <? term_count then acc + Z.min 5 term_count * 2
                 else acc)
              key_terms 0 in
  let score := score + content_score in
  let score :=
    fold_left (fun score term =>
                 if 1 <? len (split term) then
                   let score := if contains (lower term) content
                                then score + 15 else score in
                   if contains (lower term) title
                   then score + 25 else score
                 else score)
              (search_terms q) score in
  let score :=
    match published_date it with
    | NaiveDate published =>
        let days_old := (now - published) / microseconds_per_day in
        if days_old <? 30 then score + 10
        else if days_old <? 90 then score + 5
        else if days_old <? 365 then score + 2
        else score
    | _ => score
    end in
  let content_length := len (split content) in
  if 1000 <? content_length then score + 5
  else if 500 <? content_length then score + 3
  else if 200 <? content_length then score + 1
  else score.

(** The loop over [content_items], the item at hand being object [r]:
    the objects after the loop and the references put in
    [filtered_items], in order.  [clock r] is the clock reading taken
    while object [r] is scored. *)
Fixpoint filter_loop (clock : nat -> Z) (q : query_analysis) (r : nat)
    (content_items : list item) : list item * list nat :=
  match content_items with
  | [] => ([], [])
  | it :: rest =>
      let score := raw_score (clock r) q it in
      let '(store, filtered_items) := filter_loop clock q (S r) rest in
      if threshold <? score
      then (set_score (JInt (Z.min 98 score)) it :: store,
            r :: filtered_items)
      else (it :: store, filtered_items)
  end.

(** [x.get("relevance_score", 0)] as a sort key.  Phase A only sorts
    items it has just given an integer score. *)
Definition sort_key (it : item) : Z :=
  match relevance_score it with
  | Some (JInt z) => z
  | Some (JBool true) => 1
  | _ => 0
  end.

(** [list.sort(key=..., reverse=True)]: descending, and stable (items
    with equal keys keep their order). *)
Fixpoint insert_desc (key : nat -> Z) (x : nat) (l : list nat) : list nat :=
  match l with
  | [] => [x]
  | y :: l' => if key x <? key y then y :: insert_desc key x l'
               else x :: l
  end.

Fixpoint sort_desc (key : nat -> Z) (l : list nat) : list nat :=
  match l with
  | [] => []
  | x :: l' => insert_desc key x (sort_desc key l')
  end.

(** [_basic_text_filter]: the objects of [content_items] after the call,
    and the returned list as references to them. *)
Definition basic_text_filter (clock : nat -> Z) (q : query_analysis)
    (content_items : list item) : list item * list nat :=
  let '(store, filtered_items) := filter_loop clock q O content_items in
  (store,
   firstn max_results
     (sort_desc (fun r => sort_key (deref store r)) filtered_items)).

(** *** Phase B: [_llm_relevance_ranking] *)

(** One entry of [analysis_data]. *)
Record analysis_entry : Type := mk_analysis_entry {
  entry_id : Z;
  entry_title : string;
  entry_url : string;
  content_sample : string
}.

(** [content[:3000] + "..." if len(content) > 3000 else content]. *)
Definition sample_of (content : string) : string :=
  if 3000 <? Z.of_nat (String.length content)
  then (substring 0 (Z.to_nat 3000) content ++ "...")%string
  else content.

Fixpoint analysis_data_from (store : list item) (i : nat)
    (items_for_analysis : list nat) : list analysis_entry :=
  match items_for_analysis with
  | [] => []
  | r :: rest =>
      let it := deref store r in
      mk_analysis_entry (Z.of_nat i) (title it) (url it)
                        (sample_of (content it))
      :: analysis_data_from store (S i) rest
  end.

(** The generative capability as Phase B uses it: the query analysis and
    the analysis data (from which the prompt is built) to the reply, or
    the exception the call raised. *)
Definition ranking_model : Type :=
  query_analysis -> list analysis_entry -> outcome reply.

Definition default_entry (i : nat) : json :=
  JDict [("id", JInt (Z.of_nat i));
         ("relevance_score", JInt (10 - Z.of_nat i))].

(** [[{"id": i, "relevance_score": 10 - i} for i in range(min(10, n))]]. *)
Definition default_ranking (n : nat) : json :=
  JList (map default_entry (seq 0 (Nat.min 10 n))).

(** [_get_llm_ranking]. *)
Definition get_llm_ranking (llm : ranking_model) (q : query_analysis)
    (analysis_data : list analysis_entry) : json :=
  match llm q analysis_data with
  | Raise _ => default_ranking (List.length analysis_data)
  | Ok result =>
      match decoded result with
      | Some (JDict data) =>
          match dict_get "rankings" data with
          | Some rankings => rankings
          | None => default_ranking (List.length analysis_data)
          end
      | Some (JList data) => JList data
      | _ => default_ranking (List.length analysis_data)
      end
  end.

Definition type_name (v : json) : string :=
  match v with
  | JNull => "NoneType"
  | JBool _ => "bool"
  | JInt _ => "int"
  | JFloat _ => "float"
  | JStr _ => "str"
  | JList _ => "list"
  | JDict _ => "dict"
  end.

(** What [for rank in rankings] goes through: the elements of a list, the
    characters of a string, the keys of an object; anything else is not
    iterable. *)
Definition iterate (rankings : json) : outcome (list json) :=
  match rankings with
  | JList l => Ok l
  | JStr s => Ok (map (fun c => JStr (String c EmptyString))
                      (list_ascii_of_string s))
  | JDict d => Ok (map (fun kv => JStr (fst kv)) d)
  | v => Raise (mk_exn "TypeError"
                  ("'" ++ type_name v ++ "' object is not iterable")%string)
  end.

(** A decoded value used as a list index or compared with one: an integer,
    or a [bool] (a subclass of [int]). *)
Definition as_int (v : json) : option Z :=
  match v with
  | JInt z => Some z
  | JBool b => Some (if b then 1 else 0)
  | _ => None
  end.

(** The first loop of [_llm_relevance_ranking] over the ranking entries.
    [items_for_analysis] holds references into [store]; the loop returns
    the objects as it leaves them, and either [ranked_items] (references)
    or the exception that stopped it. *)
Fixpoint rank_loop (items_for_analysis : list nat) (store : list item)
    (ranked_items : list nat) (rankings : list json)
  : list item * outcome (list nat) :=
  match rankings with
  | [] => (store, Ok ranked_items)
  | JDict rank :: rest =>
      match dict_get "id" rank with
      | None | Some JNull =>
          rank_loop items_for_analysis store ranked_items rest
      | Some (JFloat f) =>
          if int_le_float 0 f && float_lt_int f (len items_for_analysis)
          then (store,
                Raise (mk_exn "TypeError"
                  "list indices must be integers or slices, not float"))
          else rank_loop items_for_analysis store ranked_items rest
      | Some item_id =>
          match as_int item_id with
          | None =>
              (store,
               Raise (mk_exn "TypeError"
                 ("'<=' not supported between instances of 'int' and '"
                  ++ type_name item_id ++ "'")%string))
          | Some z =>
              if (0 <=? z) && (z <? len items_for_analysis) then
                let r := nth (Z.to_nat z) items_for_analysis O in
                let score :=
                  match dict_get "relevance_score" rank with
                  | Some v => v
                  | None => JInt 0
                  end in
                let reason :=
                  match dict_get "reason" rank with
                  | Some v => v
                  | None => JStr ""
                  end in
                rank_loop items_for_analysis
                          (update store r (set_rank score reason))
                          (ranked_items ++ [r]) rest
              else rank_loop items_for_analysis store ranked_items rest
          end
      end
  | rank :: _ =>
      (store,
       Raise (mk_exn "AttributeError"
         ("'" ++ type_name rank ++ "' object has no attribute 'get'")%string))
  end.

(** [i in ranked_ids]: some entry carries an id equal to [i]. *)
Definition names (i : nat) (rank : json) : bool :=
  match rank with
  | JDict d =>
      match dict_get "id" d with
      | Some (JFloat f) => float_eq_int f (Z.of_nat i)
      | Some v => match as_int v with
                  | Some z => z =? Z.of_nat i
                  | None => false
                  end
      | None => false
      end
  | _ => false
  end.

(** The second loop: the references of the items no entry names, in the
    order of [items_for_analysis]. *)
Fixpoint unranked_from (rankings : list json) (i : nat)
    (items_for_analysis : list nat) : list nat :=
  match items_for_analysis with
  | [] => []
  | r :: rest =>
      if existsb (names i) rankings
      then unranked_from rankings (S i) rest
      else r :: unranked_from rankings (S i) rest
  end.

(** [_llm_relevance_ranking]: the objects after the call and the returned
    list as references, or the exception that escapes. *)
Definition llm_relevance_ranking (llm : ranking_model) (q : query_analysis)
    (store : list item) (filtered_items : list nat)
  : list item * outcome (list nat) :=
  let items_for_analysis := firstn 10 filtered_items in
  let analysis_data := analysis_data_from store O items_for_analysis in
  match iterate (get_llm_ranking llm q analysis_data) with
  | Raise e => (store, Raise e)
  | Ok rankings =>
      match rank_loop items_for_analysis store [] rankings with
      | (store', Ok ranked_items) =>
          (store',
           Ok (ranked_items ++ unranked_from rankings O items_for_analysis))
      | (store', Raise e) => (store', Raise e)
      end
  end.

(** What the loop of Phase A does to one item. *)
Definition mark (now : Z) (q : query_analysis) (it : item) : item :=
  let score := raw_score now q it in
  if threshold <? score then set_score (JInt (Z.min 98 score)) it else it.

(** The order Phase A returns references in: higher score first, and among
    equal scores the item that came first in the input. *)
Definition ranks_before (key : nat -> Z) (r r' : nat) : Prop :=
  key r' < key r \/ (key r = key r' /\ (r < r')%nat).

(** A ranking entry whose [id] is missing, null, or an integer. *)
Definition entry_ok (rank : json) : bool :=
  match rank with
  | JDict d =>
      match dict_get "id" d with
      | None | Some JNull => true
      | Some v => match as_int v with Some _ => true | None => false end
      end
  | _ => false
  end.

(** A ranking entry the two loops go through without raising when [n]
    documents are ranked: an object whose [id] is missing, null, an
    integer, or a float that fails [0 <= id < n] (a float that passes is
    used as a list index, which raises). *)
Definition entry_passes (n : nat) (rank : json) : bool :=
  match rank with
  | JDict d =>
      match dict_get "id" d with
      | None | Some JNull => true
      | Some (JFloat f) =>
          negb (int_le_float 0 f && float_lt_int f (Z.of_nat n))
      | Some v => match as_int v with Some _ => true | None => false end
      end
  | _ => false
  end.

(** The position an entry ranks, if its [id] is one of the [n] positions. *)
Definition ranked_position (n : nat) (rank : json) : option nat :=
  match rank with
  | JDict d =>
      match dict_get "id" d with
      | Some v =>
          match as_int v with
          | Some z => if (0 <=? z) && (z <? Z.of_nat n)
                      then Some (Z.to_nat z) else None
          | None => None
          end
      | None => None
      end
  | _ => None
  end.

(** The positions the entries rank, in the order of the entries. *)
Definition ranked_positions (n : nat) (rankings : list json) : list nat :=
  flat_map (fun rank => match ranked_position n rank with
                        | Some p => [p]
                        | None => []
                        end)
           rankings.

(** What one entry does to the objects. *)
Definition apply_rank (items_for_analysis : list nat) (store : list item)
    (rank : json) : list item :=
  match rank, ranked_position (List.length items_for_analysis) rank with
  | JDict d, Some p =>
      update store (nth p items_for_analysis O)
        (set_rank
           match dict_get "relevance_score" d with
           | Some v => v
           | None => JInt 0
           end
           match dict_get "reason" d with
           | Some v => v
           | None => JStr ""
           end)
  | _, _ => store
  end.

(** A decoded ranking whose entries all carry such an id. *)
Definition ranking_ok (rankings : json) : bool :=
  match iterate rankings with
  | Ok entries => forallb entry_ok entries
  | Raise _ => false
  end.

(** A decoded ranking that Phase B goes through without raising when [n]
    documents are ranked. *)
Definition ranking_passes (n : nat) (rankings : json) : bool :=
  match iterate rankings with
  | Ok entries => forallb (entry_passes n) entries
  | Raise _ => false
  end.

(** The call of Phase B raised, or its reply could not be parsed. *)
Definition ranking_failed (llm : ranking_model) (q : query_analysis)
    (store : list item) (filtered_items : list nat) : Prop :=
  match llm q (analysis_data_from store O (firstn 10 filtered_items)) with
  | Raise _ => True
  | Ok result => decoded result = None
  end.

(** Two items that are the same source: they differ at most in the score
    and the reason the analyzer attached. *)
Definition same_source (a b : item) : Prop :=
  url a = url b /\ title a = title b /\ content a = content b
  /\ metadata a = metadata b /\ published_date a = published_date b.

(** *** [ContentAnalyzer.analyze] *)

(** [content_items[:3] if len(content_items) > 3 else content_items], as
    references. *)
Definition first_three (store : list item) : list nat :=
  seq 0 (Nat.min 3 (List.length store)).

(** [analyze] with its result as references: the objects of
    [content_items] after the call and the returned list. *)
Definition analyze_refs (llm : ranking_model) (clock : nat -> Z)
    (q : query_analysis) (content_items : list item)
  : list item * list nat :=
  let '(store, filtered_items) := basic_text_filter clock q content_items in
  match filtered_items with
  | [] => (store, first_three store)
  | _ =>
      if 3 <? len filtered_items then
        match llm_relevance_ranking llm q store filtered_items with
        | (store', Ok ranked_items) => (store', ranked_items)
        | (store', Raise _) => (store', first_three store')
        end
      else (store, filtered_items)
  end.

(** [analyze]: the list of dictionaries the caller receives. *)
Definition analyze (llm : ranking_model) (clock : nat -> Z)
    (q : query_analysis) (content_items : list item) : list item :=
  let '(store, refs) := analyze_refs llm clock q content_items in
  map (deref store) refs.

End ContentAnalyzer.

(* ================================================================== *)
(** ** Conversation history *)

(** One turn: [{"role": ..., "content": ...}].  The content of an assistant
    turn is whatever the synthesis put under [summary], hence a decoded
    value. *)
Module Conversation.

Record turn : Type := mk_turn { role : string; content : json }.

Definition user_turn (query : string) : turn := mk_turn "user" (JStr query).
Definition assistant_turn (content : json) : turn :=
  mk_turn "assistant" content.

End Conversation.

Import Conversation(turn, mk_turn, user_turn, assistant_turn).

(* ================================================================== *)
(** ** src/agent/response_generator.py *)

Module ResponseGenerator.

(** One entry of the prepared content. *)
Record prepared : Type := mk_prepared {
  url : string;
  title : string;
  content : string;
  metadata : json
}.

(** [_prepare_content]. *)
Definition prepare_content (filtered_content : list ContentAnalyzer.item)
  : list prepared :=
  map (fun it =>
         let content := ContentAnalyzer.content it in
         let content :=
           if 8000 <? Z.of_nat (String.length content)
           then (substring 0 (Z.to_nat 8000) content ++ "... [content truncated]")%string
           else content in
         mk_prepared (ContentAnalyzer.url it) (ContentAnalyzer.title it)
                     content (ContentAnalyzer.metadata it))
      filtered_content.

(** [conversation_history[-6:] if len(conversation_history) > 6 else
    conversation_history]. *)
Definition recent_history (conversation_history : list turn) : list turn :=
  skipn (List.length conversation_history - 6) conversation_history.

(** [msg['content'][:100]] needs a value that can be sliced. *)
Definition sliceable (v : json) : bool :=
  match v with
  | JStr _ | JList _ => true
  | _ => false
  end.

(** [_create_synthesis_prompt] builds a string; it raises when a recent
    turn's content cannot be sliced. *)
Definition create_synthesis_prompt (conversation_history : list turn)
  : outcome unit :=
  if (1 <? len conversation_history)
     && existsb (fun msg => negb (sliceable (Conversation.content msg)))
                (recent_history conversation_history)
  then Raise (mk_exn "TypeError" "object is not subscriptable")
  else Ok tt.

(** The generative capability as the synthesizer uses it: what goes into
    the prompt to the reply, or the exception the call raised. *)
Definition synthesis_model : Type :=
  string -> query_analysis -> list prepared -> list turn -> outcome reply.

(** [_get_llm_synthesis]: the decoded reply, or one of the two fallback
    dictionaries; the exception of the prompt builder escapes. *)
Definition get_llm_synthesis (llm : synthesis_model) (query : string)
    (q : query_analysis) (content : list prepared)
    (conversation_history : list turn) : outcome json :=
  match create_synthesis_prompt conversation_history with
  | Raise e => Raise e
  | Ok _ =>
      match llm query q content conversation_history with
      | Ok result =>
          match decoded result with
          | Some JNull | None =>
              Ok (JDict
                [("summary",
                  JStr ("Based on my research about '" ++ query
                        ++ "', I found relevant information but encountered an error formatting it. The information appears to support answering your question, but I need to present it differently.")%string);
                 ("detailed_response", JStr (raw result));
                 ("highlights", JList [])])
          | Some data => Ok data
          end
      | Raise e =>
          Ok (JDict
            [("summary",
              JStr ("I encountered an error while researching '" ++ query
                    ++ "'. Please try rephrasing your question or try again later.")%string);
             ("detailed_response",
              JStr ("Error processing your request: " ++ exn_text e)%string);
             ("highlights", JList [])])
      end
  end.

(** The dictionary [generate] returns; its fallback carries no
    [source_evaluation]. *)
Record response : Type := mk_response {
  summary : json;
  detailed_response : json;
  highlights : json;
  source_evaluation : option json
}.

Definition get_or (key : string) (default : json)
    (d : list (string * json)) : json :=
  match dict_get key d with
  | Some v => v
  | None => default
  end.

(** [ResponseGenerator.generate]. *)
Definition generate (llm : synthesis_model) (query : string)
    (q : query_analysis) (filtered_content : list ContentAnalyzer.item)
    (conversation_history : list turn) : response :=
  let fallback :=
    mk_response
      (JStr ("I found information about '" ++ query
             ++ "', but encountered an error while synthesizing a response. "
             ++ "Please try rephrasing your question or being more specific.")%string)
      (JStr "") (JList []) None in
  let content_for_synthesis := prepare_content filtered_content in
  match get_llm_synthesis llm query q content_for_synthesis
                          conversation_history with
  | Ok (JDict synthesis_result) =>
      mk_response (get_or "summary" (JStr "") synthesis_result)
                  (get_or "detailed_response" (JStr "") synthesis_result)
                  (get_or "highlights" (JList []) synthesis_result)
                  (Some (get_or "source_evaluation" (JDict [])
                                synthesis_result))
  | Ok _ => fallback
  | Raise _ => fallback
  end.

End ResponseGenerator.

(* ================================================================== *)
(** ** src/agent/query_analyzer.py *)

Module QueryAnalyzer.

(** [_create_analysis_prompt] builds a string; as in the synthesizer it
    slices the content of the recent turns ([msg['content'][:200]]) when
    the history has more than one turn, and raises when one cannot be
    sliced. *)
Definition create_analysis_prompt (conversation_history : list turn)
  : outcome unit :=
  if (1 <? len conversation_history)
     && existsb (fun msg =>
                   negb (ResponseGenerator.sliceable (Conversation.content msg)))
                (ResponseGenerator.recent_history conversation_history)
  then Raise (mk_exn "TypeError" "object is not subscriptable")
  else Ok tt.

(** The generative capability as the query analyzer uses it: what goes
    into the prompt to the reply, or the exception the call raised. *)
Definition analysis_model : Type := string -> list turn -> outcome reply.

(** The dictionary [_get_llm_analysis] falls back to. *)
Definition default_analysis (query : string) : json :=
  JDict [("query_type", JStr "factual");
         ("topics", JList []);
         ("search_terms", JList [JStr query]);
         ("time_sensitivity", JStr "any");
         ("required_depth", JStr "standard")].

(** [_get_llm_analysis]: the decoded reply, or the default dictionary when
    the call raised or nothing could be decoded; the exception of the
    prompt builder escapes. *)
Definition get_llm_analysis (llm : analysis_model) (query : string)
    (conversation_history : list turn) : outcome json :=
  match create_analysis_prompt conversation_history with
  | Raise e => Raise e
  | Ok _ =>
      match llm query conversation_history with
      | Ok result =>
          match decoded result with
          | Some JNull | None => Ok (default_analysis query)
          | Some data => Ok data
          end
      | Raise _ => Ok (default_analysis query)
      end
  end.

(** [not v] is false: the truth value of a decoded value. *)
Definition truthy (v : json) : bool :=
  match v with
  | JNull => false
  | JBool b => b
  | JInt z => negb (z =? 0)
  | JFloat f => float_truth f
  | JStr s => negb (String.eqb s "")
  | JList l => match l with [] => false | _ :: _ => true end
  | JDict d => match d with [] => false | _ :: _ => true end
  end.

(** The dictionary [analyze] returns; its fallback carries no
    [additional_context]. *)
Record structured_analysis : Type := mk_structured_analysis {
  query_type : json;
  topics : json;
  search_terms : json;
  time_sensitivity : json;
  required_depth : json;
  result_limit : json;
  additional_context : option json
}.

(** [QueryAnalyzer.analyze]: [analysis.get] raises on a reply that is not
    an object, and every exception ends in the fallback. *)
Definition analyze (llm : analysis_model) (query : string)
    (conversation_history : list turn) : structured_analysis :=
  let fallback :=
    mk_structured_analysis (JStr "factual") (JList []) (JList [JStr query])
                           (JStr "any") (JStr "standard") (JInt 5) None in
  match get_llm_analysis llm query conversation_history with
  | Ok (JDict analysis) =>
      let get := fun key default =>
                   ResponseGenerator.get_or key default analysis in
      let terms := get "search_terms" (JList []) in
      mk_structured_analysis
        (get "query_type" (JStr "factual"))
        (get "topics" (JList []))
        (if truthy terms then terms else JList [JStr query])
        (get "time_sensitivity" (JStr "any"))
        (get "required_depth" (JStr "standard"))
        (get "result_limit" (JInt 5))
        (Some (get "additional_context" (JDict [])))
  | Ok _ => fallback
  | Raise _ => fallback
  end.

End QueryAnalyzer.

(* ================================================================== *)
(** ** src/utils/error_handler.py and the result dictionary *)

(** One entry of [sources]. *)
Record source : Type := mk_source { source_url : string; source_title : string }.

(** The dictionary [ResearchAgent.research] returns; an entry a path does
    not set is [None]. *)
Record research_result : Type := mk_research_result {
  query : option string;
  analysis : option query_analysis;
  sources : list source;
  summary : json;
  detailed_response : option json;
  highlights : option json;
  success : bool;
  error_type : option string;
  message : option string
}.

Module ErrorHandler.

Definition error_messages : list (string * string) :=
  [("ConnectionError", "I couldn't connect to some websites. This might be due to network issues or website restrictions.");
   ("Timeout", "Some websites took too long to respond. Please try again later.");
   ("JSONDecodeError", "I had trouble processing some of the data I retrieved.");
   ("ValueError", "I encountered an unexpected value while processing your request.");
   ("KeyError", "Some expected data was missing while processing your request.");
   ("AttributeError", "I encountered an issue with one of the components while processing your request.");
   ("LLMProviderError", "There was an issue with the AI service that powers my research capabilities.")].

Fixpoint lookup (key : string) (d : list (string * string)) : option string :=
  match d with
  | [] => None
  | (k, v) :: rest => if String.eqb k key then Some v else lookup key rest
  end.

(** The message before the query is added. *)
Definition base_message (error : exn) : string :=
  let error_str := exn_text error in
  match lookup (exn_type error) error_messages with
  | Some message => message
  | None =>
      if contains "api_key" (lower error_str)
         || contains "apikey" (lower error_str)
      then "There was an authentication issue with one of the services I use. Please check API key configurations."
      else if contains "permission" (lower error_str)
              || contains "access" (lower error_str)
      then "I don't have permission to access some content needed for your request."
      else "I encountered an unexpected error while processing your request. Please try again or rephrase your query."
  end.

(** [handle_error]. *)
Definition handle_error (error : exn) (query : option string)
  : research_result :=
  let message := base_message error in
  let message :=
    match query with
    | Some (String c rest) =>
        (message ++ " Your query was: '" ++ String c rest ++ "'")%string
    | _ => message
    end in
  mk_research_result query None [] (JStr message) None None false
                     (Some (exn_type error)) (Some message).

(** The table of [handle_api_error]. *)
Definition status_messages (api_name : string) : list (Z * string) :=
  [(400, "The request to " ++ api_name ++ " was invalid.");
   (401, "Authentication failed for " ++ api_name
         ++ ". Please check your API key.");
   (403, "Access to " ++ api_name ++ " was forbidden. Check your permissions.");
   (404, "The requested resource was not found on " ++ api_name ++ ".");
   (429, api_name ++ " rate limit exceeded. Please try again later.");
   (500, api_name ++ " experienced an internal server error.");
   (502, api_name ++ " returned a bad gateway error.");
   (503, api_name ++ " service is currently unavailable.");
   (504, api_name ++ " request timed out.")]%string.

Fixpoint status_get (status_code : Z) (d : list (Z * string))
  : option string :=
  match d with
  | [] => None
  | (k, v) :: rest => if k =? status_code then Some v
                      else status_get status_code rest
  end.

(** The dictionary [handle_api_error] returns. *)
Record api_error : Type := mk_api_error {
  success : bool;
  error_type : string;
  api_name : string;
  status_code : Z;
  message : string;
  summary : string;
  sources : list source
}.

(** [handle_api_error]; the response text goes to the log only. *)
Definition handle_api_error (api_name : string) (status_code : Z)
    (response_text : string) : api_error :=
  let message :=
    match status_get status_code (status_messages api_name) with
    | Some message => message
    | None => ("Error communicating with " ++ api_name ++ " (HTTP "
               ++ str_of_int status_code ++ ").")%string
    end in
  mk_api_error false "APIError" api_name status_code message message [].

End ErrorHandler.

(* ================================================================== *)
(** ** src/agent/research_agent.py *)

Module ResearchAgent.

(** The five components as one call of [research] meets them: every one
    may return or raise.  The real components are
    [SearchTool.search], [WebScraper.scrape], [ContentAnalyzer.analyze]
    and [ResponseGenerator.generate] above; the tests put mocks here. *)
Record components : Type := mk_components {
  query_analyzer_analyze : string -> list turn -> outcome query_analysis;
  search_tool_search :
    list string -> string -> option Z -> outcome (list SearchTool.candidate);
  scraper_scrape : string -> outcome (option string);
  content_analyzer_analyze :
    query_analysis -> list ContentAnalyzer.item
    -> outcome (list ContentAnalyzer.item);
  response_generator_generate :
    string -> query_analysis -> list ContentAnalyzer.item -> list turn
    -> outcome ResponseGenerator.response
}.

(** Code that reads and appends to [self.conversation_history] and may
    raise: from the history before to the history after, with the value
    returned or the exception raised. *)
Definition action (A : Type) : Type := list turn -> list turn * outcome A.

Definition ret {A} (a : A) : action A := fun h => (h, Ok a).

Definition bind {A B} (m : action A) (k : A -> action B) : action B :=
  fun h =>
    match m h with
    | (h', Ok a) => k a h'
    | (h', Raise e) => (h', Raise e)
    end.

(** A call into a component, which sees no history but what it is given. *)
Definition call {A} (o : outcome A) : action A := fun h => (h, o).

(** [self.conversation_history.append(t)]. *)
Definition append (t : turn) : action unit := fun h => (h ++ [t], Ok tt).

(** [self.conversation_history], as an argument of a call. *)
Definition history : action (list turn) := fun h => (h, Ok h).

Notation "x <~ m ;; k" := (bind m (fun x => k))
  (at level 61, m at next level, right associativity).
Notation "m ;;; k" := (bind m (fun _ => k))
  (at level 61, right associativity).

(** A scrape that adds nothing to [all_content]: it raised, returned
    [None], or returned the empty string. *)
Definition extracts_nothing (o : outcome (option string)) : Prop :=
  match o with
  | Ok (Some (String _ _)) => False
  | _ => True
  end.

(** [query_analysis.get('result_limit', 5)]. *)
Definition limit_of (q : query_analysis) : Z :=
  match result_limit q with
  | Some l => l
  | None => 5
  end.

(** The text under [summary], when it is text. *)
Definition summary_text (result : research_result) : option string :=
  match summary result with
  | JStr text => Some text
  | _ => None
  end.

(** [_handle_no_results]. *)
Definition handle_no_results (query : string) (q : query_analysis)
  : action research_result :=
  let message :=
    ("I couldn't find any information about '" ++ query
     ++ "'. Could you try rephrasing your question or providing more details?")%string in
  append (assistant_turn (JStr message)) ;;;
  ret (mk_research_result (Some query) (Some q) [] (JStr message)
                          None None false (Some "no_results") None).

(** [_handle_no_content]. *)
Definition handle_no_content (query : string) (q : query_analysis)
    (search_results : list SearchTool.candidate) : action research_result :=
  let message :=
    "I found some relevant sources, but couldn't extract their content. This might be due to access restrictions or complex page structures." in
  append (assistant_turn (JStr message)) ;;;
  ret (mk_research_result (Some query) (Some q)
         (map (fun r => mk_source (SearchTool.url r) (SearchTool.title r))
              search_results)
         (JStr message) None None false (Some "extraction_failed") None).

(** Step 3 of [research]: the loop over the search results.  A source
    whose scrape raises, returns [None] or returns the empty string adds
    nothing. *)
Fixpoint scrape_all (c : components)
    (search_results : list SearchTool.candidate)
  : list ContentAnalyzer.item :=
  match search_results with
  | [] => []
  | result :: rest =>
      match scraper_scrape c (SearchTool.url result) with
      | Ok (Some (String a text)) =>
          ContentAnalyzer.mk_item (SearchTool.url result)
            (SearchTool.title result) (String a text)
            (SearchTool.metadata result) ContentAnalyzer.NoDate None None
          :: scrape_all c rest
      | _ => scrape_all c rest
      end
  end.

(** The body of the [try] block of [research]. *)
Definition attempt (c : components) (query : string)
  : action research_result :=
  append (user_turn query) ;;;
  conversation_history <~ history ;;
  q <~ call (query_analyzer_analyze c query conversation_history) ;;
  search_results <~
    call (search_tool_search c (search_terms q) (query_type q)
            (Some (limit_of q))) ;;
  match search_results with
  | [] => handle_no_results query q
  | _ =>
      match scrape_all c search_results with
      | [] => handle_no_content query q search_results
      | all_content =>
          filtered_content <~ call (content_analyzer_analyze c q all_content) ;;
          conversation_history <~ history ;;
          response <~
            call (response_generator_generate c query q filtered_content
                    conversation_history) ;;
          append (assistant_turn (ResponseGenerator.summary response)) ;;;
          ret (mk_research_result (Some query) (Some q)
                 (map (fun it => mk_source (ContentAnalyzer.url it)
                                           (ContentAnalyzer.title it))
                      filtered_content)
                 (ResponseGenerator.summary response)
                 (Some (ResponseGenerator.detailed_response response))
                 (Some (ResponseGenerator.highlights response))
                 true None None)
      end
  end.

(** [ResearchAgent.research]: the history after the call and the
    dictionary returned. *)
Definition research (c : components) (query : string)
    (conversation_history : list turn) : list turn * research_result :=
  match attempt c query conversation_history with
  | (h, Ok result) => (h, result)
  | (h, Raise e) =>
      let error_response := ErrorHandler.handle_error e (Some query) in
      (h ++ [assistant_turn
               match message error_response with
               | Some text => JStr text
               | None => JNull
               end],
       error_response)
  end.

(** The components with another query analyzer. *)
Definition with_query_analyzer (c : components)
    (f : string -> list turn -> outcome query_analysis) : components :=
  mk_components f (search_tool_search c) (scraper_scrape c)
                (content_analyzer_analyze c) (response_generator_generate c).

(** [reset_conversation]. *)
Definition reset_conversation (conversation_history : list turn)
  : list turn := [].

(** A session: calls of [research] one after the other, each with the
    components as that call meets them. *)
Fixpoint session (calls : list (components * string))
    (conversation_history : list turn) : list turn :=
  match calls with
  | [] => conversation_history
  | (c, query) :: rest =>
      session rest (fst (research c query conversation_history))
  end.

End ResearchAgent.

(* ================================================================== *)
(** * Example inputs *)

(** A backend that is down for one term and repeats a URL for the others. *)
Definition example_backend : SearchTool.backend :=
  fun term _ =>
    if String.eqb term "down" then Raise (mk_exn "ConnectionError" "refused")
    else Ok [SearchTool.mk_candidate "https://a.example/1" "A" "" JNull;
             SearchTool.mk_candidate "https://a.example/1" "A again" "" JNull;
             SearchTool.mk_candidate ("https://b.example/" ++ term)%string
                                     term "" JNull].

(** A world whose robots policy disallows every fetch. *)
Definition closed_world : WebScraper.world :=
  WebScraper.mk_world true
    (fun _ => Ok "https://example.com")
    (fun _ _ => Ok false)
    (fun _ => None) (fun _ => None) (fun text => text).

(** A query analysis for the query "capital of France". *)
Definition example_analysis : query_analysis :=
  mk_query_analysis "factual" ["france"] ["capital of France"] "any"
                    "standard" None.

(** The search result of tests/test_agent.py. *)
Definition example_candidate : SearchTool.candidate :=
  SearchTool.mk_candidate "https://example.com" "Test Result" "Test snippet"
                          JNull.

(** The search finds nothing. *)
Definition nothing_found : ResearchAgent.components :=
  ResearchAgent.mk_components
    (fun _ _ => Ok example_analysis)
    (fun _ _ _ => Ok [])
    (fun _ => Ok None)
    (fun _ items => Ok items)
    (fun _ _ _ _ => Raise (mk_exn "AssertionError" "not called")).

(** The search finds one source, whose scrape fails. *)
Definition nothing_extracted : ResearchAgent.components :=
  ResearchAgent.mk_components
    (fun _ _ => Ok example_analysis)
    (fun _ _ _ => Ok [example_candidate])
    (fun _ => Ok None)
    (fun _ items => Ok items)
    (fun _ _ _ _ => Raise (mk_exn "AssertionError" "not called")).

(** A generative capability that is out of reach. *)
Definition unreachable_model : ResponseGenerator.synthesis_model :=
  fun _ _ _ _ => Raise (mk_exn "ConnectionError" "Connection refused").

(** A document published at instant 0. *)
Definition dated_item : ContentAnalyzer.item :=
  ContentAnalyzer.mk_item "https://example.com/paris" "Paris"
    "Paris is the capital of France" JNull
    (ContentAnalyzer.NaiveDate 0) None None.

(** The clock reading [days] days after instant 0. *)
Definition after_days (days : Z) : nat -> Z :=
  fun _ => days * ContentAnalyzer.microseconds_per_day.

(** An undated, unscored content item. *)
Definition document (title content : string) : ContentAnalyzer.item :=
  ContentAnalyzer.mk_item "https://example.com/page" title content JNull
    ContentAnalyzer.NoDate None None.

Definition four_documents : list ContentAnalyzer.item :=
  [document "France a" "x"; document "France capital" "x";
   document "capital" "x"; document "France" "capital"].

(** One weak document followed by eleven stronger ones. *)
Definition twelve_documents : list ContentAnalyzer.item :=
  document "France" "x" :: repeat (document "capital France" "x") 11.

(** A clock that stands still. *)
Definition noon : nat -> Z := fun _ => 0.

(** A model whose reply decodes to [v]. *)
Definition answering (v : json) : ContentAnalyzer.ranking_model :=
  fun _ _ => Ok (mk_reply "" (Some v)).

(** One entry of a ranking. *)
Definition ranking_entry (id : json) (score : Z) : json :=
  JDict [("id", id); ("relevance_score", JInt score)].

(** The model gives the first document the score 100. *)
Definition generous_model : ContentAnalyzer.ranking_model :=
  answering (JDict [("rankings", JList [ranking_entry (JInt 0) 100])]).

(** The model ranks the first document 21 times. *)
Definition repeating_model : ContentAnalyzer.ranking_model :=
  answering
    (JDict [("rankings", JList (repeat (ranking_entry (JInt 0) 50) 21))]).

(** The model writes its ids as strings. *)
Definition string_id_model : ContentAnalyzer.ranking_model :=
  answering (JDict [("rankings", JList [ranking_entry (JStr "0") 90])]).

(** The model ranks the third document only. *)
Definition partial_model : ContentAnalyzer.ranking_model :=
  answering (JDict [("rankings", JList [ranking_entry (JInt 2) 90])]).

(** The model ranks the third document, after an entry whose id is the
    float 10.5. *)
Definition float_id_model : ContentAnalyzer.ranking_model :=
  answering
    (JDict [("rankings",
             JList [ranking_entry (JFloat (FFinite (21 # 2))) 95;
                    ranking_entry (JInt 2) 90])]).

(** The model writes the id 1 as the float 1.0. *)
Definition float_index_model : ContentAnalyzer.ranking_model :=
  answering
    (JDict [("rankings", JList [ranking_entry (JFloat (FFinite (1 # 1))) 90])]).

(** The model ranks all four documents, last first. *)
Definition reversing_model : ContentAnalyzer.ranking_model :=
  answering
    (JDict [("rankings",
             JList [ranking_entry (JInt 3) 90; ranking_entry (JInt 2) 80;
                    ranking_entry (JInt 1) 70; ranking_entry (JInt 0) 60])]).

(** The call fails. *)
Definition silent_model : ContentAnalyzer.ranking_model :=
  fun _ _ => Raise (mk_exn "Timeout" "timed out").


(** A world that allows every fetch; the article extraction yields a short
    text, the generic extraction a long one. *)
Definition open_world : WebScraper.world :=
  WebScraper.mk_world true
    (fun _ => Ok "https://example.com")
    (fun _ _ => Ok true)
    (fun _ => Some "Too short to keep")
    (fun _ => Some "A long page about the capital of France, which is Paris, the largest city of the country and the seat of its government.")
    (fun text => text).

(** A world in which robots policies are not respected. *)
Definition careless_world : WebScraper.world :=
  WebScraper.mk_world false
    (fun _ => Ok "https://example.com")
    (fun _ _ => Ok false)
    (fun _ => None) (fun _ => None) (fun text => text).

(** A model whose reply decodes to a list instead of an object. *)
Definition listing_model : ResponseGenerator.synthesis_model :=
  fun _ _ _ _ =>
    Ok (mk_reply "[1, 2]" (Some (JList [JInt 1; JInt 2]))).

(** Components of a call that succeeds: one source, scraped and kept. *)
Definition all_well : ResearchAgent.components :=
  ResearchAgent.mk_components
    (fun _ _ => Ok example_analysis)
    (fun _ _ _ => Ok [example_candidate])
    (fun _ => Ok (Some "Paris is the capital of France."))
    (fun _ items => Ok items)
    (fun _ _ _ _ =>
       Ok (ResponseGenerator.mk_response (JStr "Paris.") (JStr "Paris, France.")
             (JList []) None)).

(** Components whose search raises. *)
Definition search_down : ResearchAgent.components :=
  ResearchAgent.mk_components
    (fun _ _ => Ok example_analysis)
    (fun _ _ _ => Raise (mk_exn "ConnectionError" "refused"))
    (fun _ => Ok None)
    (fun _ items => Ok items)
    (fun _ _ _ _ => Raise (mk_exn "AssertionError" "not called")).

(** The message of a call whose search raises. *)
Definition summary_text_of_search_down : option string :=
  ResearchAgent.summary_text
    (snd (ResearchAgent.research search_down "capital of France" [])).

(** An analysis model whose call raises. *)
Definition failing_analyst : QueryAnalyzer.analysis_model :=
  fun _ _ => Raise (mk_exn "APIConnectionError" "connection refused").


(* ================================================================== *)
(** * Properties *)

(** ** Lists and strings *)

Lemma NoDup_firstn {A} (n : nat) (l : list A) : NoDup l -> NoDup (firstn n l).
Proof.
  intros H. rewrite <- (firstn_skipn n l) in H.
  now apply NoDup_app_remove_r in H.
Qed.

Lemma NoDup_slice_to {A} (k : Z) (l : list A) :
  NoDup l -> NoDup (slice_to k l).
Proof.
  intros H. unfold slice_to. destruct (0 <=? k); now apply NoDup_firstn.
Qed.

Lemma map_slice_to {A B} (f : A -> B) (k : Z) (l : list A) :
  map f (slice_to k l) = slice_to k (map f l).
Proof.
  unfold slice_to. rewrite length_map.
  destruct (0 <=? k); now rewrite firstn_map.
Qed.

Lemma len_slice_to {A} (k : Z) (l : list A) :
  0 <= k -> len (slice_to k l) <= k.
Proof.
  intros Hk. unfold slice_to, len.
  destruct (0 <=? k) eqn:E; [|lia].
  pose proof (firstn_le_length (Z.to_nat k) l). lia.
Qed.

(** ** The Retrieval Broker *)

Section Broker.

Import SearchTool.

Variable b : backend.
Variable is_news_query : bool.
Variable limit : Z.

Lemma seen_spec (results : list candidate) (result : candidate) :
  seen results result = false -> ~ In (url result) (map url results).
Proof.
  unfold seen. intros Hs Hin.
  apply in_map_iff in Hin. destruct Hin as [r [Hu Hr]].
  assert (existsb (fun r0 => String.eqb (url r0) (url result)) results = true)
    as Ht.
  { apply existsb_exists. exists r. split; [exact Hr|].
    now apply String.eqb_eq. }
  congruence.
Qed.

Lemma add_results_NoDup (term_results results : list candidate) :
  NoDup (map url results) ->
  NoDup (map url (add_results limit results term_results)).
Proof.
  revert results.
  induction term_results as [|result rest IH]; intros results H; simpl.
  - exact H.
  - destruct (limit <=? len results); [exact H|].
    destruct (seen results result) eqn:Hs.
    + now apply IH.
    + apply IH. rewrite map_app. simpl.
      apply NoDup_app. repeat split.
      * exact H.
      * constructor; [intros []|constructor].
      * intros x Hx [Hy|[]]. subst x.
        now apply (seen_spec results result).
Qed.

Lemma search_terms_loop_NoDup (terms : list string)
    (results : list candidate) :
  NoDup (map url results) ->
  NoDup (map url (search_terms_loop b is_news_query limit results terms)).
Proof.
  revert results.
  induction terms as [|term rest IH]; intros results H; simpl.
  - exact H.
  - destruct (limit <=? len results); [exact H|].
    destruct (b term is_news_query) as [term_results|e].
    + apply IH. now apply add_results_NoDup.
    + now apply IH.
Qed.

Lemma search_terms_loop_skips (before after : list string) (term : string)
    (results : list candidate) :
  failed b is_news_query term ->
  search_terms_loop b is_news_query limit results (before ++ term :: after)
  = search_terms_loop b is_news_query limit results (before ++ after).
Proof.
  intros Hf. revert results.
  induction before as [|t rest IH]; intros results; simpl.
  - unfold failed in Hf.
    destruct (limit <=? len results) eqn:E.
    + destruct after; simpl; [reflexivity|now rewrite E].
    + destruct (b term is_news_query) as [[|c l]|e];
        [reflexivity|contradiction|reflexivity].
  - destruct (limit <=? len results); [reflexivity|].
    destruct (b t is_news_query); apply IH.
Qed.

End Broker.

(** ** The Content Extractor *)

(** C10.  For every URL that is empty or starts with neither "http://" nor
    "https://", [scrape] returns [None] at once: the permission cache is
    left as it was, nothing is asked of the outside world (no cache lookup,
    no robots file, no fetch), and the robots sentinel is not returned. *)
Theorem scrape_rejects_invalid_url
    (w : WebScraper.world) (c : WebScraper.robots_cache) (url : string) :
  url = ""
  \/ (startswith "http://" url = false /\ startswith "https://" url = false) ->
  WebScraper.scrape w c url = (None, c, [])
  /\ fst (fst (WebScraper.scrape w c url))
     <> Some WebScraper.robots_disallowed.
Proof.
  intros H.
  assert (WebScraper.scrape w c url = (None, c, [])) as E.
  { unfold WebScraper.scrape. destruct H as [->|[H1 H2]].
    - reflexivity.
    - rewrite H1, H2. now rewrite orb_true_r. }
  split; [exact E|]. rewrite E. discriminate.
Qed.

Lemma scrape_rejects_invalid_url_witness :
  WebScraper.scrape closed_world [] "ftp://example.com/file" = (None, [], [])
  /\ WebScraper.scrape closed_world [] "https://example.com/page"
     = (Some WebScraper.robots_disallowed,
        [("https://example.com", false)],
        [WebScraper.CacheLookup "https://example.com";
         WebScraper.RobotsRead "https://example.com"]).
Proof.
  split.
  - apply (scrape_rejects_invalid_url closed_world [] "ftp://example.com/file").
    right. split; reflexivity.
  - reflexivity.
Defined.

(** ** The Orchestrator *)

Lemma startswith_app (p s : string) : startswith p (p ++ s)%string = true.
Proof.
  induction p as [|a p IH]; simpl; [reflexivity|].
  now rewrite Ascii.eqb_refl.
Qed.

Lemma startswith_contains (needle hay : string) :
  startswith needle hay = true -> contains needle hay = true.
Proof.
  intros H. destruct hay; simpl; rewrite H; reflexivity.
Qed.

Lemma mentions_contains (query text : string) :
  mentions query text -> contains query text = true.
Proof.
  intros [before [after ->]].
  induction before as [|a before IH].
  - simpl. apply startswith_contains, startswith_app.
  - simpl. simpl in IH. rewrite IH. apply orb_true_r.
Qed.

Lemma string_app_assoc (a b d : string) :
  ((a ++ b) ++ d = a ++ b ++ d)%string.
Proof.
  induction a as [|x a IH]; simpl; [reflexivity|now rewrite IH].
Qed.

Section Orchestrator.

Import ResearchAgent.

Variable c : components.
Variable asked : string.
Variable h : list turn.

Ltac run_research :=
  cbv beta iota delta [research attempt bind append history call ret
                       handle_no_results handle_no_content].

Tactic Notation "branch" constr(x) "as" simple_intropattern(pat) :=
  destruct x as pat eqn:?; cbn [fst snd].

Lemma scrape_all_nothing (search_results : list SearchTool.candidate) :
  (forall r, In r search_results ->
             extracts_nothing (scraper_scrape c (SearchTool.url r))) ->
  scrape_all c search_results = [].
Proof.
  induction search_results as [|r rest IH]; intros H; simpl; [reflexivity|].
  pose proof (H r (or_introl eq_refl)) as Hr.
  unfold extracts_nothing in Hr.
  destruct (scraper_scrape c (SearchTool.url r)) as [[[|a text]|]|e];
    try contradiction; apply IH; intros r' Hin; apply H; now right.
Qed.

(** Every path through [research] leaves the history one user turn and one
    assistant turn longer, the latter carrying the result's summary. *)
Lemma research_history :
  fst (research c asked h)
  = h ++ [user_turn asked; assistant_turn (summary (snd (research c asked h)))].
Proof.
  run_research.
  branch (query_analyzer_analyze c asked (h ++ [user_turn asked])) as [q|e].
  2: now rewrite <- app_assoc.
  branch (search_tool_search c (search_terms q) (query_type q)
            (Some (limit_of q))) as [[|r rs]|e].
  1,3: now rewrite <- app_assoc.
  branch (scrape_all c (r :: rs)) as [|it its].
  1: now rewrite <- app_assoc.
  branch (content_analyzer_analyze c q (it :: its)) as [filtered|e].
  2: now rewrite <- app_assoc.
  branch (response_generator_generate c asked q filtered
            (h ++ [user_turn asked])) as [response|e];
    now rewrite <- app_assoc.
Qed.

(** The message [handle_error] builds for a call of [research] references
    the query. *)
Lemma handle_error_mentions (e : exn) :
  exists text,
    summary (ErrorHandler.handle_error e (Some asked)) = JStr text
    /\ mentions asked text.
Proof.
  unfold ErrorHandler.handle_error. destruct asked as [|a rest]; cbn [summary].
  - eexists. split; [reflexivity|]. now exists ""%string, (ErrorHandler.base_message e).
  - eexists. split; [reflexivity|].
    exists (ErrorHandler.base_message e ++ " Your query was: '")%string,
           "'"%string.
    now rewrite string_app_assoc.
Qed.

(** What a failed call says: the fixed sentence of the no-content path, or a
    message that references the query. *)
Lemma research_failure_message :
  success (snd (research c asked h)) = false ->
  (error_type (snd (research c asked h)) = Some "extraction_failed"
   /\ summary_text (snd (research c asked h))
      = Some "I found some relevant sources, but couldn't extract their content. This might be due to access restrictions or complex page structures."
   /\ query (snd (research c asked h)) = Some asked)
  \/ exists text,
       summary_text (snd (research c asked h)) = Some text
       /\ mentions asked text.
Proof.
  unfold summary_text. run_research.
  branch (query_analyzer_analyze c asked (h ++ [user_turn asked])) as [q|e].
  2: { intros _. right. destruct (handle_error_mentions e) as [t [-> Hm]].
       now exists t. }
  branch (search_tool_search c (search_terms q) (query_type q)
            (Some (limit_of q))) as [[|r rs]|e].
  3: { intros _. right. destruct (handle_error_mentions e) as [t [-> Hm]].
       now exists t. }
  { intros _. right. eexists. split; [reflexivity|].
    now exists "I couldn't find any information about '"%string,
      "'. Could you try rephrasing your question or providing more details?"%string. }
  branch (scrape_all c (r :: rs)) as [|it its].
  { intros _. left. repeat split. }
  branch (content_analyzer_analyze c q (it :: its)) as [filtered|e].
  2: { intros _. right. destruct (handle_error_mentions e) as [t [-> Hm]].
       now exists t. }
  branch (response_generator_generate c asked q filtered
            (h ++ [user_turn asked])) as [response|e].
  - discriminate.
  - intros _. right. destruct (handle_error_mentions e) as [t [-> Hm]].
    now exists t.
Qed.

(** The query analyzer is consulted once, with the history that already
    ends in the user turn. *)
Lemma research_classifies_after_user_turn :
  research c asked h
  = research
      (with_query_analyzer c
         (fun _ _ => query_analyzer_analyze c asked (h ++ [user_turn asked])))
      asked h.
Proof.
  assert (forall f search_results,
             scrape_all (with_query_analyzer c f) search_results
             = scrape_all c search_results) as E.
  { intros f search_results.
    induction search_results as [|r rest IH]; simpl; [reflexivity|].
    now rewrite IH. }
  unfold research, attempt, bind, append, history, call.
  cbn [query_analyzer_analyze search_tool_search content_analyzer_analyze
       response_generator_generate with_query_analyzer].
  destruct (query_analyzer_analyze c asked (h ++ [user_turn asked]))
    as [q|e]; [|reflexivity].
  destruct (search_tool_search c (search_terms q) (query_type q)
              (Some (limit_of q))) as [[|r rs]|e]; try reflexivity.
  now rewrite E.
Qed.

End Orchestrator.

Lemma session_length (calls : list (ResearchAgent.components * string))
    (h : list turn) :
  List.length (ResearchAgent.session calls h)
  = (List.length h + 2 * List.length calls)%nat.
Proof.
  revert h. induction calls as [|[c asked] rest IH]; intros h; simpl.
  - lia.
  - rewrite IH, research_history, length_app. simpl. lia.
Qed.

(** C3.  In every call of [research], on every path (success, either
    short-circuit, or a caught exception), the history grows by exactly the
    user turn followed by exactly one assistant turn, which carries the
    summary of the returned result; the user turn is already there when the
    query is classified.  Hence the history of a fresh session holds 2N
    turns after N calls, and none after a reset, whatever it held before. *)
Theorem history_grows_by_one_exchange_per_call :
  (forall (c : ResearchAgent.components) (asked : string) (h : list turn),
      fst (ResearchAgent.research c asked h)
      = h ++ [user_turn asked;
              assistant_turn (summary (snd (ResearchAgent.research c asked h)))]
      /\ ResearchAgent.research c asked h
         = ResearchAgent.research
             (ResearchAgent.with_query_analyzer c
                (fun _ _ => ResearchAgent.query_analyzer_analyze c asked
                              (h ++ [user_turn asked])))
             asked h)
  /\ (forall calls : list (ResearchAgent.components * string),
         List.length (ResearchAgent.session calls [])
         = (2 * List.length calls)%nat)
  /\ (forall h : list turn,
         List.length (ResearchAgent.reset_conversation h) = O).
Proof.
  split; [|split].
  - intros c asked h. split.
    + apply research_history.
    + apply research_classifies_after_user_turn.
  - intros calls. now rewrite session_length.
  - reflexivity.
Qed.

(** C1 (as the code has it).  When the search returns no candidate, the
    result has [success = false], error tag "no_results" and no sources.
    When it returns candidates and no extraction yields text, the result
    has [success = false], the error tag "extraction_failed", and as
    sources the url and title of every search result. *)
Theorem short_circuit_results
    (c : ResearchAgent.components) (asked : string) (h : list turn)
    (q : query_analysis) (search_results : list SearchTool.candidate) :
  ResearchAgent.query_analyzer_analyze c asked (h ++ [user_turn asked]) = Ok q ->
  ResearchAgent.search_tool_search c (search_terms q) (query_type q)
    (Some (ResearchAgent.limit_of q)) = Ok search_results ->
  let result := snd (ResearchAgent.research c asked h) in
  (search_results = [] ->
   success result = false
   /\ error_type result = Some "no_results"
   /\ sources result = [])
  /\ (search_results <> [] ->
      (forall r, In r search_results ->
         ResearchAgent.extracts_nothing
           (ResearchAgent.scraper_scrape c (SearchTool.url r))) ->
      success result = false
      /\ error_type result = Some "extraction_failed"
      /\ sources result
         = map (fun r => mk_source (SearchTool.url r) (SearchTool.title r))
               search_results).
Proof.
  intros Hq Hs result. subst result.
  unfold ResearchAgent.research, ResearchAgent.attempt, ResearchAgent.bind,
    ResearchAgent.append, ResearchAgent.history, ResearchAgent.call.
  rewrite Hq, Hs. split.
  - intros ->. repeat split.
  - intros Hne Hall. destruct search_results as [|r rs]; [congruence|].
    rewrite (scrape_all_nothing c (r :: rs) Hall). repeat split.
Qed.

Lemma short_circuit_results_witness :
  (let result := snd (ResearchAgent.research nothing_found "capital of France" [])
   in success result = false
      /\ error_type result = Some "no_results"
      /\ sources result = [])
  /\ (let result :=
        snd (ResearchAgent.research nothing_extracted "capital of France" [])
      in success result = false
         /\ error_type result = Some "extraction_failed"
         /\ sources result = [mk_source "https://example.com" "Test Result"]).
Proof.
  split.
  - apply (short_circuit_results nothing_found "capital of France" []
             example_analysis [] eq_refl eq_refl).
    reflexivity.
  - apply (short_circuit_results nothing_extracted "capital of France" []
             example_analysis [example_candidate] eq_refl eq_refl).
    + discriminate.
    + intros r _. exact I.
Defined.

(** C1 as stated fails: with every extraction returning none, the error
    tag of the result is not "no_content". *)
Lemma no_content_tag_counterexample :
  ResearchAgent.search_tool_search nothing_extracted ["capital of France"]
    "factual" (Some 5) = Ok [example_candidate]
  /\ ResearchAgent.scraper_scrape nothing_extracted "https://example.com"
     = Ok None
  /\ error_type
       (snd (ResearchAgent.research nothing_extracted "capital of France" []))
     <> Some "no_content".
Proof.
  repeat split. discriminate.
Qed.

(** C4 (as the code has it).  The message of a result with
    [success = false] references the query when the search found nothing
    and when an exception was caught; when no content could be extracted it
    is one fixed sentence, and the query is carried by the result's [query]
    entry only. *)
Theorem failure_message_references_query_except_no_content
    (c : ResearchAgent.components) (asked : string) (h : list turn) :
  let result := snd (ResearchAgent.research c asked h) in
  success result = false ->
  (error_type result = Some "extraction_failed"
   /\ ResearchAgent.summary_text result
      = Some "I found some relevant sources, but couldn't extract their content. This might be due to access restrictions or complex page structures."
   /\ query result = Some asked)
  \/ exists text,
       ResearchAgent.summary_text result = Some text /\ mentions asked text.
Proof.
  intros result. apply research_failure_message.
Qed.

Lemma failure_message_witness :
  let result := snd (ResearchAgent.research nothing_found "capital of France" [])
  in
  ResearchAgent.summary_text result
  = Some "I couldn't find any information about 'capital of France'. Could you try rephrasing your question or providing more details?"
  /\ ((error_type result = Some "extraction_failed"
       /\ ResearchAgent.summary_text result
          = Some "I found some relevant sources, but couldn't extract their content. This might be due to access restrictions or complex page structures."
       /\ query result = Some "capital of France")
      \/ exists text,
           ResearchAgent.summary_text result = Some text
           /\ mentions "capital of France" text).
Proof.
  split; [reflexivity|].
  apply (failure_message_references_query_except_no_content
           nothing_found "capital of France" []).
  reflexivity.
Defined.

(** C4 as stated fails: a call that ends without extractable content
    returns a message in which the query does not occur. *)
Lemma no_content_message_counterexample :
  let result :=
    snd (ResearchAgent.research nothing_extracted "capital of France" []) in
  success result = false
  /\ exists text,
       ResearchAgent.summary_text result = Some text
       /\ ~ mentions "capital of France" text.
Proof.
  split; [reflexivity|]. eexists. split; [reflexivity|].
  intros Hm. apply mentions_contains in Hm. vm_compute in Hm. discriminate.
Qed.

(** ** The Synthesizer *)

(** C5 (as the code has it).  Once the prompt is built, the synthesizer
    does not raise.  When the generative call raises, it returns a fallback
    whose summary is a templated apology that references the query, whose
    detailed response is "Error processing your request: " followed by the
    text of the exception, and whose highlights are empty.  When the reply
    cannot be parsed, the summary is a templated apology that references
    the query, the detailed response is the raw text of the reply, and the
    highlights are empty. *)
Theorem synthesis_fallbacks
    (llm : ResponseGenerator.synthesis_model) (asked : string)
    (q : query_analysis) (filtered_content : list ContentAnalyzer.item)
    (conversation_history : list turn) :
  ResponseGenerator.create_synthesis_prompt conversation_history = Ok tt ->
  let outcome_of_call :=
    llm asked q (ResponseGenerator.prepare_content filtered_content)
        conversation_history in
  let response :=
    ResponseGenerator.generate llm asked q filtered_content
                               conversation_history in
  (forall e, outcome_of_call = Raise e ->
     (exists text, ResponseGenerator.summary response = JStr text
                   /\ mentions asked text)
     /\ ResponseGenerator.detailed_response response
        = JStr ("Error processing your request: " ++ exn_text e)%string
     /\ ResponseGenerator.highlights response = JList [])
  /\ (forall result, outcome_of_call = Ok result -> decoded result = None ->
      (exists text, ResponseGenerator.summary response = JStr text
                    /\ mentions asked text)
      /\ ResponseGenerator.detailed_response response = JStr (raw result)
      /\ ResponseGenerator.highlights response = JList []).
Proof.
  intros Hp outcome_of_call response. subst outcome_of_call response.
  unfold ResponseGenerator.generate, ResponseGenerator.get_llm_synthesis.
  rewrite Hp. split.
  - intros e ->. cbn. repeat split.
    eexists. split; [reflexivity|].
    now exists "I encountered an error while researching '"%string,
      "'. Please try rephrasing your question or try again later."%string.
  - intros result -> ->. cbn. repeat split.
    eexists. split; [reflexivity|].
    now exists "Based on my research about '"%string,
      "', I found relevant information but encountered an error formatting it. The information appears to support answering your question, but I need to present it differently."%string.
Qed.

Lemma synthesis_fallbacks_witness :
  ResponseGenerator.detailed_response
    (ResponseGenerator.generate unreachable_model "capital of France"
       example_analysis [] [])
  = JStr "Error processing your request: Connection refused"
  /\ ResponseGenerator.highlights
       (ResponseGenerator.generate unreachable_model "capital of France"
          example_analysis [] [])
     = JList [].
Proof.
  pose proof (synthesis_fallbacks unreachable_model "capital of France"
                example_analysis [] [] eq_refl) as [Hcall _].
  destruct (Hcall _ eq_refl) as [_ [Hd Hh]].
  split; [exact Hd|exact Hh].
Defined.

(** C5 as stated fails: the call fails, no model text is obtained, and the
    detailed response is not empty. *)
Lemma synthesis_call_failure_counterexample :
  unreachable_model "capital of France" example_analysis
    (ResponseGenerator.prepare_content []) []
  = Raise (mk_exn "ConnectionError" "Connection refused")
  /\ ResponseGenerator.detailed_response
       (ResponseGenerator.generate unreachable_model "capital of France"
          example_analysis [] [])
     <> JStr "".
Proof.
  split; [reflexivity|]. discriminate.
Qed.

(** ** The Relevance Engine *)

Section Store.

Import ContentAnalyzer.

Lemma update_length (store : list item) (r : nat) (f : item -> item) :
  List.length (update store r f) = List.length store.
Proof.
  revert r. induction store as [|it rest IH]; intros [|r]; simpl;
    try reflexivity. now rewrite IH.
Qed.

Lemma deref_update_same (store : list item) (r : nat) (f : item -> item) :
  (r < List.length store)%nat ->
  deref (update store r f) r = f (deref store r).
Proof.
  unfold deref. revert r.
  induction store as [|it rest IH]; intros [|r] H; simpl in *;
    try lia; try reflexivity.
  apply IH. lia.
Qed.

Lemma deref_update_other (store : list item) (r r' : nat) (f : item -> item) :
  r <> r' -> deref (update store r f) r' = deref store r'.
Proof.
  unfold deref. revert r r'.
  induction store as [|it rest IH]; intros [|r] [|r'] H; simpl;
    try reflexivity; try congruence.
  apply IH. congruence.
Qed.

Lemma raw_score_set_score (now : Z) (q : query_analysis) (v : json)
    (it : item) :
  raw_score now q (set_score v it) = raw_score now q it.
Proof. reflexivity. Qed.

End Store.

Section PhaseA.

Import ContentAnalyzer.

Variable clock : nat -> Z.
Variable q : query_analysis.

Lemma filter_loop_facts (items : list item) (r0 : nat) :
  let '(store, filtered) := filter_loop clock q r0 items in
  List.length store = List.length items
  /\ (forall i, (i < List.length items)%nat ->
        nth i store no_item = mark (clock (r0 + i)) q (nth i items no_item))
  /\ StronglySorted lt filtered
  /\ Forall (fun r =>
               (r0 <= r < r0 + List.length items)%nat
               /\ threshold
                  < raw_score (clock r) q (nth (r - r0) items no_item))
            filtered.
Proof.
  revert r0. induction items as [|it rest IH]; intros r0; simpl.
  - repeat split; try constructor. intros i Hi. lia.
  - specialize (IH (S r0)).
    destruct (filter_loop clock q (S r0) rest) as [store filtered].
    destruct IH as [Hlen [Hnth [Hsorted Hall]]].
    assert (Forall (fun r =>
               (r0 <= r < r0 + S (List.length rest))%nat
               /\ threshold
                  < raw_score (clock r) q
                      (nth (r - r0) (it :: rest) no_item)) filtered) as Hall'.
    { eapply Forall_impl; [|exact Hall]. cbv beta. intros r [Hr Hs].
      split; [lia|].
      replace (r - r0)%nat with (S (r - S r0)) by lia. exact Hs. }
    assert (forall i, (i < S (List.length rest))%nat ->
              nth i (mark (clock r0) q it :: store) no_item
              = mark (clock (r0 + i)) q (nth i (it :: rest) no_item)) as Hnth'.
    { intros [|i] Hi; simpl.
      - now rewrite Nat.add_0_r.
      - rewrite Hnth by lia. f_equal. f_equal. lia. }
    unfold mark in Hnth'.
    destruct (threshold <? raw_score (clock r0) q it) eqn:E; simpl.
    + repeat split; try (simpl; lia); try exact Hnth'.
      * constructor; [exact Hsorted|].
        eapply Forall_impl; [|exact Hall]. cbv beta. intros r [Hr _]. lia.
      * constructor; [|exact Hall'].
        split; [lia|]. rewrite Nat.sub_diag. simpl.
        now apply Z.ltb_lt.
    + repeat split; try (simpl; lia); try exact Hnth'; assumption.
Qed.

Lemma filter_loop_idempotent (items : list item) (r0 : nat) :
  filter_loop clock q r0 (fst (filter_loop clock q r0 items))
  = filter_loop clock q r0 items.
Proof.
  revert r0. induction items as [|it rest IH]; intros r0; simpl;
    [reflexivity|].
  specialize (IH (S r0)).
  destruct (filter_loop clock q (S r0) rest) as [store filtered] eqn:E.
  simpl in IH.
  destruct (threshold <? raw_score (clock r0) q it) eqn:Ht; simpl.
  - rewrite raw_score_set_score, Ht, IH. reflexivity.
  - rewrite Ht, IH. reflexivity.
Qed.

End PhaseA.

Lemma raw_score_without_date (now now' : Z) (q : query_analysis)
    (it : ContentAnalyzer.item) :
  (forall instant,
      ContentAnalyzer.published_date it <> ContentAnalyzer.NaiveDate instant) ->
  ContentAnalyzer.raw_score now q it = ContentAnalyzer.raw_score now' q it.
Proof.
  intros H. unfold ContentAnalyzer.raw_score.
  destruct (ContentAnalyzer.published_date it) as [| | |instant];
    try reflexivity.
  now destruct (H instant).
Qed.

Lemma filter_loop_without_dates (clock clock' : nat -> Z) (q : query_analysis)
    (items : list ContentAnalyzer.item) (r0 : nat) :
  Forall (fun it => forall instant,
            ContentAnalyzer.published_date it
            <> ContentAnalyzer.NaiveDate instant) items ->
  ContentAnalyzer.filter_loop clock q r0 items
  = ContentAnalyzer.filter_loop clock' q r0 items.
Proof.
  intros H. revert r0.
  induction H as [|it rest Hit Hrest IH]; intros r0; simpl; [reflexivity|].
  rewrite (raw_score_without_date (clock r0) (clock' r0) q it Hit).
  now rewrite IH.
Qed.

Section Sorting.

Import ContentAnalyzer.

Variable key : nat -> Z.

Lemma insert_desc_In (a x : nat) (l : list nat) :
  In x (insert_desc key a l) <-> x = a \/ In x l.
Proof.
  induction l as [|y l IH]; simpl.
  - intuition.
  - destruct (key a <? key y); simpl; [rewrite IH|]; intuition.
Qed.

Lemma sort_desc_In (x : nat) (l : list nat) :
  In x (sort_desc key l) <-> In x l.
Proof.
  induction l as [|a l IH]; simpl; [tauto|].
  rewrite insert_desc_In, IH. intuition.
Qed.

Lemma sort_desc_Forall (P : nat -> Prop) (l : list nat) :
  Forall P l -> Forall P (sort_desc key l).
Proof.
  rewrite !Forall_forall. intros H x Hx. apply H. now apply sort_desc_In.
Qed.

Lemma ranks_before_key (r r' : nat) :
  ranks_before key r r' -> key r' <= key r.
Proof. unfold ranks_before. lia. Qed.

Lemma insert_desc_sorted (a : nat) (l : list nat) :
  StronglySorted (ranks_before key) l ->
  Forall (fun y => (a < y)%nat) l ->
  StronglySorted (ranks_before key) (insert_desc key a l).
Proof.
  induction l as [|y l IH]; intros Hs Ha; simpl.
  - constructor; constructor.
  - inversion Hs as [|y' l' Hs' Hy]; subst.
    inversion Ha as [|y' l' Hay Ha']; subst.
    destruct (key a <? key y) eqn:E.
    + apply Z.ltb_lt in E. constructor; [now apply IH|].
      apply Forall_forall. intros x Hx. apply insert_desc_In in Hx.
      destruct Hx as [->|Hx].
      * left. exact E.
      * rewrite Forall_forall in Hy. now apply Hy.
    + apply Z.ltb_ge in E. constructor; [exact Hs|].
      constructor.
      * unfold ranks_before. lia.
      * rewrite Forall_forall in *. intros x Hx.
        pose proof (ranks_before_key _ _ (Hy x Hx)).
        pose proof (Ha' x Hx). unfold ranks_before. lia.
Qed.

Lemma sort_desc_sorted (l : list nat) :
  StronglySorted lt l -> StronglySorted (ranks_before key) (sort_desc key l).
Proof.
  induction l as [|a l IH]; intros Hs; simpl; [constructor|].
  inversion Hs as [|a' l' Hs' Ha]; subst.
  apply insert_desc_sorted; [now apply IH|].
  now apply sort_desc_Forall.
Qed.

Lemma firstn_sorted {A} (R : A -> A -> Prop) (n : nat) (l : list A) :
  StronglySorted R l -> StronglySorted R (firstn n l).
Proof.
  revert n. induction l as [|a l IH]; intros [|n] Hs; simpl;
    try constructor.
  - inversion Hs; subst. now apply IH.
  - inversion Hs as [|a' l' Hs' Ha]; subst.
    rewrite Forall_forall in *. intros x Hx. apply Ha.
    rewrite <- (firstn_skipn n l). apply in_or_app. now left.
Qed.

Lemma ranks_before_NoDup (l : list nat) :
  StronglySorted (ranks_before key) l -> NoDup l.
Proof.
  induction 1 as [|a l Hs IH Ha]; constructor; [|exact IH].
  intros Hin. rewrite Forall_forall in Ha.
  specialize (Ha a Hin). unfold ranks_before in Ha. lia.
Qed.

End Sorting.

Lemma firstn_In {A} (n : nat) (l : list A) (x : A) :
  In x (firstn n l) -> In x l.
Proof.
  intros H. rewrite <- (firstn_skipn n l). apply in_or_app. now left.
Qed.

Section BasicTextFilter.

Import ContentAnalyzer.

Variable clock : nat -> Z.
Variable q : query_analysis.
Variable items : list item.

Let store := fst (basic_text_filter clock q items).
Let filtered := snd (basic_text_filter clock q items).

Lemma basic_text_filter_store :
  List.length store = List.length items
  /\ forall r, (r < List.length items)%nat ->
       deref store r = mark (clock r) q (deref items r).
Proof.
  subst store. unfold basic_text_filter.
  pose proof (filter_loop_facts clock q items O) as H.
  destruct (filter_loop clock q O items) as [st fl].
  destruct H as [Hlen [Hnth _]]. cbn [fst snd]. split; [exact Hlen|].
  intros r Hr. unfold deref. now rewrite Hnth.
Qed.

Lemma basic_text_filter_survivors :
  Forall (fun r => (r < List.length items)%nat
                   /\ threshold < raw_score (clock r) q (deref items r))
         filtered.
Proof.
  subst filtered. unfold basic_text_filter.
  pose proof (filter_loop_facts clock q items O) as H.
  destruct (filter_loop clock q O items) as [st fl].
  destruct H as [_ [_ [_ Hall]]]. cbn [fst snd].
  apply Forall_forall. intros r Hr.
  apply firstn_In, sort_desc_In in Hr.
  rewrite Forall_forall in Hall. destruct (Hall r Hr) as [Hb Hs].
  split; [lia|]. unfold deref. now rewrite Nat.sub_0_r in Hs.
Qed.

Lemma basic_text_filter_sorted :
  StronglySorted (ranks_before (fun r => sort_key (deref store r))) filtered.
Proof.
  subst store filtered. unfold basic_text_filter.
  pose proof (filter_loop_facts clock q items O) as H.
  destruct (filter_loop clock q O items) as [st fl].
  destruct H as [_ [_ [Hs _]]]. cbn [fst snd].
  now apply firstn_sorted, sort_desc_sorted.
Qed.

Lemma basic_text_filter_length : (List.length filtered <= 20)%nat.
Proof.
  subst filtered. unfold basic_text_filter.
  destruct (filter_loop clock q O items) as [st fl]. cbn [fst snd].
  apply (firstn_le_length max_results).
Qed.

Lemma basic_text_filter_idempotent :
  basic_text_filter clock q store = basic_text_filter clock q items.
Proof.
  subst store. unfold basic_text_filter.
  pose proof (filter_loop_idempotent clock q items O) as H.
  destruct (filter_loop clock q O items) as [st fl]. cbn [fst snd] in *.
  now rewrite H.
Qed.

End BasicTextFilter.

(** C8 (as the code has it).  With the same clock readings, running Phase
    A again on the documents it has just scored returns the same objects
    with the same scores and the same list in the same order; the returned
    list is ordered by descending score, documents of equal score in input
    order.  Documents without a publish date that parses to a naive
    instant are scored the same whatever the clock reads. *)
Theorem phase_a_repeatable_at_same_clock
    (clock : nat -> Z) (q : query_analysis)
    (items : list ContentAnalyzer.item) :
  let run := ContentAnalyzer.basic_text_filter clock q items in
  ContentAnalyzer.basic_text_filter clock q (fst run) = run
  /\ StronglySorted
       (ContentAnalyzer.ranks_before
          (fun r => ContentAnalyzer.sort_key (ContentAnalyzer.deref (fst run) r)))
       (snd run)
  /\ (Forall (fun it => forall instant,
                ContentAnalyzer.published_date it
                <> ContentAnalyzer.NaiveDate instant) items ->
      forall clock', ContentAnalyzer.basic_text_filter clock' q items = run).
Proof.
  intros run. subst run. split; [|split].
  - apply basic_text_filter_idempotent.
  - apply basic_text_filter_sorted.
  - intros H clock'. unfold ContentAnalyzer.basic_text_filter.
    now rewrite (filter_loop_without_dates clock' clock q items O H).
Qed.

(** C8 as stated fails: two runs of Phase A on the same intent and the same
    document give different scores when the clock has moved on. *)
Lemma phase_a_clock_counterexample :
  ContentAnalyzer.basic_text_filter (after_days 29) example_analysis
    [dated_item]
  <> ContentAnalyzer.basic_text_filter (after_days 31) example_analysis
       [dated_item].
Proof.
  vm_compute. discriminate.
Qed.

Lemma mark_score (now : Z) (q : query_analysis) (it : ContentAnalyzer.item) :
  ContentAnalyzer.relevance_score it = None ->
  forall v,
    ContentAnalyzer.relevance_score (ContentAnalyzer.mark now q it) = Some v ->
    exists z, v = JInt z /\ 6 <= z <= 98.
Proof.
  intros Hn v. unfold ContentAnalyzer.mark, ContentAnalyzer.threshold.
  destruct (5 <? ContentAnalyzer.raw_score now q it) eqn:E; simpl.
  - apply Z.ltb_lt in E. intros [= <-]. eexists. split; [reflexivity|]. lia.
  - rewrite Hn. discriminate.
Qed.

Lemma deref_unscored (items : list ContentAnalyzer.item) (r : nat) :
  Forall (fun it => ContentAnalyzer.relevance_score it = None) items ->
  ContentAnalyzer.relevance_score (ContentAnalyzer.deref items r) = None.
Proof.
  intros H. unfold ContentAnalyzer.deref.
  destruct (Nat.lt_ge_cases r (List.length items)) as [Hr|Hr].
  - rewrite Forall_forall in H. apply H. now apply nth_In.
  - now rewrite nth_overflow.
Qed.

Section PhaseB.

Import ContentAnalyzer.

Variable items : list nat.

Lemma float_eq_in_range (f : pyfloat) (i n : nat) :
  (i < n)%nat -> float_eq_int f (Z.of_nat i) = true ->
  int_le_float 0 f && float_lt_int f (Z.of_nat n) = true.
Proof.
  intros Hi. destruct f as [|negative|x]; cbn; try discriminate.
  intros E. apply Qeq_bool_iff in E.
  apply andb_true_iff. split.
  - apply Qle_bool_iff. rewrite E. rewrite <- Zle_Qle. lia.
  - apply negb_true_iff. apply not_true_is_false. intros H.
    apply Qle_bool_iff in H. rewrite E in H. rewrite <- Zle_Qle in H. lia.
Qed.

Lemma entry_ok_passes (n : nat) (rank : json) :
  entry_ok rank = true -> entry_passes n rank = true.
Proof.
  unfold entry_ok, entry_passes.
  destruct rank as [| | | | | |d]; try discriminate.
  destruct (dict_get "id" d) as [[| | |f| | |]|]; cbn; congruence.
Qed.

Lemma entries_ok_pass (n : nat) (rankings : list json) :
  forallb entry_ok rankings = true ->
  forallb (entry_passes n) rankings = true.
Proof.
  rewrite !forallb_forall. intros H rank Hin.
  apply entry_ok_passes. now apply H.
Qed.

Lemma rank_loop_ok (rankings : list json) (store : list item)
    (ranked : list nat) :
  forallb (entry_passes (List.length items)) rankings = true ->
  rank_loop items store ranked rankings
  = (fold_left (apply_rank items) rankings store,
     Ok (ranked
         ++ map (fun p => nth p items O)
                (ranked_positions (List.length items) rankings))).
Proof.
  revert store ranked.
  induction rankings as [|rank rest IH]; intros store ranked H.
  - simpl. now rewrite app_nil_r.
  - simpl in H. apply andb_true_iff in H. destruct H as [Hrank Hrest].
    unfold ranked_positions. cbn [flat_map fold_left].
    fold (ranked_positions (List.length items) rest).
    unfold entry_passes in Hrank. unfold apply_rank, ranked_position.
    destruct rank as [| | | | | |d]; try discriminate.
    cbn [rank_loop].
    destruct (dict_get "id" d) as [item_id|] eqn:Eid.
    + destruct item_id as [|b|z|f|t|l|d']; cbn [as_int] in *;
        try discriminate.
      * now rewrite IH.
      * unfold len.
        destruct ((0 <=? (if b then 1 else 0))
                  && ((if b then 1 else 0) <? Z.of_nat (List.length items)));
          rewrite IH by exact Hrest; cbn [map app]; [|reflexivity].
        now rewrite <- app_assoc.
      * unfold len.
        destruct ((0 <=? z) && (z <? Z.of_nat (List.length items)));
          rewrite IH by exact Hrest; cbn [map app]; [|reflexivity].
        now rewrite <- app_assoc.
      * unfold len. apply negb_true_iff in Hrank. rewrite Hrank.
        now rewrite IH.
    + now rewrite IH.
Qed.

Lemma rank_loop_bad (rankings : list json) (store : list item)
    (ranked : list nat) :
  forallb (entry_passes (List.length items)) rankings = false ->
  exists store' e,
    rank_loop items store ranked rankings = (store', Raise e)
    /\ List.length store' = List.length store.
Proof.
  revert store ranked.
  induction rankings as [|rank rest IH]; intros store ranked H;
    [discriminate|].
  simpl in H. apply andb_false_iff in H.
  assert (forall st rk, exists store' e,
             rank_loop items st rk rest = (store', Raise e)
             /\ List.length store' = List.length st
          \/ entry_passes (List.length items) rank = false) as Hrest.
  { intros st rk. destruct H as [H|H].
    - exists st, (mk_exn "" ""). now right.
    - destruct (IH st rk H) as [s' [e He]]. exists s', e. now left. }
  destruct (entry_passes (List.length items) rank) eqn:Hrank.
  - unfold entry_passes in Hrank.
    destruct rank as [| | | | | |d]; try discriminate.
    cbn [rank_loop].
    assert (forall st rk, exists store' e,
               rank_loop items st rk rest = (store', Raise e)
               /\ List.length store' = List.length st) as Hgo.
    { intros st rk. destruct (Hrest st rk) as [s' [e [He|He]]];
        [now exists s', e|discriminate]. }
    destruct (dict_get "id" d) as [item_id|]; [|apply Hgo].
    destruct item_id as [|b|z|f|t|l|d']; cbn [as_int] in *;
      try discriminate; try apply Hgo.
    + destruct ((0 <=? (if b then 1 else 0))
                && ((if b then 1 else 0) <? len items)); [|apply Hgo].
      edestruct Hgo as [s' [e [He Hl]]]. exists s', e.
      split; [exact He|]. now rewrite Hl, update_length.
    + destruct ((0 <=? z) && (z <? len items)); [|apply Hgo].
      edestruct Hgo as [s' [e [He Hl]]]. exists s', e.
      split; [exact He|]. now rewrite Hl, update_length.
    + unfold len. apply negb_true_iff in Hrank. rewrite Hrank. apply Hgo.
  - unfold entry_passes in Hrank.
    destruct rank as [| | | | | |d]; cbn [rank_loop];
      try (eexists; eexists; split; reflexivity).
    destruct (dict_get "id" d) as [item_id|]; [|discriminate].
    destruct item_id as [|b|z|f|t|l|d']; cbn [as_int] in *;
      try discriminate; try (eexists; eexists; split; reflexivity).
    unfold len. apply negb_false_iff in Hrank. rewrite Hrank.
    eexists; eexists; split; reflexivity.
Qed.

Lemma ranked_position_names (rank : json) (p : nat) :
  ranked_position (List.length items) rank = Some p ->
  (p < List.length items)%nat /\ names p rank = true.
Proof.
  unfold ranked_position, names.
  destruct rank as [| | | | | |d]; try discriminate.
  destruct (dict_get "id" d) as [v|]; [|discriminate].
  assert (forall z, as_int v = Some z ->
            match v with
            | JFloat f => float_eq_int f (Z.of_nat p)
            | _ => match as_int v with
                   | Some z' => z' =? Z.of_nat p
                   | None => false
                   end
            end = (z =? Z.of_nat p)) as Hv.
  { intros z Hz. destruct v; try discriminate; now rewrite Hz. }
  destruct (as_int v) as [z|]; [|discriminate].
  rewrite (Hv z eq_refl).
  destruct ((0 <=? z) && (z <? Z.of_nat (List.length items))) eqn:E;
    [|discriminate].
  intros [= <-]. apply andb_true_iff in E. destruct E as [E1 E2].
  apply Z.leb_le in E1. apply Z.ltb_lt in E2.
  split; [lia|]. apply Z.eqb_eq. lia.
Qed.

Lemma names_ranked_position (rank : json) (p : nat) :
  entry_passes (List.length items) rank = true ->
  (p < List.length items)%nat -> names p rank = true ->
  ranked_position (List.length items) rank = Some p.
Proof.
  unfold ranked_position, names, entry_passes. intros Hpass Hp.
  destruct rank as [| | | | | |d]; try discriminate.
  destruct (dict_get "id" d) as [v|]; [|discriminate].
  assert (forall f, v = JFloat f -> float_eq_int f (Z.of_nat p) = false)
    as Hfloat.
  { intros f ->. apply negb_true_iff in Hpass.
    destruct (float_eq_int f (Z.of_nat p)) eqn:E; [|reflexivity].
    rewrite (float_eq_in_range f p _ Hp E) in Hpass. discriminate. }
  destruct v as [|b|z|f|t|l|d']; cbn [as_int]; try discriminate;
    try (rewrite (Hfloat f eq_refl); discriminate).
  all: intros E; apply Z.eqb_eq in E.
  all: match goal with
       | |- context [(0 <=? ?z) && _] =>
           replace z with (Z.of_nat p) in * by congruence
       end.
  all: clear E.
  all: replace ((0 <=? Z.of_nat p)
                && (Z.of_nat p <? Z.of_nat (List.length items)))
         with true
         by (symmetry; apply andb_true_iff;
             split; [apply Z.leb_le|apply Z.ltb_lt]; lia).
  all: now rewrite Nat2Z.id.
Qed.

Lemma ranked_positions_In (rankings : list json) (p : nat) :
  forallb (entry_passes (List.length items)) rankings = true ->
  In p (ranked_positions (List.length items) rankings)
  <-> (p < List.length items)%nat /\ existsb (names p) rankings = true.
Proof.
  intros Hpass. rewrite forallb_forall in Hpass.
  unfold ranked_positions. rewrite in_flat_map, existsb_exists. split.
  - intros [rank [Hin Hp]].
    destruct (ranked_position (List.length items) rank) as [p'|] eqn:E;
      [|contradiction].
    destruct Hp as [<-|[]].
    apply ranked_position_names in E. destruct E as [Hlt Hn].
    split; [exact Hlt|]. now exists rank.
  - intros [Hlt [rank [Hin Hn]]]. exists rank. split; [exact Hin|].
    rewrite (names_ranked_position rank p (Hpass rank Hin) Hlt Hn).
    now left.
Qed.

Lemma ranked_positions_valid (rankings : list json) (p : nat) :
  In p (ranked_positions (List.length items) rankings) ->
  (p < List.length items)%nat.
Proof.
  unfold ranked_positions. rewrite in_flat_map.
  intros [rank [Hin Hp]].
  destruct (ranked_position (List.length items) rank) as [p'|] eqn:E;
    [|contradiction].
  destruct Hp as [<-|[]].
  now apply ranked_position_names in E.
Qed.

Lemma unranked_from_spec (rankings : list json) (l : list nat) (i0 : nat) :
  unranked_from rankings i0 l
  = map (fun i => nth (i - i0) l O)
        (filter (fun i => negb (existsb (names i) rankings))
                (seq i0 (List.length l))).
Proof.
  revert i0. induction l as [|r rest IH]; intros i0; [reflexivity|].
  cbn [unranked_from List.length seq filter].
  assert (map (fun i => nth (i - i0) (r :: rest) O)
              (filter (fun i => negb (existsb (names i) rankings))
                      (seq (S i0) (List.length rest)))
          = unranked_from rankings (S i0) rest) as E.
  { rewrite IH. apply map_ext_in. intros i Hi.
    apply filter_In in Hi. destruct Hi as [Hi _]. apply in_seq in Hi.
    replace (i - i0)%nat with (S (i - S i0)) by lia. reflexivity. }
  destruct (existsb (names i0) rankings); cbn [negb].
  - exact (eq_sym E).
  - rewrite <- E. cbn [map]. now rewrite Nat.sub_diag.
Qed.

Lemma unranked_from_incl (rankings : list json) (l : list nat) (i0 : nat) :
  incl (unranked_from rankings i0 l) l.
Proof.
  revert i0. induction l as [|r rest IH]; intros i0 x Hx; [exact Hx|].
  cbn [unranked_from] in Hx.
  destruct (existsb (names i0) rankings).
  - right. exact (IH _ _ Hx).
  - destruct Hx as [<-|Hx]; [now left|right; exact (IH _ _ Hx)].
Qed.

(** No item is dropped: each is ranked by an entry or added by the second
    loop. *)
Lemma rerank_covers (rankings : list json) (r : nat) :
  forallb (entry_passes (List.length items)) rankings = true ->
  In r items ->
  In r (map (fun p => nth p items O)
            (ranked_positions (List.length items) rankings)
        ++ unranked_from rankings O items).
Proof.
  intros Hpass Hin. destruct (In_nth _ _ O Hin) as [i [Hi <-]].
  apply in_or_app.
  destruct (existsb (names i) rankings) eqn:E.
  - left. apply in_map_iff. exists i. split; [reflexivity|].
    apply ranked_positions_In; [exact Hpass|now split].
  - right. rewrite unranked_from_spec. apply in_map_iff.
    exists i. split; [now rewrite Nat.sub_0_r|].
    apply filter_In. split; [apply in_seq; lia|now rewrite E].
Qed.

Lemma ranked_refs_incl (rankings : list json) :
  incl (map (fun p => nth p items O)
            (ranked_positions (List.length items) rankings))
       items.
Proof.
  intros r Hr. apply in_map_iff in Hr. destruct Hr as [p [<- Hp]].
  apply ranked_positions_valid in Hp. now apply nth_In.
Qed.

Lemma fold_apply_rank_length (rankings : list json) (store : list item) :
  List.length (fold_left (apply_rank items) rankings store)
  = List.length store.
Proof.
  revert store. induction rankings as [|rank rest IH]; intros store;
    [reflexivity|].
  cbn [fold_left]. rewrite IH. unfold apply_rank.
  destruct rank; try reflexivity.
  destruct (ranked_position _ _); [apply update_length|reflexivity].
Qed.

End PhaseB.

Lemma map_nth_seq (l : list nat) :
  map (fun p => nth p l O) (seq 0 (List.length l)) = l.
Proof.
  induction l as [|a l IH]; [reflexivity|].
  cbn [List.length seq map nth]. f_equal.
  rewrite <- seq_shift, map_map. exact IH.
Qed.

Lemma filter_none {A} (f : A -> bool) (l : list A) :
  (forall x, In x l -> f x = false) -> filter f l = [].
Proof.
  induction l as [|a l IH]; intros H; [reflexivity|]. simpl.
  rewrite (H a (or_introl eq_refl)). apply IH. intros x Hx. apply H. now right.
Qed.

Section DefaultRanking.

Import ContentAnalyzer.

Variable items : list nat.

Lemma default_entry_position (k : nat) :
  (k < List.length items)%nat ->
  ranked_position (List.length items) (default_entry k) = Some k.
Proof.
  intros Hk. unfold ranked_position, default_entry. cbn.
  replace ((0 <=? Z.of_nat k) && (Z.of_nat k <? Z.of_nat (List.length items)))
    with true.
  - now rewrite Nat2Z.id.
  - symmetry. apply andb_true_iff. split; [apply Z.leb_le|apply Z.ltb_lt]; lia.
Qed.

Lemma default_entries_ok (l : list nat) :
  forallb entry_ok (map default_entry l) = true.
Proof.
  induction l as [|k l IH]; [reflexivity|]. cbn [map forallb].
  now rewrite IH.
Qed.

Lemma default_positions (m k : nat) :
  (k + m <= List.length items)%nat ->
  ranked_positions (List.length items) (map default_entry (seq k m))
  = seq k m.
Proof.
  revert k. induction m as [|m IH]; intros k H; [reflexivity|].
  unfold ranked_positions in *. cbn [seq map flat_map].
  rewrite default_entry_position by lia. rewrite IH by lia. reflexivity.
Qed.

Lemma apply_default (store : list item) (k : nat) :
  (k < List.length items)%nat ->
  apply_rank items store (default_entry k)
  = update store (nth k items O)
           (set_rank (JInt (10 - Z.of_nat k)) (JStr "")).
Proof.
  intros Hk. pose proof (default_entry_position k Hk) as E.
  unfold apply_rank, default_entry in *. rewrite E. reflexivity.
Qed.

Lemma fold_defaults (m k : nat) (store : list item) :
  (k + m <= List.length items)%nat ->
  NoDup items ->
  Forall (fun r => (r < List.length store)%nat) items ->
  let store' :=
    fold_left (apply_rank items) (map default_entry (seq k m)) store in
  (forall j, (k <= j < k + m)%nat ->
     deref store' (nth j items O)
     = set_rank (JInt (10 - Z.of_nat j)) (JStr "")
                (deref store (nth j items O)))
  /\ (forall r, (forall j, (k <= j < k + m)%nat -> nth j items O <> r) ->
      deref store' r = deref store r).
Proof.
  revert k store. induction m as [|m IH]; intros k store Hk Hnd Hb store'.
  - subst store'. split; [intros j Hj; lia|reflexivity].
  - subst store'. cbn [seq map fold_left].
    rewrite apply_default by lia.
    set (store1 := update store (nth k items O)
                          (set_rank (JInt (10 - Z.of_nat k)) (JStr ""))).
    assert (Forall (fun r => (r < List.length store1)%nat) items) as Hb1.
    { subst store1. eapply Forall_impl; [|exact Hb]. cbv beta.
      intros r Hr. now rewrite update_length. }
    destruct (IH (S k) store1 ltac:(lia) Hnd Hb1) as [Hin Hout].
    assert (forall j, (j < List.length items)%nat -> j <> k ->
               nth k items O <> nth j items O) as Hdiff.
    { intros j Hj Hjk Heq. apply Hjk. symmetry.
      apply (proj1 (NoDup_nth items O) Hnd); [lia|lia|exact Heq]. }
    assert ((nth k items O < List.length store)%nat) as Hkb.
    { rewrite Forall_forall in Hb. apply Hb, nth_In. lia. }
    split.
    + intros j Hj. destruct (Nat.eq_dec j k) as [->|Hjk].
      * rewrite Hout.
        -- subst store1. now apply deref_update_same.
        -- intros j Hj' Heq. apply (Hdiff j); [lia|lia|now symmetry].
      * rewrite Hin by lia. f_equal. subst store1.
        apply deref_update_other. apply Hdiff; lia.
    + intros r Hr. rewrite Hout.
      * subst store1. apply deref_update_other. apply Hr. lia.
      * intros j Hj. apply Hr. lia.
Qed.

Lemma default_names_all (i : nat) :
  (i < List.length items)%nat ->
  existsb (names i) (map default_entry (seq 0 (List.length items))) = true.
Proof.
  intros Hi. apply existsb_exists. exists (default_entry i). split.
  - apply in_map, in_seq. lia.
  - unfold names, default_entry. cbn. apply Z.eqb_refl.
Qed.

Lemma default_unranked :
  unranked_from (map default_entry (seq 0 (List.length items))) O items = [].
Proof.
  rewrite unranked_from_spec. rewrite filter_none; [reflexivity|].
  intros i Hi. apply in_seq in Hi. rewrite default_names_all by lia.
  reflexivity.
Qed.

End DefaultRanking.

Section Rerank.

Import ContentAnalyzer.

Variable llm : ranking_model.
Variable q : query_analysis.
Variable store : list item.
Variable filtered : list nat.

Let items := firstn 10 filtered.
Let decoded_ranking :=
  get_llm_ranking llm q (analysis_data_from store O items).

Lemma analysis_data_length (l : list nat) (i : nat) :
  List.length (analysis_data_from store i l) = List.length l.
Proof.
  revert i. induction l as [|r rest IH]; intros i; simpl; [reflexivity|].
  now rewrite IH.
Qed.

Lemma items_at_most_ten : (List.length items <= 10)%nat.
Proof. subst items. apply firstn_le_length. Qed.

Lemma rerank_ok (rankings : list json) :
  iterate decoded_ranking = Ok rankings ->
  forallb (entry_passes (List.length items)) rankings = true ->
  llm_relevance_ranking llm q store filtered
  = (fold_left (apply_rank items) rankings store,
     Ok (map (fun p => nth p items O)
             (ranked_positions (List.length items) rankings)
         ++ unranked_from rankings O items)).
Proof.
  intros Hit Hok. unfold llm_relevance_ranking.
  fold items. fold decoded_ranking. rewrite Hit.
  now rewrite (rank_loop_ok items rankings store [] Hok).
Qed.

Lemma rerank_bad :
  ranking_passes (List.length items) decoded_ranking = false ->
  exists store' e,
    llm_relevance_ranking llm q store filtered = (store', Raise e)
    /\ List.length store' = List.length store.
Proof.
  unfold ranking_passes, llm_relevance_ranking.
  fold items. fold decoded_ranking.
  destruct (iterate decoded_ranking) as [rankings|e].
  - intros Hbad.
    destruct (rank_loop_bad items rankings store [] Hbad) as [s' [e [-> Hl]]].
    now exists s', e.
  - intros _. now exists store, e.
Qed.

Lemma failed_ranking_is_default :
  ranking_failed llm q store filtered ->
  iterate decoded_ranking
  = Ok (map default_entry (seq 0 (List.length items))).
Proof.
  unfold ranking_failed. fold items. subst decoded_ranking.
  unfold get_llm_ranking.
  assert (default_ranking (List.length (analysis_data_from store O items))
          = JList (map default_entry (seq 0 (List.length items)))) as E.
  { unfold default_ranking. rewrite analysis_data_length.
    rewrite Nat.min_r by apply items_at_most_ten. reflexivity. }
  destruct (llm q (analysis_data_from store O items)) as [result|e].
  - intros ->. now rewrite E.
  - intros _. now rewrite E.
Qed.

End Rerank.

Section RerankStore.

Import ContentAnalyzer.

Variable items : list nat.

Lemma fold_apply_rank_other (rankings : list json) (store : list item)
    (r : nat) :
  (forall p, In p (ranked_positions (List.length items) rankings) ->
             nth p items O <> r) ->
  deref (fold_left (apply_rank items) rankings store) r = deref store r.
Proof.
  revert store. induction rankings as [|rank rest IH]; intros store H;
    [reflexivity|].
  cbn [fold_left]. rewrite IH.
  - unfold apply_rank. destruct rank; try reflexivity.
    destruct (ranked_position (List.length items) (JDict d)) as [p|] eqn:E;
      [|reflexivity].
    apply deref_update_other. apply H.
    unfold ranked_positions. cbn [flat_map]. rewrite E. now left.
  - intros p Hp. apply H. unfold ranked_positions in *. cbn [flat_map].
    apply in_or_app. now right.
Qed.

(** The document an entry ranks carries that entry's score and reason
    once the loop is over, unless a later entry ranks it again. *)
Lemma fold_apply_rank_last (before after : list json)
    (d : list (string * json)) (store : list item) (p : nat) :
  NoDup items ->
  Forall (fun r => (r < List.length store)%nat) items ->
  ranked_position (List.length items) (JDict d) = Some p ->
  (forall rank, In rank after ->
                ranked_position (List.length items) rank <> Some p) ->
  deref (fold_left (apply_rank items) (before ++ JDict d :: after) store)
        (nth p items O)
  = set_rank
      match dict_get "relevance_score" d with
      | Some v => v
      | None => JInt 0
      end
      match dict_get "reason" d with
      | Some v => v
      | None => JStr ""
      end
      (deref (fold_left (apply_rank items) before store) (nth p items O)).
Proof.
  intros Hnd Hb Hp Hafter.
  pose proof (ranked_position_names items _ _ Hp) as [Hlt _].
  rewrite fold_left_app. cbn [fold_left].
  rewrite fold_apply_rank_other.
  - unfold apply_rank at 1. rewrite Hp.
    apply deref_update_same. rewrite fold_apply_rank_length.
    rewrite Forall_forall in Hb. apply Hb. now apply nth_In.
  - intros p' Hp' Heq.
    pose proof (ranked_positions_valid items _ _ Hp') as Hlt'.
    assert (p' = p) as ->.
    { apply (proj1 (NoDup_nth items O)); assumption. }
    unfold ranked_positions in Hp'. apply in_flat_map in Hp'.
    destruct Hp' as [rank [Hin Hr]].
    destruct (ranked_position (List.length items) rank) as [p'|] eqn:E;
      [|contradiction].
    destruct Hr as [->|[]]. now apply (Hafter rank Hin).
Qed.

End RerankStore.

(** C6 (as the code has it).  For every Phase B invocation over the top
    [n <= 10] survivors and every decoded ranking whose entries are all
    objects with an id that is missing, null, an integer, or a float that
    fails [0 <= id < n], Phase B returns: first the documents the entries
    rank, then every document of the top 10 that no entry names, in its
    Phase-A order; no document of the top 10 is dropped.  When the call or
    the parse fails, Phase B returns the first 10 documents in Phase-A
    order, the document at index i with score 10 - i, and does not raise.
    On every other decoded ranking (one that cannot be iterated, an entry
    that is not an object, an id that is a string, a list or an object, or
    a float with [0 <= id < n]) Phase B raises. *)
Theorem rerank_appends_unranked_and_degrades
    (llm : ContentAnalyzer.ranking_model) (q : query_analysis)
    (store : list ContentAnalyzer.item) (filtered : list nat) :
  NoDup filtered ->
  Forall (fun r => (r < List.length store)%nat) filtered ->
  let top := firstn 10 filtered in
  let decoded_ranking :=
    ContentAnalyzer.get_llm_ranking llm q
      (ContentAnalyzer.analysis_data_from store O top) in
  (forall rankings,
      ContentAnalyzer.iterate decoded_ranking = Ok rankings ->
      forallb (ContentAnalyzer.entry_passes (List.length top)) rankings
      = true ->
      exists store',
        ContentAnalyzer.llm_relevance_ranking llm q store filtered
        = (store',
           Ok (map (fun p => nth p top O)
                   (ContentAnalyzer.ranked_positions (List.length top)
                      rankings)
               ++ ContentAnalyzer.unranked_from rankings O top))
        /\ ContentAnalyzer.unranked_from rankings O top
           = map (fun i => nth i top O)
                 (filter (fun i =>
                            negb (existsb (ContentAnalyzer.names i) rankings))
                         (seq 0 (List.length top)))
        /\ (forall p,
              In p (ContentAnalyzer.ranked_positions (List.length top)
                      rankings)
              <-> (p < List.length top)%nat
                  /\ existsb (ContentAnalyzer.names p) rankings = true)
        /\ forall r, In r top ->
             In r (map (fun p => nth p top O)
                       (ContentAnalyzer.ranked_positions (List.length top)
                          rankings)
                   ++ ContentAnalyzer.unranked_from rankings O top))
  /\ (ContentAnalyzer.ranking_failed llm q store filtered ->
      exists store',
        ContentAnalyzer.llm_relevance_ranking llm q store filtered
        = (store', Ok top)
        /\ forall i, (i < List.length top)%nat ->
             ContentAnalyzer.deref store' (nth i top O)
             = ContentAnalyzer.set_rank (JInt (10 - Z.of_nat i)) (JStr "")
                 (ContentAnalyzer.deref store (nth i top O)))
  /\ (ContentAnalyzer.ranking_passes (List.length top) decoded_ranking
      = false ->
      exists store' e,
        ContentAnalyzer.llm_relevance_ranking llm q store filtered
        = (store', Raise e)).
Proof.
  intros Hnd Hb top decoded_ranking. subst decoded_ranking.
  split; [|split].
  - intros rankings Hit Hok.
    eexists. split; [exact (rerank_ok llm q store filtered rankings Hit Hok)|].
    fold top. split; [|split].
    + rewrite unranked_from_spec. apply map_ext. intros i.
      now rewrite Nat.sub_0_r.
    + intros p. now apply ranked_positions_In.
    + intros r Hr. now apply rerank_covers.
  - intros Hfail.
    pose proof (failed_ranking_is_default llm q store filtered Hfail) as Hit.
    fold top in Hit.
    pose proof (rerank_ok llm q store filtered _ Hit
                  (entries_ok_pass _ _ (default_entries_ok _))) as E.
    fold top in E.
    rewrite (default_positions top (List.length top) O) in E by lia.
    rewrite map_nth_seq, default_unranked, app_nil_r in E.
    eexists. split; [exact E|].
    intros i Hi.
    assert (NoDup top) as Hnd' by (subst top; now apply NoDup_firstn).
    assert (Forall (fun r => (r < List.length store)%nat) top) as Hb'.
    { apply Forall_forall. intros r Hr. rewrite Forall_forall in Hb.
      apply Hb. subst top. now apply firstn_In in Hr. }
    destruct (fold_defaults top (List.length top) O store
                ltac:(lia) Hnd' Hb') as [Hin _].
    apply Hin. lia.
  - intros Hbad.
    destruct (rerank_bad llm q store filtered Hbad) as [s' [e [E _]]].
    now exists s', e.
Qed.

Lemma NoDup_app_disjoint {A} (l1 l2 : list A) (a : A) :
  NoDup (l1 ++ l2) -> In a l1 -> ~ In a l2.
Proof.
  induction l1 as [|x l1 IH]; intros Hnd Hin; [contradiction|].
  simpl in Hnd. inversion Hnd as [|x' l' Hx Hnd']; subst.
  destruct Hin as [->|Hin].
  - intros H2. apply Hx. apply in_or_app. now right.
  - now apply IH.
Qed.

Lemma filter_split_length {A} (f : A -> bool) (l : list A) :
  (List.length (filter f l) + List.length (filter (fun x => negb (f x)) l)
   = List.length l)%nat.
Proof.
  induction l as [|a l IH]; [reflexivity|]. simpl.
  destruct (f a); simpl; lia.
Qed.

Lemma distinct_positions_count (f : nat -> bool) (n : nat) (P : list nat) :
  NoDup P ->
  (forall p, In p P <-> (p < n)%nat /\ f p = true) ->
  (List.length P
   + List.length (filter (fun i => negb (f i)) (seq 0 n)) = n)%nat.
Proof.
  intros Hnd HP.
  assert (List.length P = List.length (filter f (seq 0 n))) as E.
  { apply Nat.le_antisymm.
    - apply NoDup_incl_length; [exact Hnd|].
      intros p Hp. apply HP in Hp. apply filter_In.
      split; [apply in_seq; lia|tauto].
    - apply NoDup_incl_length; [apply NoDup_filter, seq_NoDup|].
      intros p Hp. apply filter_In in Hp. destruct Hp as [Hp Hf].
      apply in_seq in Hp. apply HP. split; [lia|exact Hf]. }
  rewrite E. rewrite <- (length_seq n 0) at 3. apply filter_split_length.
Qed.

(** C9 (as the code has it).  Whenever Phase B runs (more than 3 Phase-A
    survivors) on a decoded ranking it goes through without raising (every
    entry an object whose id is missing, null, an integer, or a float that
    fails [0 <= id < n]), every entry of the engine's output is one of the
    top-10 survivors, so the survivors ranked 11th to 20th never appear;
    the output has one entry per ranking entry with an id in range plus one
    per unnamed document, hence at most 10 entries when no id is ranked
    twice.  On every other decoded ranking Phase B raises, and the engine
    returns the first three input documents. *)
Theorem rerank_output_drawn_from_top_ten
    (llm : ContentAnalyzer.ranking_model) (clock : nat -> Z)
    (q : query_analysis) (items : list ContentAnalyzer.item) :
  let run := ContentAnalyzer.basic_text_filter clock q items in
  let top := firstn 10 (snd run) in
  let decoded_ranking :=
    ContentAnalyzer.get_llm_ranking llm q
      (ContentAnalyzer.analysis_data_from (fst run) O top) in
  let output := snd (ContentAnalyzer.analyze_refs llm clock q items) in
  (3 < List.length (snd run))%nat ->
  (ContentAnalyzer.ranking_passes (List.length top) decoded_ranking = true ->
   incl output top
   /\ (forall r, In r (skipn 10 (snd run)) -> ~ In r output)
   /\ (forall rankings,
         ContentAnalyzer.iterate decoded_ranking = Ok rankings ->
         List.length output
         = (List.length
              (ContentAnalyzer.ranked_positions (List.length top) rankings)
            + List.length
                (filter (fun i =>
                           negb (existsb (ContentAnalyzer.names i) rankings))
                        (seq 0 (List.length top))))%nat
         /\ (NoDup (ContentAnalyzer.ranked_positions (List.length top)
                      rankings) ->
             (List.length output <= 10)%nat)))
  /\ (ContentAnalyzer.ranking_passes (List.length top) decoded_ranking
      = false ->
      (exists store' e,
          ContentAnalyzer.llm_relevance_ranking llm q (fst run) (snd run)
          = (store', Raise e))
      /\ output = seq 0 (Nat.min 3 (List.length items))).
Proof.
  intros run top decoded_ranking output Hmany.
  subst output decoded_ranking top run.
  pose proof (basic_text_filter_sorted clock q items) as Hsorted.
  apply ranks_before_NoDup in Hsorted.
  pose proof (basic_text_filter_store clock q items) as [Hlen _].
  unfold ContentAnalyzer.analyze_refs.
  destruct (ContentAnalyzer.basic_text_filter clock q items)
    as [store filtered].
  cbn [fst snd] in *.
  destruct filtered as [|r0 rest] eqn:Ef; [simpl in Hmany; lia|].
  rewrite <- Ef in *. clear Ef r0 rest.
  assert ((3 <? len filtered) = true) as Hgo.
  { apply Z.ltb_lt. unfold len. lia. }
  rewrite Hgo. split.
  - intros Hok. unfold ContentAnalyzer.ranking_passes in Hok.
    destruct (ContentAnalyzer.iterate _) as [rankings|e] eqn:Hit;
      [|discriminate].
    rewrite (rerank_ok llm q store filtered rankings Hit Hok).
    cbn [snd].
    assert (incl (map (fun p => nth p (firstn 10 filtered) O)
                      (ContentAnalyzer.ranked_positions
                         (List.length (firstn 10 filtered)) rankings)
                  ++ ContentAnalyzer.unranked_from rankings O
                       (firstn 10 filtered))
                 (firstn 10 filtered)) as Hincl.
    { apply incl_app; [apply ranked_refs_incl|apply unranked_from_incl]. }
    split; [exact Hincl|]. split.
    + intros r Hr Hout. apply Hincl in Hout.
      rewrite <- (firstn_skipn 10 filtered) in Hsorted.
      exact (NoDup_app_disjoint _ _ r Hsorted Hout Hr).
    + intros rankings' [= <-].
      rewrite length_app, length_map, unranked_from_spec, length_map.
      split; [reflexivity|]. intros Hnd.
      rewrite (distinct_positions_count
                 (fun i => existsb (ContentAnalyzer.names i) rankings)
                 (List.length (firstn 10 filtered)) _ Hnd).
      * apply firstn_le_length.
      * intros p. now apply ranked_positions_In.
  - intros Hbad.
    destruct (rerank_bad llm q store filtered Hbad) as [s' [e [-> Hl]]].
    split; [now exists s', e|].
    cbn [snd]. unfold ContentAnalyzer.first_three. now rewrite Hl, Hlen.
Qed.

(** C2 (as the code has it).  For every intent and every list of extracted
    documents (which carry no score yet), the list Phase A returns holds at
    most 20 documents and every score it assigned lies in [6, 98]; and when
    Phase B is not triggered (at most 3 survivors) the engine's output
    holds at most 20 documents and every score carried by one of them lies
    in [0, 98].  When Phase B runs and goes through the ranking, every
    document an entry ranks is part of the output and carries the score of
    the last entry that ranks it, exactly as the model returned it (0 when
    the entry has none): no bound applies to it. *)
Theorem relevance_scores_bounded_before_rerank
    (llm : ContentAnalyzer.ranking_model) (clock : nat -> Z)
    (q : query_analysis) (items : list ContentAnalyzer.item) :
  Forall (fun it => ContentAnalyzer.relevance_score it = None) items ->
  let run := ContentAnalyzer.basic_text_filter clock q items in
  ((List.length (snd run) <= 20)%nat
   /\ Forall (fun r => exists z,
                ContentAnalyzer.relevance_score
                  (ContentAnalyzer.deref (fst run) r) = Some (JInt z)
                /\ 6 <= z <= 98)
             (snd run))
  /\ ((List.length (snd run) <= 3)%nat ->
      let output := ContentAnalyzer.analyze llm clock q items in
      (List.length output <= 20)%nat
      /\ Forall (fun it => forall v,
                   ContentAnalyzer.relevance_score it = Some v ->
                   exists z, v = JInt z /\ 0 <= z <= 98)
                output)
  /\ ((3 < List.length (snd run))%nat ->
      let top := firstn 10 (snd run) in
      forall before d after p,
        ContentAnalyzer.iterate
          (ContentAnalyzer.get_llm_ranking llm q
             (ContentAnalyzer.analysis_data_from (fst run) O top))
        = Ok (before ++ JDict d :: after) ->
        forallb (ContentAnalyzer.entry_passes (List.length top))
                (before ++ JDict d :: after) = true ->
        ContentAnalyzer.ranked_position (List.length top) (JDict d)
        = Some p ->
        (forall rank, In rank after ->
           ContentAnalyzer.ranked_position (List.length top) rank
           <> Some p) ->
        let result := ContentAnalyzer.analyze_refs llm clock q items in
        let it := ContentAnalyzer.deref (fst result) (nth p top O) in
        In (nth p top O) (snd result)
        /\ In it (ContentAnalyzer.analyze llm clock q items)
        /\ ContentAnalyzer.relevance_score it
           = Some match dict_get "relevance_score" d with
                  | Some v => v
                  | None => JInt 0
                  end).
Proof.
  intros Hnone run. subst run.
  pose proof (basic_text_filter_store clock q items) as [Hlen Hstore].
  pose proof (basic_text_filter_survivors clock q items) as Hsurv.
  pose proof (basic_text_filter_length clock q items) as Hlen20.
  pose proof (basic_text_filter_sorted clock q items) as Hsorted.
  apply ranks_before_NoDup in Hsorted.
  unfold ContentAnalyzer.analyze, ContentAnalyzer.analyze_refs.
  destruct (ContentAnalyzer.basic_text_filter clock q items)
    as [store filtered].
  cbn [fst snd] in *.
  assert (forall r, (r < List.length items)%nat ->
            forall v,
              ContentAnalyzer.relevance_score
                (ContentAnalyzer.deref store r) = Some v ->
              exists z, v = JInt z /\ 6 <= z <= 98) as Hscore.
  { intros r Hr v. rewrite (Hstore r Hr).
    apply mark_score. now apply deref_unscored. }
  split; [split|split].
  - exact Hlen20.
  - apply Forall_forall. intros r Hr.
    rewrite Forall_forall in Hsurv. destruct (Hsurv r Hr) as [Hb Hs].
    rewrite (Hstore r Hb). unfold ContentAnalyzer.mark.
    apply Z.ltb_lt in Hs. rewrite Hs. simpl.
    eexists. split; [reflexivity|].
    apply Z.ltb_lt in Hs. unfold ContentAnalyzer.threshold in Hs. lia.
  - intros Hfew.
    assert (forall refs,
               Forall (fun r => (r < List.length items)%nat) refs ->
               Forall (fun it => forall v,
                         ContentAnalyzer.relevance_score it = Some v ->
                         exists z, v = JInt z /\ 0 <= z <= 98)
                      (map (ContentAnalyzer.deref store) refs)) as Hrefs.
    { intros refs Hall. apply Forall_forall. intros it Hit.
      apply in_map_iff in Hit. destruct Hit as [r [<- Hr]].
      rewrite Forall_forall in Hall. intros v Hv.
      destruct (Hscore r (Hall r Hr) v Hv) as [z [-> Hz]].
      exists z. split; [reflexivity|lia]. }
    destruct filtered as [|r rest].
    + split.
      * rewrite length_map. unfold ContentAnalyzer.first_three.
        rewrite length_seq. lia.
      * apply Hrefs. apply Forall_forall. intros r Hr.
        unfold ContentAnalyzer.first_three in Hr. apply in_seq in Hr. lia.
    + assert ((3 <? len (r :: rest)) = false) as Hno.
      { apply Z.ltb_ge. unfold len. lia. }
      rewrite Hno. split.
      * rewrite length_map. lia.
      * apply Hrefs. eapply Forall_impl; [|exact Hsurv].
        cbv beta. tauto.
  - intros Hmany before d after p Hit Hpass Hp Hafter.
    destruct filtered as [|r0 rest] eqn:Ef; [simpl in Hmany; lia|].
    rewrite <- Ef in *. clear Ef r0 rest.
    assert ((3 <? len filtered) = true) as Hgo.
    { apply Z.ltb_lt. unfold len. lia. }
    rewrite Hgo.
    rewrite (rerank_ok llm q store filtered _ Hit Hpass).
    cbn [fst snd].
    set (top := firstn 10 filtered) in *.
    assert (NoDup top) as Hnd by (subst top; now apply NoDup_firstn).
    assert (Forall (fun r => (r < List.length store)%nat) top) as Hb.
    { apply Forall_forall. intros r Hr. rewrite Forall_forall in Hsurv.
      subst top. apply firstn_In in Hr. rewrite Hlen.
      now apply Hsurv. }
    assert (In (nth p top O)
               (map (fun p0 => nth p0 top O)
                    (ContentAnalyzer.ranked_positions (List.length top)
                       (before ++ JDict d :: after))
                ++ ContentAnalyzer.unranked_from
                     (before ++ JDict d :: after) O top)) as Hin.
    { apply in_or_app. left. apply in_map_iff. exists p.
      split; [reflexivity|].
      unfold ContentAnalyzer.ranked_positions. apply in_flat_map.
      exists (JDict d). split; [apply in_elt|].
      rewrite Hp. now left. }
    split; [exact Hin|]. split.
    + apply in_map_iff. eexists. split; [reflexivity|exact Hin].
    + now rewrite (fold_apply_rank_last top before after d store p Hnd Hb
                     Hp Hafter).
Qed.

Lemma relevance_scores_bounded_witness :
  (List.length
     (ContentAnalyzer.analyze silent_model noon example_analysis
        [document "France" "x"; document "nothing" "x"]) <= 20)%nat
  /\ Forall (fun it => forall v,
               ContentAnalyzer.relevance_score it = Some v ->
               exists z, v = JInt z /\ 0 <= z <= 98)
            (ContentAnalyzer.analyze silent_model noon example_analysis
               [document "France" "x"; document "nothing" "x"])
  /\ ContentAnalyzer.relevance_score
       (ContentAnalyzer.deref
          (fst (ContentAnalyzer.analyze_refs partial_model noon
                  example_analysis four_documents)) 0)
     = Some (JInt 90).
Proof.
  assert (Forall (fun it => ContentAnalyzer.relevance_score it = None)
                 [document "France" "x"; document "nothing" "x"]) as H.
  { repeat constructor. }
  assert (Forall (fun it => ContentAnalyzer.relevance_score it = None)
                 four_documents) as H4.
  { repeat constructor. }
  destruct (relevance_scores_bounded_before_rerank silent_model noon
              example_analysis _ H) as [_ [Hout _]].
  destruct (relevance_scores_bounded_before_rerank partial_model noon
              example_analysis _ H4) as [_ [_ Hranked]].
  split; [|split].
  - apply Hout. vm_compute. lia.
  - apply Hout. vm_compute. lia.
  - assert ((3 < List.length
                   (snd (ContentAnalyzer.basic_text_filter noon
                           example_analysis four_documents)))%nat) as Hmany.
    { vm_compute. lia. }
    destruct (Hranked Hmany []
                [("id", JInt 2); ("relevance_score", JInt 90)] [] 2%nat)
      as [_ [_ Hscore]].
    + vm_compute. reflexivity.
    + vm_compute. reflexivity.
    + vm_compute. reflexivity.
    + intros rank [].
    + exact Hscore.
Defined.

(** C2 as stated fails: the term set is not empty, Phase B runs, and the
    output carries the score 100 the model returned; with a ranking that
    repeats an id the output holds more than 20 entries. *)
Lemma rerank_score_counterexample :
  ContentAnalyzer.key_terms_of example_analysis <> []
  /\ ContentAnalyzer.relevance_score
       (nth 0 (ContentAnalyzer.analyze generous_model noon example_analysis
                 four_documents) ContentAnalyzer.no_item)
     = Some (JInt 100)
  /\ (20 < List.length
             (ContentAnalyzer.analyze repeating_model noon example_analysis
                four_documents))%nat.
Proof.
  split; [vm_compute; discriminate|]. split.
  - vm_compute. reflexivity.
  - vm_compute. lia.
Qed.

Lemma rerank_appends_unranked_witness :
  let run :=
    ContentAnalyzer.basic_text_filter noon example_analysis four_documents in
  snd run = [1; 3; 0; 2]%nat
  /\ snd (ContentAnalyzer.llm_relevance_ranking partial_model
            example_analysis (fst run) (snd run))
     = Ok [0; 1; 3; 2]%nat
  /\ snd (ContentAnalyzer.llm_relevance_ranking float_id_model
            example_analysis (fst run) (snd run))
     = Ok [0; 1; 3; 2]%nat
  /\ (exists store',
        ContentAnalyzer.llm_relevance_ranking silent_model example_analysis
          (fst run) (snd run)
        = (store', Ok (firstn 10 (snd run)))
        /\ ContentAnalyzer.deref store' (nth 1 (firstn 10 (snd run)) O)
           = ContentAnalyzer.set_rank (JInt (10 - Z.of_nat 1)) (JStr "")
               (ContentAnalyzer.deref (fst run)
                  (nth 1 (firstn 10 (snd run)) O)))
  /\ (exists store' e,
        ContentAnalyzer.llm_relevance_ranking float_index_model
          example_analysis (fst run) (snd run)
        = (store', Raise e)).
Proof.
  intros run.
  assert (NoDup (snd run)) as Hnd.
  { vm_compute. repeat constructor; simpl; intuition discriminate. }
  assert (Forall (fun r => (r < List.length (fst run))%nat) (snd run)) as Hb.
  { vm_compute. repeat constructor. }
  destruct (rerank_appends_unranked_and_degrades partial_model
              example_analysis (fst run) (snd run) Hnd Hb) as [Hok _].
  destruct (rerank_appends_unranked_and_degrades float_id_model
              example_analysis (fst run) (snd run) Hnd Hb) as [Hfloat _].
  destruct (rerank_appends_unranked_and_degrades silent_model
              example_analysis (fst run) (snd run) Hnd Hb) as [_ [Hfail _]].
  destruct (rerank_appends_unranked_and_degrades float_index_model
              example_analysis (fst run) (snd run) Hnd Hb) as [_ [_ Hbad]].
  split; [vm_compute; reflexivity|]. split; [|split; [|split]].
  - destruct (Hok [ranking_entry (JInt 2) 90]) as [store' [E _]];
      [vm_compute; reflexivity|vm_compute; reflexivity|].
    rewrite E. vm_compute. reflexivity.
  - destruct (Hfloat [ranking_entry (JFloat (FFinite (21 # 2))) 95;
                      ranking_entry (JInt 2) 90]) as [store' [E _]];
      [vm_compute; reflexivity|vm_compute; reflexivity|].
    rewrite E. vm_compute. reflexivity.
  - assert (ContentAnalyzer.ranking_failed silent_model example_analysis
              (fst run) (snd run)) as Hf.
    { exact I. }
    destruct (Hfail Hf) as [store' [E Hs]].
    exists store'. split; [exact E|].
    apply Hs. vm_compute. lia.
  - apply Hbad. vm_compute. reflexivity.
Defined.

(** C6 as stated fails: on a reply whose ids are strings Phase B raises, so
    nothing is appended, and the engine returns three of the four
    documents. *)
Lemma rerank_string_id_counterexample :
  let run :=
    ContentAnalyzer.basic_text_filter noon example_analysis four_documents in
  List.length (snd run) = 4%nat
  /\ snd (ContentAnalyzer.llm_relevance_ranking string_id_model
            example_analysis (fst run) (snd run))
     = Raise (mk_exn "TypeError"
                "'<=' not supported between instances of 'int' and 'str'")
  /\ List.length
       (ContentAnalyzer.analyze string_id_model noon example_analysis
          four_documents) = 3%nat.
Proof.
  vm_compute. repeat split.
Qed.

Lemma rerank_output_witness :
  let run :=
    ContentAnalyzer.basic_text_filter noon example_analysis twelve_documents
  in
  let output :=
    snd (ContentAnalyzer.analyze_refs partial_model noon example_analysis
           twelve_documents) in
  snd run = [1; 2; 3; 4; 5; 6; 7; 8; 9; 10; 11; 0]%nat
  /\ output = [3; 1; 2; 4; 5; 6; 7; 8; 9; 10]%nat
  /\ incl output (firstn 10 (snd run))
  /\ ~ In 11%nat output
  /\ (List.length output <= 10)%nat.
Proof.
  intros run output.
  assert ((3 < List.length (snd run))%nat) as Hmany.
  { vm_compute. lia. }
  destruct (rerank_output_drawn_from_top_ten partial_model noon
              example_analysis twelve_documents Hmany) as [Hok _].
  assert (ContentAnalyzer.ranking_passes
            (List.length (firstn 10 (snd run)))
            (ContentAnalyzer.get_llm_ranking partial_model example_analysis
               (ContentAnalyzer.analysis_data_from (fst run) O
                  (firstn 10 (snd run)))) = true) as Hgood.
  { vm_compute. reflexivity. }
  destruct (Hok Hgood) as [Hincl [Hout Hlen]].
  split; [vm_compute; reflexivity|]. split; [vm_compute; reflexivity|].
  split; [exact Hincl|]. split.
  - apply Hout. vm_compute. tauto.
  - apply (Hlen [ranking_entry (JInt 2) 90]).
    + vm_compute. reflexivity.
    + vm_compute. repeat constructor. intros [].
Defined.

(** C9 as stated fails: a ranking that repeats an id gives more than 10
    entries; and on a reply whose ids are strings the survivor ranked 12th
    by Phase A is part of the output. *)
Lemma rerank_output_counterexample :
  (3 < List.length
         (snd (ContentAnalyzer.basic_text_filter noon example_analysis
                 four_documents)))%nat
  /\ (10 < List.length
             (ContentAnalyzer.analyze repeating_model noon example_analysis
                four_documents))%nat
  /\ (let run :=
        ContentAnalyzer.basic_text_filter noon example_analysis
          twelve_documents in
      (3 < List.length (snd run))%nat
      /\ nth 11 (snd run) 99%nat = 0%nat
      /\ In 0%nat (skipn 10 (snd run))
      /\ In 0%nat
            (snd (ContentAnalyzer.analyze_refs string_id_model noon
                    example_analysis twelve_documents))).
Proof.
  split; [vm_compute; lia|]. split; [vm_compute; lia|].
  split; [vm_compute; lia|]. split; [vm_compute; reflexivity|].
  split; vm_compute; tauto.
Qed.

(* ================================================================== *)
(** * Further properties of the components *)

(** ** SearchTool.search *)

Section BrokerProvenance.

Import SearchTool.

Variable b : backend.
Variable is_news_query : bool.
Variable limit : Z.

Lemma add_results_from (term_results results : list candidate)
    (c : candidate) :
  In c (add_results limit results term_results) ->
  In c results \/ In c term_results.
Proof.
  revert results.
  induction term_results as [|result rest IH]; intros results H; simpl in H.
  - now left.
  - destruct (limit <=? len results); [now left|].
    destruct (seen results result).
    + destruct (IH _ H) as [H'|H']; [now left|right; now right].
    + destruct (IH _ H) as [H'|H']; [|right; now right].
      apply in_app_or in H'. destruct H' as [H'|[<-|[]]];
        [now left|right; now left].
Qed.

Lemma search_terms_loop_from (terms : list string)
    (results : list candidate) (c : candidate) :
  In c (search_terms_loop b is_news_query limit results terms) ->
  In c results
  \/ exists term term_results,
       In term terms /\ b term is_news_query = Ok term_results
       /\ In c term_results.
Proof.
  revert results.
  induction terms as [|term rest IH]; intros results H; simpl in H.
  - now left.
  - destruct (limit <=? len results); [now left|].
    destruct (b term is_news_query) as [term_results|e] eqn:E.
    + destruct (IH _ H) as [H'|[t [l [Ht [Hb Hc]]]]].
      * destruct (add_results_from _ _ _ H') as [H''|H'']; [now left|].
        right. exists term, term_results.
        split; [now left|]. split; [exact E|exact H''].
      * right. exists t, l.
        split; [now right|]. split; [exact Hb|exact Hc].
    + destruct (IH _ H) as [H'|[t [l [Ht [Hb Hc]]]]]; [now left|].
      right. exists t, l.
      split; [now right|]. split; [exact Hb|exact Hc].
Qed.


Lemma search_terms_loop_full (terms : list string)
    (results : list candidate) :
  limit <= len results ->
  search_terms_loop b is_news_query limit results terms = results.
Proof.
  intros H. destruct terms as [|term rest]; simpl; [reflexivity|].
  apply Z.leb_le in H. now rewrite H.
Qed.

(** What the loops have gathered stays, in place. *)
Lemma add_results_keeps (term_results results : list candidate)
    (c : candidate) :
  In c results -> In c (add_results limit results term_results).
Proof.
  revert results.
  induction term_results as [|result rest IH]; intros results H; simpl.
  - exact H.
  - destruct (limit <=? len results); [exact H|].
    destruct (seen results result); apply IH; [exact H|].
    apply in_or_app. now left.
Qed.

Lemma search_terms_loop_keeps (terms : list string)
    (results : list candidate) (c : candidate) :
  In c results -> In c (search_terms_loop b is_news_query limit results terms).
Proof.
  revert results.
  induction terms as [|term rest IH]; intros results H; simpl.
  - exact H.
  - destruct (limit <=? len results); [exact H|].
    destruct (b term is_news_query) as [term_results|e]; apply IH;
      [now apply add_results_keeps|exact H].
Qed.

(** Every result of a term is taken, by its URL, unless the limit is
    reached. *)
Lemma add_results_complete (term_results results : list candidate)
    (c : candidate) :
  In c term_results ->
  limit <= len (add_results limit results term_results)
  \/ In (url c) (map url (add_results limit results term_results)).
Proof.
  revert results.
  induction term_results as [|result rest IH]; intros results H;
    [contradiction|].
  simpl. destruct (limit <=? len results) eqn:E.
  - left. now apply Z.leb_le.
  - destruct (seen results result) eqn:Hs.
    + destruct H as [->|H]; [|now apply IH].
      right. unfold seen in Hs. apply existsb_exists in Hs.
      destruct Hs as [r [Hr Hu]]. apply String.eqb_eq in Hu.
      rewrite <- Hu. apply in_map. now apply add_results_keeps.
    + destruct H as [->|H]; [|now apply IH].
      right. apply in_map. apply add_results_keeps.
      apply in_or_app. right. now left.
Qed.

Lemma search_terms_loop_complete (terms : list string)
    (results : list candidate) (term : string)
    (term_results : list candidate) (c : candidate) :
  In term terms -> b term is_news_query = Ok term_results ->
  In c term_results ->
  limit <= len (search_terms_loop b is_news_query limit results terms)
  \/ In (url c)
        (map url (search_terms_loop b is_news_query limit results terms)).
Proof.
  intros Hterm Hb Hc. revert results.
  induction terms as [|t rest IH]; intros results; [contradiction|].
  simpl. destruct (limit <=? len results) eqn:E.
  - left. now apply Z.leb_le.
  - destruct Hterm as [->|Hterm].
    + rewrite Hb.
      destruct (add_results_complete term_results results c Hc) as [H|H].
      * left. now rewrite search_terms_loop_full.
      * right. apply in_map_iff in H. destruct H as [c' [Hu Hin]].
        rewrite <- Hu. apply in_map. now apply search_terms_loop_keeps.
    + destruct (b t is_news_query) as [trs|e]; now apply IH.
Qed.

End BrokerProvenance.

(** C7.  For every ordered list of search terms and every positive limit,
    the broker's output holds no two candidates with the same URL and at
    most [limit] candidates.  A term whose search fails (it raises, or the
    backend reports an error and yields nothing) does not end the
    retrieval: the output is the one obtained from the other terms, in
    their order, as if the failing term had not been there.  What is
    returned is what the terms gave: every candidate of the output was
    returned by the backend for one of the terms, and unless the output is
    full (it holds [limit] candidates) the URL of every candidate the
    backend returned for any term is in the output. *)
Theorem broker_output_distinct_bounded_and_failure_isolated
    (b : SearchTool.backend) (result_limit : Z)
    (search_terms : list string) (query_type : string) (limit : Z) :
  0 < limit ->
  let output :=
    SearchTool.search b result_limit search_terms query_type (Some limit) in
  NoDup (map SearchTool.url output)
  /\ len output <= limit
  /\ (forall before term after,
        search_terms = before ++ term :: after ->
        SearchTool.failed b (String.eqb query_type "news") term ->
        output = SearchTool.search b result_limit (before ++ after)
                   query_type (Some limit))
  /\ (forall c, In c output ->
        exists term term_results,
          In term search_terms
          /\ b term (String.eqb query_type "news") = Ok term_results
          /\ In c term_results)
  /\ (len output = limit
      \/ forall term term_results c,
           In term search_terms ->
           b term (String.eqb query_type "news") = Ok term_results ->
           In c term_results ->
           In (SearchTool.url c) (map SearchTool.url output)).
Proof.
  intros Hpos output. subst output. unfold SearchTool.search.
  destruct limit as [|l|l]; try lia.
  set (gathered :=
         SearchTool.search_terms_loop b (String.eqb query_type "news")
           (Z.pos l) [] search_terms).
  split; [|split; [|split; [|split]]].
  - rewrite map_slice_to. apply NoDup_slice_to.
    apply search_terms_loop_NoDup. constructor.
  - apply len_slice_to. lia.
  - intros before term after -> Hf. subst gathered.
    now rewrite (search_terms_loop_skips _ _ _ before after term [] Hf).
  - intros c Hc.
    assert (In c gathered) as Hg.
    { unfold slice_to in Hc. cbn [Z.leb Z.compare] in Hc.
      now apply firstn_In in Hc. }
    apply search_terms_loop_from in Hg. destruct Hg as [[]|Hg]. exact Hg.
  - unfold slice_to. cbn [Z.leb Z.compare].
    destruct (Z_le_gt_dec (Z.pos l) (len gathered)) as [Hfull|Hroom].
    + left. unfold len in *. rewrite length_firstn. lia.
    + right. intros term term_results c Hterm Hb Hc.
      rewrite firstn_all2 by (unfold len in Hroom; lia).
      destruct (search_terms_loop_complete b (String.eqb query_type "news")
                  (Z.pos l) search_terms [] term term_results c Hterm Hb Hc)
        as [H|H]; [fold gathered in H; lia|exact H].
Qed.

Lemma broker_output_witness :
  let output :=
    SearchTool.search example_backend 5 ["x"; "down"; "y"] "factual" (Some 3)
  in
  map SearchTool.url output
  = ["https://a.example/1"; "https://b.example/x"; "https://b.example/y"]
  /\ NoDup (map SearchTool.url output)
  /\ len output <= 3
  /\ output = SearchTool.search example_backend 5 ["x"; "y"] "factual" (Some 3)
  /\ In "https://b.example/y"
        (map SearchTool.url
           (SearchTool.search example_backend 5 ["x"; "down"; "y"] "factual"
              (Some 5))).
Proof.
  pose proof (broker_output_distinct_bounded_and_failure_isolated
                example_backend 5 ["x"; "down"; "y"] "factual" 3 eq_refl)
    as [Hd [Hl [Hs _]]].
  pose proof (broker_output_distinct_bounded_and_failure_isolated
                example_backend 5 ["x"; "down"; "y"] "factual" 5 eq_refl)
    as [_ [_ [_ [_ Hall]]]].
  split; [reflexivity|]. split; [exact Hd|]. split; [exact Hl|].
  split; [exact (Hs ["x"] "down" ["y"] eq_refl I)|].
  destruct Hall as [Hfull|Hall]; [vm_compute in Hfull; discriminate|].
  apply (Hall "y"
           [SearchTool.mk_candidate "https://a.example/1" "A" "" JNull;
            SearchTool.mk_candidate "https://a.example/1" "A again" "" JNull;
            SearchTool.mk_candidate "https://b.example/y" "y" "" JNull]
           (SearchTool.mk_candidate "https://b.example/y" "y" "" JNull)).
  - simpl. tauto.
  - reflexivity.
  - simpl. tauto.
Defined.

(** Every candidate the broker returns was returned by the backend for one
    of the search terms: the broker invents no result. *)
Theorem search_returns_backend_results
    (b : SearchTool.backend) (result_limit : Z) (search_terms : list string)
    (query_type : string) (limit : option Z) (c : SearchTool.candidate) :
  In c (SearchTool.search b result_limit search_terms query_type limit) ->
  exists term term_results,
    In term search_terms
    /\ b term (String.eqb query_type "news") = Ok term_results
    /\ In c term_results.
Proof.
  unfold SearchTool.search. intros H.
  assert (forall k l, In c (@slice_to SearchTool.candidate k l) -> In c l)
    as Hslice.
  { intros k l. unfold slice_to. destruct (0 <=? k); apply firstn_In. }
  apply Hslice in H. apply search_terms_loop_from in H.
  destruct H as [[]|H]. exact H.
Qed.

Lemma search_returns_backend_results_witness :
  exists term term_results,
    In term ["x"; "down"; "y"]
    /\ example_backend term false = Ok term_results
    /\ In (SearchTool.mk_candidate "https://b.example/y" "y" "" JNull)
          term_results.
Proof.
  apply (search_returns_backend_results example_backend 5
           ["x"; "down"; "y"] "factual" (Some 3)).
  vm_compute. tauto.
Defined.



(** ** WebScraper *)

Section Robots.

Import WebScraper.

Variable w : world.


(** The permission check fails open: it answers "disallowed" only when the
    host's policy said so, now or when it was cached; a URL that cannot be
    parsed and a policy that cannot be read count as allowed. *)
Theorem can_fetch_denies_only_on_policy (c : robots_cache) (url : string) :
  fst (fst (can_fetch w c url)) = false ->
  exists base_url,
    base_url_of w url = Ok base_url
    /\ (cache_get base_url c = Some false
        \/ (cache_get base_url c = None
            /\ robots_can_fetch w base_url url = Ok false)).
Proof.
  unfold can_fetch.
  destruct (base_url_of w url) as [base_url|e]; [|discriminate].
  destruct (cache_get base_url c) as [cached|] eqn:Hc; cbn [fst snd].
  - intros ->. exists base_url. split; [reflexivity|now left].
  - destruct (robots_can_fetch w base_url url) as [answer|e] eqn:Hr;
      cbn [fst snd]; [|discriminate].
    intros ->. exists base_url. split; [reflexivity|right; now split].
Qed.

Lemma can_fetch_events (c : robots_cache) (url : string) (ev : event) :
  In ev (snd (can_fetch w c url)) ->
  exists base_url, ev = CacheLookup base_url \/ ev = RobotsRead base_url.
Proof.
  unfold can_fetch.
  destruct (base_url_of w url) as [base_url|e]; [|intros []].
  destruct (cache_get base_url c) as [cached|].
  - intros [<-|[]]. exists base_url. now left.
  - destruct (robots_can_fetch w base_url url) as [answer|e];
      (intros [<-|[<-|[]]]; exists base_url; [now left|now right]).
Qed.

Lemma extract_events (url : string) (ev : event) :
  In ev (snd (extract w url)) -> ev = NewspaperFetch url \/ ev = HttpGet url.
Proof.
  unfold extract.
  destruct (match scrape_with_newspaper w url with
            | Some text =>
                negb (truthy (scrape_with_newspaper w url))
                || (Z.of_nat (String.length (strip text)) <? 100)
            | None => true
            end); cbn [snd].
  - intros [<-|[<-|[]]]; [now left|now right].
  - intros [<-|[]]. now left.
Qed.

(** [scrape] fetches a page only if the URL is an http(s) URL and, when
    robots policies are respected, the permission check allowed it; and it
    fetches no other URL than the one it was given. *)
Theorem scrape_fetches_only_when_permitted
    (c : robots_cache) (url url' : string) :
  In (NewspaperFetch url') (snd (scrape w c url))
  \/ In (HttpGet url') (snd (scrape w c url)) ->
  url' = url
  /\ startswith "http://" url || startswith "https://" url = true
  /\ (respect_robots w = false \/ fst (fst (can_fetch w c url)) = true).
Proof.
  unfold scrape.
  destruct (match url with EmptyString => true | _ => false end
            || negb (startswith "http://" url || startswith "https://" url))
    eqn:Hbad.
  - intros [[]|[]].
  - apply orb_false_iff in Hbad. destruct Hbad as [_ Hok].
    apply negb_false_iff in Hok.
    destruct (respect_robots w) eqn:Hr.
    + destruct (can_fetch w c url) as [[allowed c'] asked] eqn:Hc.
      cbn [fst snd andb].
      assert (forall ev, In ev asked ->
                exists base_url,
                  ev = CacheLookup base_url \/ ev = RobotsRead base_url)
        as Hasked.
      { intros ev Hin. apply (can_fetch_events c url). now rewrite Hc. }
      destruct allowed; cbn [negb].
      * destruct (extract w url) as [content asked'] eqn:He. cbn [snd].
        assert (forall ev, In ev (asked ++ asked') ->
                   (ev = NewspaperFetch url' \/ ev = HttpGet url') ->
                   url' = url) as Hsame.
        { intros ev Hin Hev. apply in_app_or in Hin. destruct Hin as [Hin|Hin].
          - destruct (Hasked ev Hin) as [bu [-> | ->]];
              destruct Hev; discriminate.
          - assert (In ev (snd (extract w url))) as Hin' by now rewrite He.
            apply extract_events in Hin'.
            destruct Hin' as [-> | ->]; destruct Hev as [Hev|Hev];
              try discriminate; now injection Hev. }
        intros H. split; [|split; [exact Hok|now right]].
        destruct H as [H|H]; eapply Hsame; eauto.
      * cbn [snd]. intros [H|H]; destruct (Hasked _ H) as [bu [E|E]];
          discriminate.
    + cbn [andb]. destruct (extract w url) as [content asked'] eqn:He.
      cbn [snd app].
      intros H. split; [|split; [exact Hok|now left]].
      assert (forall ev, In ev asked' ->
                 ev = NewspaperFetch url \/ ev = HttpGet url) as Hev.
      { intros ev Hin. apply extract_events. now rewrite He. }
      destruct H as [H|H]; destruct (Hev _ H) as [E|E];
        try discriminate; now injection E.
Qed.

(** When robots policies are respected and the check disallows an http(s)
    URL, [scrape] returns the fixed sentinel sentence as the content. *)
Theorem scrape_disallowed_returns_sentinel (c : robots_cache) (url : string) :
  respect_robots w = true ->
  startswith "http://" url || startswith "https://" url = true ->
  fst (fst (can_fetch w c url)) = false ->
  fst (fst (scrape w c url)) = Some robots_disallowed
  /\ snd (fst (scrape w c url)) = snd (fst (can_fetch w c url)).
Proof.
  intros Hr Hok Hno. unfold scrape.
  assert (url <> EmptyString) as Hne.
  { intros ->. discriminate. }
  destruct url as [|a rest]; [congruence|].
  rewrite Hok, Hr. cbn [negb orb andb].
  destruct (can_fetch w c (String a rest)) as [[allowed c'] asked].
  cbn [fst snd] in *. subst allowed. split; reflexivity.
Qed.

(** When robots policies are not respected, [scrape] leaves the permission
    cache as it was and neither looks it up nor reads any policy. *)
Theorem scrape_without_robots_leaves_cache
    (c : robots_cache) (url : string) :
  respect_robots w = false ->
  snd (fst (scrape w c url)) = c
  /\ forall base_url,
       ~ In (CacheLookup base_url) (snd (scrape w c url))
       /\ ~ In (RobotsRead base_url) (snd (scrape w c url)).
Proof.
  intros Hr. unfold scrape.
  destruct (match url with EmptyString => true | _ => false end
            || negb (startswith "http://" url || startswith "https://" url)).
  - split; [reflexivity|]. intros bu. split; intros [].
  - rewrite Hr. cbn [andb].
    destruct (extract w url) as [content asked'] eqn:He. cbn [fst snd app].
    split; [reflexivity|]. intros bu.
    assert (forall ev, In ev asked' ->
               ev = NewspaperFetch url \/ ev = HttpGet url) as Hev.
    { intros ev Hin. apply extract_events. now rewrite He. }
    split; intros H; destruct (Hev _ H); discriminate.
Qed.


End Robots.


Lemma can_fetch_denies_only_on_policy_witness :
  exists base_url,
    WebScraper.base_url_of closed_world "https://example.com/a" = Ok base_url
    /\ (WebScraper.cache_get base_url [] = Some false
        \/ (WebScraper.cache_get base_url [] = None
            /\ WebScraper.robots_can_fetch closed_world base_url
                 "https://example.com/a" = Ok false)).
Proof.
  apply (can_fetch_denies_only_on_policy closed_world []
           "https://example.com/a").
  reflexivity.
Defined.

Lemma scrape_fetches_only_when_permitted_witness :
  snd (WebScraper.scrape open_world [] "https://example.com/page")
  = [WebScraper.CacheLookup "https://example.com";
     WebScraper.RobotsRead "https://example.com";
     WebScraper.NewspaperFetch "https://example.com/page";
     WebScraper.HttpGet "https://example.com/page"]
  /\ (WebScraper.respect_robots open_world = false
      \/ fst (fst (WebScraper.can_fetch open_world []
                     "https://example.com/page")) = true).
Proof.
  split; [vm_compute; reflexivity|].
  apply (scrape_fetches_only_when_permitted open_world []
           "https://example.com/page" "https://example.com/page").
  right. vm_compute. tauto.
Defined.

Lemma scrape_disallowed_returns_sentinel_witness :
  fst (fst (WebScraper.scrape closed_world [] "https://example.com/page"))
  = Some WebScraper.robots_disallowed
  /\ snd (fst (WebScraper.scrape closed_world [] "https://example.com/page"))
     = snd (fst (WebScraper.can_fetch closed_world []
                   "https://example.com/page")).
Proof.
  apply (scrape_disallowed_returns_sentinel closed_world []
           "https://example.com/page"); reflexivity.
Defined.

Lemma scrape_without_robots_witness :
  snd (fst (WebScraper.scrape careless_world
              [("https://example.com", false)] "https://example.com/page"))
  = [("https://example.com", false)]
  /\ forall base_url,
       ~ In (WebScraper.CacheLookup base_url)
            (snd (WebScraper.scrape careless_world
                    [("https://example.com", false)]
                    "https://example.com/page"))
       /\ ~ In (WebScraper.RobotsRead base_url)
              (snd (WebScraper.scrape careless_world
                      [("https://example.com", false)]
                      "https://example.com/page")).
Proof.
  apply (scrape_without_robots_leaves_cache careless_world
           [("https://example.com", false)] "https://example.com/page").
  reflexivity.
Defined.

(** ** ContentAnalyzer *)

Section Sources.

Import ContentAnalyzer.

Lemma same_source_refl (a : item) : same_source a a.
Proof. repeat split. Qed.

Lemma same_source_trans (a b c : item) :
  same_source a b -> same_source b c -> same_source a c.
Proof.
  unfold same_source. intros [? [? [? [? ?]]]] [? [? [? [? ?]]]].
  repeat split; congruence.
Qed.

Lemma Forall2_same_source_refl (l : list item) : Forall2 same_source l l.
Proof. induction l; constructor; [apply same_source_refl|assumption]. Qed.

Lemma Forall2_same_source_trans (l1 l2 l3 : list item) :
  Forall2 same_source l1 l2 -> Forall2 same_source l2 l3 ->
  Forall2 same_source l1 l3.
Proof.
  intros H. revert l3. induction H as [|a b l1 l2 Hab H IH]; intros l3 H3;
    inversion H3; subst; constructor.
  - eapply same_source_trans; eauto.
  - now apply IH.
Qed.

Lemma update_same_source (store : list item) (r : nat) (f : item -> item) :
  (forall it, same_source it (f it)) ->
  Forall2 same_source store (update store r f).
Proof.
  intros Hf. revert r.
  induction store as [|it rest IH]; intros [|r]; simpl; constructor;
    try apply same_source_refl; try apply Forall2_same_source_refl;
    try apply Hf; apply IH.
Qed.

Lemma filter_loop_same_source (clock : nat -> Z) (q : query_analysis)
    (items : list item) (r0 : nat) :
  Forall2 same_source items (fst (filter_loop clock q r0 items)).
Proof.
  revert r0. induction items as [|it rest IH]; intros r0; simpl;
    [constructor|].
  specialize (IH (S r0)).
  destruct (filter_loop clock q (S r0) rest) as [store filtered].
  destruct (threshold <? raw_score (clock r0) q it); simpl;
    constructor; try exact IH; repeat split.
Qed.

Lemma rank_loop_same_source (items : list nat) (rankings : list json)
    (store : list item) (ranked : list nat) :
  Forall2 same_source store (fst (rank_loop items store ranked rankings)).
Proof.
  revert store ranked.
  induction rankings as [|rank rest IH]; intros store ranked;
    [apply Forall2_same_source_refl|].
  destruct rank as [| | | | | |d]; cbn [rank_loop fst];
    try apply Forall2_same_source_refl.
  destruct (dict_get "id" d) as [item_id|]; [|apply IH].
  destruct item_id as [|b|z|f|t|l|d']; cbn [as_int fst];
    try apply Forall2_same_source_refl; try apply IH.
  - destruct ((0 <=? (if b then 1 else 0))
              && ((if b then 1 else 0) <? len items)); [|apply IH].
    eapply Forall2_same_source_trans; [|apply IH].
    apply update_same_source. intros it. repeat split.
  - destruct ((0 <=? z) && (z <? len items)); [|apply IH].
    eapply Forall2_same_source_trans; [|apply IH].
    apply update_same_source. intros it. repeat split.
  - destruct (int_le_float 0 f && float_lt_int f (len items));
      [apply Forall2_same_source_refl|apply IH].
Qed.

Lemma llm_relevance_ranking_same_source (llm : ranking_model)
    (q : query_analysis) (store : list item) (filtered : list nat) :
  Forall2 same_source store
    (fst (llm_relevance_ranking llm q store filtered)).
Proof.
  unfold llm_relevance_ranking.
  destruct (iterate _) as [rankings|e];
    [|apply Forall2_same_source_refl].
  pose proof (rank_loop_same_source (firstn 10 filtered) rankings store [])
    as H.
  destruct (rank_loop (firstn 10 filtered) store [] rankings)
    as [store' [ranked|e]]; exact H.
Qed.

Lemma Forall2_deref (l1 l2 : list item) (r : nat) :
  Forall2 same_source l1 l2 -> (r < List.length l1)%nat ->
  same_source (deref l1 r) (deref l2 r).
Proof.
  unfold deref. intros H. revert r.
  induction H as [|a b l1 l2 Hab H IH]; intros [|r] Hr; simpl in *;
    try lia; [exact Hab|apply IH; lia].
Qed.

End Sources.

Section AnalyzeFacts.

Import ContentAnalyzer.

Variable llm : ranking_model.
Variable clock : nat -> Z.
Variable q : query_analysis.
Variable items : list item.

Lemma first_three_valid (store : list item) :
  Forall (fun r => (r < List.length store)%nat) (first_three store).
Proof.
  apply Forall_forall. intros r Hr. unfold first_three in Hr.
  apply in_seq in Hr. lia.
Qed.

Lemma first_three_nonempty (store : list item) :
  store <> [] -> first_three store <> [].
Proof.
  unfold first_three. destruct store as [|a [|b [|c rest]]];
    simpl; congruence.
Qed.

(** What [analyze] returns: references to input positions, into a store
    that holds the same sources as the input; at least one of them when
    there is any input. *)
Lemma analyze_refs_facts :
  Forall2 same_source items (fst (analyze_refs llm clock q items))
  /\ Forall (fun r => (r < List.length items)%nat)
            (snd (analyze_refs llm clock q items))
  /\ (items <> [] -> snd (analyze_refs llm clock q items) <> []).
Proof.
  pose proof (basic_text_filter_store clock q items) as [Hlen _].
  pose proof (basic_text_filter_survivors clock q items) as Hsurv.
  assert (Forall2 same_source items
            (fst (basic_text_filter clock q items))) as Hsame.
  { unfold basic_text_filter.
    pose proof (filter_loop_same_source clock q items O) as H.
    destruct (filter_loop clock q O items) as [st fl]. exact H. }
  unfold analyze_refs.
  destruct (basic_text_filter clock q items) as [store filtered].
  cbn [fst snd] in *.
  assert (Forall (fun r => (r < List.length items)%nat) filtered) as Hvalid.
  { eapply Forall_impl; [|exact Hsurv]. cbv beta. tauto. }
  assert (items <> [] -> store <> []) as Hne.
  { intros Hi Hs. apply Hi. subst store. simpl in Hlen.
    destruct items; [reflexivity|discriminate]. }
  destruct filtered as [|r0 rest] eqn:Ef.
  - cbn [fst snd]. split; [exact Hsame|]. split.
    + rewrite <- Hlen. apply first_three_valid.
    + intros Hi. apply first_three_nonempty. now apply Hne.
  - rewrite <- Ef in *.
    destruct (3 <? len filtered).
    + destruct (ranking_passes
                  (List.length (firstn 10 filtered))
                  (get_llm_ranking llm q
                     (analysis_data_from store O (firstn 10 filtered))))
        eqn:Hok.
      * unfold ranking_passes in Hok.
        destruct (iterate _) as [rankings|e] eqn:Hit; [|discriminate].
        pose proof (llm_relevance_ranking_same_source llm q store filtered)
          as Hs2.
        rewrite (rerank_ok llm q store filtered rankings Hit Hok) in *.
        cbn [fst snd] in *.
        split; [eapply Forall2_same_source_trans; eauto|]. split.
        -- apply Forall_forall. intros r Hr.
           assert (In r (firstn 10 filtered)) as Htop.
           { apply in_app_or in Hr. destruct Hr as [Hr|Hr].
             - now apply ranked_refs_incl in Hr.
             - now apply unranked_from_incl in Hr. }
           apply firstn_In in Htop. rewrite Forall_forall in Hvalid.
           now apply Hvalid.
        -- intros _ Hnil.
           assert (In r0 (firstn 10 filtered)) as Hin.
           { rewrite Ef. simpl. now left. }
           apply (rerank_covers (firstn 10 filtered) rankings r0 Hok) in Hin.
           rewrite Hnil in Hin. exact Hin.
      * pose proof (llm_relevance_ranking_same_source llm q store filtered)
          as Hs2.
        destruct (rerank_bad llm q store filtered Hok) as [s' [e [E Hl]]].
        rewrite E in *. cbn [fst snd] in *.
        split; [eapply Forall2_same_source_trans; eauto|]. split.
        -- rewrite <- Hlen, <- Hl. apply first_three_valid.
        -- intros Hi. apply first_three_nonempty.
           intros Hs'. apply (Hne Hi). subst s'. simpl in Hl.
           destruct store; [reflexivity|discriminate].
    + cbn [fst snd]. split; [exact Hsame|]. split; [exact Hvalid|].
      intros _. rewrite Ef. discriminate.
Qed.

End AnalyzeFacts.

(** The engine never returns an empty list when it was given documents:
    whatever the scores and whatever the model replies, at least one
    document comes back. *)
Theorem analyze_keeps_a_document
    (llm : ContentAnalyzer.ranking_model) (clock : nat -> Z)
    (q : query_analysis) (items : list ContentAnalyzer.item) :
  items <> [] -> ContentAnalyzer.analyze llm clock q items <> [].
Proof.
  intros Hne. unfold ContentAnalyzer.analyze.
  pose proof (analyze_refs_facts llm clock q items) as [_ [_ H]].
  destruct (ContentAnalyzer.analyze_refs llm clock q items) as [store refs].
  cbn [snd] in H. specialize (H Hne).
  destruct refs; [congruence|discriminate].
Qed.

Lemma analyze_keeps_a_document_witness :
  ContentAnalyzer.analyze string_id_model noon example_analysis
    four_documents <> [].
Proof.
  apply analyze_keeps_a_document. discriminate.
Defined.

(** Every document the engine returns is one of the input documents: same
    url, title, content, metadata and date; the engine only adds a score
    and a reason. *)
Theorem analyze_returns_input_documents
    (llm : ContentAnalyzer.ranking_model) (clock : nat -> Z)
    (q : query_analysis) (items : list ContentAnalyzer.item)
    (it : ContentAnalyzer.item) :
  In it (ContentAnalyzer.analyze llm clock q items) ->
  exists source, In source items /\ ContentAnalyzer.same_source source it.
Proof.
  unfold ContentAnalyzer.analyze.
  pose proof (analyze_refs_facts llm clock q items) as [Hsame [Hvalid _]].
  destruct (ContentAnalyzer.analyze_refs llm clock q items) as [store refs].
  cbn [fst snd] in *. intros Hin.
  apply in_map_iff in Hin. destruct Hin as [r [<- Hr]].
  rewrite Forall_forall in Hvalid. specialize (Hvalid r Hr).
  exists (ContentAnalyzer.deref items r). split.
  - now apply nth_In.
  - now apply Forall2_deref.
Qed.

Lemma analyze_returns_input_documents_witness :
  exists source,
    In source four_documents
    /\ ContentAnalyzer.same_source source
         (nth 0 (ContentAnalyzer.analyze generous_model noon example_analysis
                   four_documents) ContentAnalyzer.no_item).
Proof.
  apply (analyze_returns_input_documents generous_model noon
           example_analysis four_documents).
  vm_compute. tauto.
Defined.

(** With at most 3 Phase-A survivors the generative capability plays no
    part: the engine returns the same list whatever the model would
    answer. *)
Theorem analyze_without_rerank_ignores_model
    (llm llm' : ContentAnalyzer.ranking_model) (clock : nat -> Z)
    (q : query_analysis) (items : list ContentAnalyzer.item) :
  (List.length (snd (ContentAnalyzer.basic_text_filter clock q items)) <= 3)%nat ->
  ContentAnalyzer.analyze llm clock q items
  = ContentAnalyzer.analyze llm' clock q items.
Proof.
  unfold ContentAnalyzer.analyze, ContentAnalyzer.analyze_refs.
  destruct (ContentAnalyzer.basic_text_filter clock q items)
    as [store filtered].
  cbn [snd]. intros Hfew.
  destruct filtered as [|r rest]; [reflexivity|].
  replace (3 <? len (r :: rest)) with false; [reflexivity|].
  symmetry. apply Z.ltb_ge. unfold len. lia.
Qed.

Lemma analyze_without_rerank_witness :
  ContentAnalyzer.analyze generous_model noon example_analysis
    [document "France" "x"; document "nothing" "x"]
  = ContentAnalyzer.analyze silent_model noon example_analysis
      [document "France" "x"; document "nothing" "x"].
Proof.
  apply analyze_without_rerank_ignores_model. vm_compute. lia.
Defined.

Section PhaseAExact.

Import ContentAnalyzer.

Variable clock : nat -> Z.
Variable q : query_analysis.

Lemma filter_loop_complete (items : list item) (r0 r : nat) :
  (r0 <= r < r0 + List.length items)%nat ->
  threshold < raw_score (clock r) q (nth (r - r0) items no_item) ->
  In r (snd (filter_loop clock q r0 items)).
Proof.
  revert r0. induction items as [|it rest IH]; intros r0 Hr Hs; simpl in *;
    [lia|].
  specialize (IH (S r0)).
  destruct (filter_loop clock q (S r0) rest) as [store filtered].
  cbn [snd] in IH.
  destruct (Nat.eq_dec r r0) as [->|Hne].
  - rewrite Nat.sub_diag in Hs. apply Z.ltb_lt in Hs. rewrite Hs.
    now left.
  - assert (In r filtered) as Hin.
    { apply IH; [lia|].
      replace (r - r0)%nat with (S (r - S r0)) in Hs by lia. exact Hs. }
    destruct (threshold <? raw_score (clock r0) q it); [now right|exact Hin].
Qed.

Lemma filter_loop_count (items : list item) (r0 : nat) :
  (List.length (snd (filter_loop clock q r0 items)) <= List.length items)%nat.
Proof.
  revert r0. induction items as [|it rest IH]; intros r0; simpl; [lia|].
  specialize (IH (S r0)).
  destruct (filter_loop clock q (S r0) rest) as [store filtered].
  cbn [snd] in *.
  destruct (threshold <? raw_score (clock r0) q it); simpl; lia.
Qed.

Lemma insert_desc_length (key : nat -> Z) (x : nat) (l : list nat) :
  List.length (insert_desc key x l) = S (List.length l).
Proof.
  induction l as [|y l IH]; simpl; [reflexivity|].
  destruct (key x <? key y); simpl; [now rewrite IH|reflexivity].
Qed.

Lemma sort_desc_length (key : nat -> Z) (l : list nat) :
  List.length (sort_desc key l) = List.length l.
Proof.
  induction l as [|x l IH]; simpl; [reflexivity|].
  now rewrite insert_desc_length, IH.
Qed.

End PhaseAExact.

(** With at most 20 documents, Phase A returns exactly the documents that
    score above the threshold of 5: none of them is lost and no other is
    let through. *)
Theorem phase_a_keeps_exactly_the_scoring_documents
    (clock : nat -> Z) (q : query_analysis)
    (items : list ContentAnalyzer.item) (r : nat) :
  (List.length items <= 20)%nat ->
  In r (snd (ContentAnalyzer.basic_text_filter clock q items))
  <-> (r < List.length items)%nat
      /\ ContentAnalyzer.threshold
         < ContentAnalyzer.raw_score (clock r) q
             (ContentAnalyzer.deref items r).
Proof.
  intros Hfew. split.
  - intros Hin.
    pose proof (basic_text_filter_survivors clock q items) as Hs.
    rewrite Forall_forall in Hs. now apply Hs.
  - intros [Hr Hs]. unfold ContentAnalyzer.basic_text_filter.
    pose proof (filter_loop_complete clock q items O r) as Hc.
    pose proof (filter_loop_count clock q items O) as Hn.
    destruct (ContentAnalyzer.filter_loop clock q O items) as [st fl].
    cbn [snd] in *.
    rewrite firstn_all2.
    + apply sort_desc_In. apply Hc; [lia|].
      unfold ContentAnalyzer.deref in Hs. now rewrite Nat.sub_0_r.
    + rewrite sort_desc_length. unfold ContentAnalyzer.max_results. lia.
Qed.

Lemma phase_a_keeps_exactly_witness :
  In 3%nat
     (snd (ContentAnalyzer.basic_text_filter noon example_analysis
             four_documents))
  <-> (3 < List.length four_documents)%nat
      /\ ContentAnalyzer.threshold
         < ContentAnalyzer.raw_score (noon 3%nat) example_analysis
             (ContentAnalyzer.deref four_documents 3).
Proof.
  apply (phase_a_keeps_exactly_the_scoring_documents noon example_analysis
           four_documents 3).
  vm_compute. lia.
Defined.

Lemma fold_left_ge {A} (f : Z -> A -> Z) (l : list A) (acc : Z) :
  (forall a x, a <= f a x) -> acc <= fold_left f l acc.
Proof.
  intros Hf. revert acc. induction l as [|x l IH]; intros acc; simpl; [lia|].
  specialize (IH (f acc x)). specialize (Hf acc x). lia.
Qed.

Lemma fold_left_gain {A} (f : Z -> A -> Z) (l : list A) (acc gain : Z)
    (x : A) :
  (forall a y, a <= f a y) -> (forall a, a + gain <= f a x) -> In x l ->
  acc + gain <= fold_left f l acc.
Proof.
  intros Hf Hx. revert acc.
  induction l as [|y l IH]; intros acc Hin; simpl; [contradiction|].
  destruct Hin as [->|Hin].
  - pose proof (fold_left_ge f l (f acc x) Hf). specialize (Hx acc). lia.
  - specialize (IH (f acc y) Hin). specialize (Hf acc y). lia.
Qed.

(** A score of Phase A is never negative, and a key term found in the
    title is enough to pass the threshold. *)
Theorem raw_score_bounds
    (now : Z) (q : query_analysis) (it : ContentAnalyzer.item) :
  0 <= ContentAnalyzer.raw_score now q it
  /\ forall term,
       In term (ContentAnalyzer.key_terms_of q) ->
       contains term (lower (ContentAnalyzer.title it)) = true ->
       ContentAnalyzer.threshold < ContentAnalyzer.raw_score now q it.
Proof.
  unfold ContentAnalyzer.raw_score, ContentAnalyzer.threshold.
  set (title := lower (ContentAnalyzer.title it)).
  set (content := lower (ContentAnalyzer.content it)).
  set (title_score :=
         fold_left (fun acc term => if contains term title then acc + 10
                                    else acc)
                   (ContentAnalyzer.key_terms_of q) 0).
  set (url_score := fold_left _ (ContentAnalyzer.key_terms_of q) 0).
  set (content_score := fold_left _ (ContentAnalyzer.key_terms_of q) 0).
  set (base := 0 + Z.min 50 title_score + Z.min 15 url_score + content_score).
  set (phrases := fold_left _ (search_terms q) base).
  set (dated := match ContentAnalyzer.published_date it with
                | ContentAnalyzer.NaiveDate published => _
                | _ => phrases
                end).
  assert (0 <= title_score) as Ht.
  { subst title_score. apply fold_left_ge. intros a x.
    destruct (contains x title); lia. }
  assert (0 <= url_score) as Hu.
  { subst url_score. apply fold_left_ge. intros a x.
    destruct (contains x _); lia. }
  assert (0 <= content_score) as Hc.
  { subst content_score. apply fold_left_ge. intros a x. cbv zeta.
    destruct (0 <? count x content) eqn:E; [|lia].
    apply Z.ltb_lt in E. lia. }
  assert (base <= phrases) as Hp.
  { subst phrases. apply fold_left_ge. intros a x.
    destruct (1 <? len (split x)); [|lia].
    destruct (contains (lower x) content);
      destruct (contains (lower x) title); lia. }
  assert (phrases <= dated) as Hd.
  { subst dated. destruct (ContentAnalyzer.published_date it); try lia.
    cbv zeta.
    destruct (_ <? 30); [lia|]. destruct (_ <? 90); [lia|].
    destruct (_ <? 365); lia. }
  assert (dated <=
          (if 1000 <? len (split content) then dated + 5
           else if 500 <? len (split content) then dated + 3
           else if 200 <? len (split content) then dated + 1 else dated))
    as Hl.
  { destruct (1000 <? _); [lia|]. destruct (500 <? _); [lia|].
    destruct (200 <? _); lia. }
  split.
  - subst base. lia.
  - intros term Hin Hc'.
    assert (0 + 10 <= title_score) as Ht10.
    { subst title_score. apply (fold_left_gain _ _ 0 10 term).
      - intros a x. destruct (contains x title); lia.
      - intros a. fold title in Hc'. rewrite Hc'. lia.
      - exact Hin. }
    subst base. lia.
Qed.




(** When the ranking names every document of the top 10, the output is the
    ranked documents in the order of the ranking and nothing is appended. *)
Theorem rerank_follows_a_complete_ranking
    (llm : ContentAnalyzer.ranking_model) (q : query_analysis)
    (store : list ContentAnalyzer.item) (filtered : list nat)
    (rankings : list json) :
  ContentAnalyzer.iterate
    (ContentAnalyzer.get_llm_ranking llm q
       (ContentAnalyzer.analysis_data_from store O (firstn 10 filtered)))
  = Ok rankings ->
  forallb ContentAnalyzer.entry_ok rankings = true ->
  (forall i, (i < List.length (firstn 10 filtered))%nat ->
             existsb (ContentAnalyzer.names i) rankings = true) ->
  snd (ContentAnalyzer.llm_relevance_ranking llm q store filtered)
  = Ok (map (fun p => nth p (firstn 10 filtered) O)
            (ContentAnalyzer.ranked_positions
               (List.length (firstn 10 filtered)) rankings)).
Proof.
  intros Hit Hok Hall.
  rewrite (rerank_ok llm q store filtered rankings Hit
             (entries_ok_pass _ _ Hok)).
  cbn [snd].
  rewrite unranked_from_spec, filter_none.
  - cbn [map]. now rewrite app_nil_r.
  - intros i Hi. apply in_seq in Hi. rewrite Hall by lia. reflexivity.
Qed.

Lemma rerank_follows_a_complete_ranking_witness :
  let run :=
    ContentAnalyzer.basic_text_filter noon example_analysis four_documents in
  snd (ContentAnalyzer.llm_relevance_ranking reversing_model
         example_analysis (fst run) (snd run))
  = Ok (map (fun p => nth p (firstn 10 (snd run)) O)
            (ContentAnalyzer.ranked_positions
               (List.length (firstn 10 (snd run)))
               [ranking_entry (JInt 3) 90; ranking_entry (JInt 2) 80;
                ranking_entry (JInt 1) 70; ranking_entry (JInt 0) 60])).
Proof.
  intros run.
  apply (rerank_follows_a_complete_ranking reversing_model example_analysis
           (fst run) (snd run)).
  - vm_compute. reflexivity.
  - vm_compute. reflexivity.
  - intros i Hi.
    assert ((i < 4)%nat) as Hi' by (vm_compute in Hi; vm_compute; exact Hi).
    destruct i as [|[|[|[|i]]]]; try (vm_compute; reflexivity). lia.
Defined.

Lemma string_length_app (a b : string) :
  String.length (a ++ b) = (String.length a + String.length b)%nat.
Proof.
  induction a as [|x a IH]; simpl; [reflexivity|now rewrite IH].
Qed.

Lemma substring_prefix_length (n : nat) (s : string) :
  String.length (substring 0 n s) = Nat.min n (String.length s).
Proof.
  revert s. induction n as [|n IH]; intros [|c s]; simpl; try reflexivity.
  now rewrite IH.
Qed.

Lemma sample_of_length (content : string) :
  Z.of_nat (String.length (ContentAnalyzer.sample_of content)) <= 3003.
Proof.
  unfold ContentAnalyzer.sample_of.
  destruct (3000 <? Z.of_nat (String.length content)) eqn:E.
  - rewrite string_length_app, substring_prefix_length.
    change (String.length "...") with 3%nat. lia.
  - apply Z.ltb_ge in E. lia.
Qed.

Lemma analysis_data_nth (store : list ContentAnalyzer.item)
    (l : list nat) (k i : nat) :
  (i < List.length l)%nat ->
  nth i (ContentAnalyzer.analysis_data_from store k l)
      (ContentAnalyzer.mk_analysis_entry 0 "" "" "")
  = let it := ContentAnalyzer.deref store (nth i l O) in
    ContentAnalyzer.mk_analysis_entry
      (Z.of_nat (k + i)) (ContentAnalyzer.title it) (ContentAnalyzer.url it)
      (ContentAnalyzer.sample_of (ContentAnalyzer.content it)).
Proof.
  revert k i. induction l as [|r rest IH]; intros k [|i] Hi; simpl in Hi;
    try lia; cbn [ContentAnalyzer.analysis_data_from nth].
  - now rewrite Nat.add_0_r.
  - rewrite IH by lia. cbv zeta. now rewrite Nat.add_succ_comm.
Qed.

(** What Phase B sends to the model: one analysis entry per document of
    the top 10, in order; the entry at index i carries the id i and the
    title and url of the i-th document, and as sample the content itself
    when it has at most 3000 characters, its first 3000 characters
    followed by "..." otherwise, hence at most 3003 characters. *)
Theorem analysis_samples_bounded
    (store : list ContentAnalyzer.item) (items_for_analysis : list nat) :
  let analysis_data :=
    ContentAnalyzer.analysis_data_from store O items_for_analysis in
  List.length analysis_data = List.length items_for_analysis
  /\ forall i, (i < List.length items_for_analysis)%nat ->
       let entry :=
         nth i analysis_data (ContentAnalyzer.mk_analysis_entry 0 "" "" "") in
       let it := ContentAnalyzer.deref store (nth i items_for_analysis O) in
       ContentAnalyzer.entry_id entry = Z.of_nat i
       /\ ContentAnalyzer.entry_title entry = ContentAnalyzer.title it
       /\ ContentAnalyzer.entry_url entry = ContentAnalyzer.url it
       /\ (Z.of_nat (String.length (ContentAnalyzer.content it)) <= 3000 ->
           ContentAnalyzer.content_sample entry = ContentAnalyzer.content it)
       /\ (3000 < Z.of_nat (String.length (ContentAnalyzer.content it)) ->
           ContentAnalyzer.content_sample entry
           = (substring 0 3000 (ContentAnalyzer.content it) ++ "...")%string)
       /\ Z.of_nat (String.length (ContentAnalyzer.content_sample entry))
          <= 3003.
Proof.
  intros analysis_data. subst analysis_data.
  split; [apply analysis_data_length|].
  intros i Hi. rewrite (analysis_data_nth store items_for_analysis O i Hi).
  cbv zeta.
  cbn [ContentAnalyzer.entry_id ContentAnalyzer.entry_title
       ContentAnalyzer.entry_url ContentAnalyzer.content_sample].
  split; [reflexivity|]. split; [reflexivity|]. split; [reflexivity|].
  split; [|split].
  - intros Hshort. unfold ContentAnalyzer.sample_of.
    apply Z.ltb_ge in Hshort. now rewrite Hshort.
  - intros Hlong. unfold ContentAnalyzer.sample_of.
    apply Z.ltb_lt in Hlong. rewrite Hlong.
    now replace (Z.to_nat 3000) with 3000%nat by lia.
  - apply sample_of_length.
Qed.

(** The synthesizer's prepared content keeps one entry per document, in
    order, with its url and title, and bounds each text: at most 8023
    characters, and unchanged when it has at most 8000. *)
Theorem prepare_content_bounded
    (filtered_content : list ContentAnalyzer.item) :
  map ResponseGenerator.url (ResponseGenerator.prepare_content filtered_content)
  = map ContentAnalyzer.url filtered_content
  /\ map ResponseGenerator.title
       (ResponseGenerator.prepare_content filtered_content)
     = map ContentAnalyzer.title filtered_content
  /\ Forall2 (fun it entry =>
                Z.of_nat (String.length (ResponseGenerator.content entry))
                <= 8023
                /\ (Z.of_nat (String.length (ContentAnalyzer.content it))
                    <= 8000 ->
                    ResponseGenerator.content entry
                    = ContentAnalyzer.content it))
             filtered_content
             (ResponseGenerator.prepare_content filtered_content).
Proof.
  unfold ResponseGenerator.prepare_content.
  split; [|split].
  - rewrite map_map. reflexivity.
  - rewrite map_map. reflexivity.
  - induction filtered_content as [|it rest IH]; cbn [map]; constructor;
      [|exact IH].
    cbn [ResponseGenerator.content].
    destruct (8000 <? Z.of_nat (String.length (ContentAnalyzer.content it)))
      eqn:E.
    + apply Z.ltb_lt in E. split; [|lia].
      rewrite string_length_app, substring_prefix_length.
      change (String.length "... [content truncated]") with 23%nat. lia.
    + apply Z.ltb_ge in E. split; [lia|reflexivity].
Qed.

(** ** ResponseGenerator.generate *)

(** When the prompt cannot be built, or the reply decodes to something that
    is not an object (a list, a number, a string), [generate] answers with
    its generic fallback: a summary that references the query, an empty
    detailed response, no highlights and no source evaluation; the raw
    reply is not passed on. *)
Theorem generate_generic_fallback
    (llm : ResponseGenerator.synthesis_model) (asked : string)
    (q : query_analysis) (filtered_content : list ContentAnalyzer.item)
    (conversation_history : list turn) :
  (exists e,
      ResponseGenerator.create_synthesis_prompt conversation_history = Raise e)
  \/ (exists result v,
        llm asked q (ResponseGenerator.prepare_content filtered_content)
            conversation_history = Ok result
        /\ decoded result = Some v
        /\ v <> JNull /\ (forall d, v <> JDict d)) ->
  let response :=
    ResponseGenerator.generate llm asked q filtered_content
                               conversation_history in
  (exists text, ResponseGenerator.summary response = JStr text
                /\ mentions asked text)
  /\ ResponseGenerator.detailed_response response = JStr ""
  /\ ResponseGenerator.highlights response = JList []
  /\ ResponseGenerator.source_evaluation response = None.
Proof.
  intros H response. subst response.
  assert (forall r : ResponseGenerator.response,
             r = ResponseGenerator.mk_response
                   (JStr ("I found information about '" ++ asked
                          ++ "', but encountered an error while synthesizing a response. "
                          ++ "Please try rephrasing your question or being more specific.")%string)
                   (JStr "") (JList []) None ->
             (exists text, ResponseGenerator.summary r = JStr text
                           /\ mentions asked text)
             /\ ResponseGenerator.detailed_response r = JStr ""
             /\ ResponseGenerator.highlights r = JList []
             /\ ResponseGenerator.source_evaluation r = None) as Hfb.
  { intros r ->. cbn. repeat split.
    eexists. split; [reflexivity|].
    now exists "I found information about '"%string,
      ("', but encountered an error while synthesizing a response. "
       ++ "Please try rephrasing your question or being more specific.")%string. }
  apply Hfb.
  unfold ResponseGenerator.generate, ResponseGenerator.get_llm_synthesis.
  destruct H as [[e He]|[result [v [Hr [Hd [Hnull Hobj]]]]]].
  - now rewrite He.
  - destruct (ResponseGenerator.create_synthesis_prompt conversation_history);
      [|reflexivity].
    rewrite Hr, Hd.
    destruct v; try reflexivity; [congruence|].
    now destruct (Hobj d).
Qed.

Lemma generate_generic_fallback_witness :
  ResponseGenerator.detailed_response
    (ResponseGenerator.generate listing_model "capital of France"
       example_analysis [] [])
  = JStr ""
  /\ ResponseGenerator.source_evaluation
       (ResponseGenerator.generate listing_model "capital of France"
          example_analysis [] [])
     = None.
Proof.
  destruct (generate_generic_fallback listing_model "capital of France"
              example_analysis [] []) as [_ [Hd [_ He]]].
  - right. exists (mk_reply "[1, 2]" (Some (JList [JInt 1; JInt 2]))),
      (JList [JInt 1; JInt 2]).
    repeat split; try reflexivity; discriminate.
  - split; [exact Hd|exact He].
Defined.

(** ** ResearchAgent.research *)

Section Research.

Import ResearchAgent.

Variable c : components.

(** A source whose scrape yields nothing is left out and the loop goes on:
    the content gathered is the one gathered from the other sources. *)
Lemma scrape_all_skips (before after : list SearchTool.candidate)
    (r : SearchTool.candidate) :
  extracts_nothing (scraper_scrape c (SearchTool.url r)) ->
  scrape_all c (before ++ r :: after) = scrape_all c (before ++ after).
Proof.
  intros H. induction before as [|x before IH]; simpl.
  - unfold extracts_nothing in H.
    destruct (scraper_scrape c (SearchTool.url r)) as [[[|a t]|]|e];
      try reflexivity; contradiction.
  - now rewrite IH.
Qed.

Lemma scrape_all_from (search_results : list SearchTool.candidate)
    (it : ContentAnalyzer.item) :
  In it (scrape_all c search_results) ->
  exists r,
    In r search_results
    /\ scraper_scrape c (SearchTool.url r) = Ok (Some (ContentAnalyzer.content it))
    /\ ContentAnalyzer.content it <> EmptyString
    /\ ContentAnalyzer.url it = SearchTool.url r
    /\ ContentAnalyzer.title it = SearchTool.title r
    /\ ContentAnalyzer.relevance_score it = None.
Proof.
  induction search_results as [|r rest IH]; simpl; [intros []|].
  destruct (scraper_scrape c (SearchTool.url r)) as [[[|a t]|]|e] eqn:E;
    try (intros H; destruct (IH H) as [r' [Hin Hr']]; exists r';
         split; [now right|exact Hr']).
  intros [<-|H].
  - exists r. cbn. repeat split; [now left|exact E|discriminate].
  - destruct (IH H) as [r' [Hin Hr']]. exists r'. split; [now right|exact Hr'].
Qed.

End Research.

(** The content [research] hands to the analyzer: a source whose scrape
    raises or yields nothing is skipped without ending the loop, and every
    item gathered carries the url and title of a search result together
    with the non-empty text its scrape returned, and no score. *)
Theorem scraping_isolates_failures
    (c : ResearchAgent.components)
    (before after : list SearchTool.candidate) (r : SearchTool.candidate) :
  ResearchAgent.extracts_nothing
    (ResearchAgent.scraper_scrape c (SearchTool.url r)) ->
  ResearchAgent.scrape_all c (before ++ r :: after)
  = ResearchAgent.scrape_all c (before ++ after)
  /\ forall it,
       In it (ResearchAgent.scrape_all c (before ++ r :: after)) ->
       exists r',
         In r' (before ++ after)
         /\ ResearchAgent.scraper_scrape c (SearchTool.url r')
            = Ok (Some (ContentAnalyzer.content it))
         /\ ContentAnalyzer.content it <> EmptyString
         /\ ContentAnalyzer.url it = SearchTool.url r'
         /\ ContentAnalyzer.title it = SearchTool.title r'
         /\ ContentAnalyzer.relevance_score it = None.
Proof.
  intros H. split; [now apply scrape_all_skips|].
  intros it Hin. rewrite (scrape_all_skips c before after r H) in Hin.
  now apply scrape_all_from.
Qed.

Lemma scraping_isolates_failures_witness :
  ResearchAgent.scrape_all
    (ResearchAgent.mk_components
       (fun _ _ => Ok example_analysis) (fun _ _ _ => Ok [])
       (fun url => if String.eqb url "https://example.com"
                   then Raise (mk_exn "Timeout" "timed out")
                   else Ok (Some "Paris is the capital of France."))
       (fun _ items => Ok items)
       (fun _ _ _ _ => Raise (mk_exn "AssertionError" "not called")))
    ([SearchTool.mk_candidate "https://a.example/1" "A" "" JNull]
     ++ example_candidate
     :: [SearchTool.mk_candidate "https://b.example/x" "x" "" JNull])
  = ResearchAgent.scrape_all
      (ResearchAgent.mk_components
         (fun _ _ => Ok example_analysis) (fun _ _ _ => Ok [])
         (fun url => if String.eqb url "https://example.com"
                     then Raise (mk_exn "Timeout" "timed out")
                     else Ok (Some "Paris is the capital of France."))
         (fun _ items => Ok items)
         (fun _ _ _ _ => Raise (mk_exn "AssertionError" "not called")))
      ([SearchTool.mk_candidate "https://a.example/1" "A" "" JNull]
       ++ [SearchTool.mk_candidate "https://b.example/x" "x" "" JNull]).
Proof.
  apply scraping_isolates_failures. exact I.
Defined.

(** The success path: when every component returns and some source yields
    text, the result has [success = true] and no error tag, its sources are
    the url and title of the documents the analyzer returned (in that
    order), and its summary, detailed response and highlights are those of
    the synthesizer. *)
Theorem research_success
    (c : ResearchAgent.components) (asked : string) (h : list turn)
    (q : query_analysis) (search_results : list SearchTool.candidate)
    (filtered_content : list ContentAnalyzer.item)
    (response : ResponseGenerator.response) :
  ResearchAgent.query_analyzer_analyze c asked (h ++ [user_turn asked]) = Ok q ->
  ResearchAgent.search_tool_search c (search_terms q) (query_type q)
    (Some (ResearchAgent.limit_of q)) = Ok search_results ->
  ResearchAgent.scrape_all c search_results <> [] ->
  ResearchAgent.content_analyzer_analyze c q
    (ResearchAgent.scrape_all c search_results) = Ok filtered_content ->
  ResearchAgent.response_generator_generate c asked q filtered_content
    (h ++ [user_turn asked]) = Ok response ->
  ResearchAgent.research c asked h
  = (h ++ [user_turn asked;
           assistant_turn (ResponseGenerator.summary response)],
     mk_research_result (Some asked) (Some q)
       (map (fun it => mk_source (ContentAnalyzer.url it)
                                 (ContentAnalyzer.title it))
            filtered_content)
       (ResponseGenerator.summary response)
       (Some (ResponseGenerator.detailed_response response))
       (Some (ResponseGenerator.highlights response))
       true None None).
Proof.
  intros Hq Hs Hne Ha Hg.
  unfold ResearchAgent.research, ResearchAgent.attempt, ResearchAgent.bind,
    ResearchAgent.append, ResearchAgent.history, ResearchAgent.call,
    ResearchAgent.ret.
  rewrite Hq, Hs.
  destruct search_results as [|r rs]; [now destruct Hne|].
  destruct (ResearchAgent.scrape_all c (r :: rs)) as [|it its] eqn:E;
    [now destruct Hne|].
  rewrite Ha, Hg. now rewrite <- app_assoc.
Qed.

Lemma research_success_witness :
  success (snd (ResearchAgent.research all_well "capital of France" [])) = true
  /\ sources (snd (ResearchAgent.research all_well "capital of France" []))
     = [mk_source "https://example.com" "Test Result"]
  /\ List.length (fst (ResearchAgent.research all_well "capital of France" []))
     = 2%nat.
Proof.
  rewrite (research_success all_well "capital of France" [] example_analysis
             [example_candidate]
             [ContentAnalyzer.mk_item "https://example.com" "Test Result"
                "Paris is the capital of France." JNull
                ContentAnalyzer.NoDate None None]
             (ResponseGenerator.mk_response (JStr "Paris.")
                (JStr "Paris, France.") (JList []) None));
    try reflexivity.
  - repeat split.
  - discriminate.
Defined.

(** An exception raised by the query analyzer, the search, the content
    analyzer or the synthesizer is caught once: the result is the error
    response built from that exception and the query, with [success =
    false], the class name of the exception as error tag and no sources. *)
Theorem research_maps_exceptions
    (c : ResearchAgent.components) (asked : string) (h : list turn) (e : exn) :
  ResearchAgent.query_analyzer_analyze c asked (h ++ [user_turn asked])
  = Raise e
  \/ (exists q,
        ResearchAgent.query_analyzer_analyze c asked (h ++ [user_turn asked])
        = Ok q
        /\ (ResearchAgent.search_tool_search c (search_terms q) (query_type q)
              (Some (ResearchAgent.limit_of q)) = Raise e
            \/ exists search_results,
                 ResearchAgent.search_tool_search c (search_terms q)
                   (query_type q) (Some (ResearchAgent.limit_of q))
                 = Ok search_results
                 /\ ResearchAgent.scrape_all c search_results <> []
                 /\ (ResearchAgent.content_analyzer_analyze c q
                       (ResearchAgent.scrape_all c search_results) = Raise e
                     \/ exists filtered_content,
                          ResearchAgent.content_analyzer_analyze c q
                            (ResearchAgent.scrape_all c search_results)
                          = Ok filtered_content
                          /\ ResearchAgent.response_generator_generate c asked
                               q filtered_content (h ++ [user_turn asked])
                             = Raise e))) ->
  snd (ResearchAgent.research c asked h)
  = ErrorHandler.handle_error e (Some asked)
  /\ success (snd (ResearchAgent.research c asked h)) = false
  /\ error_type (snd (ResearchAgent.research c asked h)) = Some (exn_type e)
  /\ sources (snd (ResearchAgent.research c asked h)) = [].
Proof.
  intros H.
  assert (snd (ResearchAgent.research c asked h)
          = ErrorHandler.handle_error e (Some asked)) as E.
  { unfold ResearchAgent.research, ResearchAgent.attempt, ResearchAgent.bind,
      ResearchAgent.append, ResearchAgent.history, ResearchAgent.call,
      ResearchAgent.ret.
    destruct H as [H|[q [Hq H]]]; [now rewrite H|].
    rewrite Hq. destruct H as [H|[sr [Hs [Hne H]]]]; [now rewrite H|].
    rewrite Hs. destruct sr as [|r rs]; [now destruct Hne|].
    destruct (ResearchAgent.scrape_all c (r :: rs)) as [|it its] eqn:Ec;
      [now destruct Hne|].
    destruct H as [H|[f [Hf H]]]; [now rewrite H|].
    now rewrite Hf, H. }
  rewrite E. repeat split.
Qed.

Lemma research_maps_exceptions_witness :
  error_type (snd (ResearchAgent.research search_down "capital of France" []))
  = Some "ConnectionError"
  /\ summary_text_of_search_down
     = Some "I couldn't connect to some websites. This might be due to network issues or website restrictions. Your query was: 'capital of France'".
Proof.
  destruct (research_maps_exceptions search_down "capital of France" []
              (mk_exn "ConnectionError" "refused")) as [E [_ [Ht _]]].
  - right. exists example_analysis. split; [reflexivity|]. now left.
  - split; [exact Ht|].
    unfold summary_text_of_search_down. rewrite E. reflexivity.
Defined.

(** ** QueryAnalyzer.analyze *)

(** Whatever the model replies, and whether or not its call or the prompt
    builder raises, the analysis carries search terms that are not empty:
    they are the terms the model's object supplied, or the query itself as
    the only term. *)
Theorem analyze_search_terms_never_empty
    (llm : QueryAnalyzer.analysis_model) (asked : string) (h : list turn) :
  let a := QueryAnalyzer.analyze llm asked h in
  QueryAnalyzer.truthy (QueryAnalyzer.search_terms a) = true
  /\ (QueryAnalyzer.search_terms a = JList [JStr asked]
      \/ exists d,
           QueryAnalyzer.get_llm_analysis llm asked h = Ok (JDict d)
           /\ dict_get "search_terms" d
              = Some (QueryAnalyzer.search_terms a)).
Proof.
  intros a. subst a. unfold QueryAnalyzer.analyze.
  destruct (QueryAnalyzer.get_llm_analysis llm asked h)
    as [[| | | | | |d]|e];
    try (split; [reflexivity|now left]).
  cbn [QueryAnalyzer.search_terms].
  destruct (QueryAnalyzer.truthy
              (ResponseGenerator.get_or "search_terms" (JList []) d)) eqn:E.
  - split; [exact E|]. right. exists d. split; [reflexivity|].
    unfold ResponseGenerator.get_or in *.
    destruct (dict_get "search_terms" d); [reflexivity|discriminate].
  - split; [reflexivity|now left].
Qed.

(** When the prompt cannot be built, the model call raises, or the reply
    does not decode to an object, [analyze] returns its defaults: a factual
    query, no topics, the query as the only search term, any time, standard
    depth and a limit of 5. *)
Theorem analyze_falls_back_to_defaults
    (llm : QueryAnalyzer.analysis_model) (asked : string) (h : list turn) :
  (exists e, QueryAnalyzer.create_analysis_prompt h = Raise e)
  \/ (exists e, llm asked h = Raise e)
  \/ (exists result, llm asked h = Ok result
                     /\ forall d, decoded result <> Some (JDict d)) ->
  let a := QueryAnalyzer.analyze llm asked h in
  QueryAnalyzer.query_type a = JStr "factual"
  /\ QueryAnalyzer.topics a = JList []
  /\ QueryAnalyzer.search_terms a = JList [JStr asked]
  /\ QueryAnalyzer.time_sensitivity a = JStr "any"
  /\ QueryAnalyzer.required_depth a = JStr "standard"
  /\ QueryAnalyzer.result_limit a = JInt 5.
Proof.
  intros H a. subst a.
  unfold QueryAnalyzer.analyze, QueryAnalyzer.get_llm_analysis.
  destruct (QueryAnalyzer.create_analysis_prompt h) as [[]|e0];
    [|cbn; repeat split].
  destruct H as [[e He]|[[e He]|[result [Hr Hd]]]].
  - discriminate.
  - rewrite He. cbn. repeat split.
  - rewrite Hr.
    destruct (decoded result) as [[| | | | | |d]|];
      try solve [cbn; repeat split].
    now destruct (Hd d).
Qed.

Lemma analyze_falls_back_witness :
  QueryAnalyzer.search_terms
    (QueryAnalyzer.analyze failing_analyst "capital of France" [])
  = JList [JStr "capital of France"]
  /\ QueryAnalyzer.result_limit
       (QueryAnalyzer.analyze failing_analyst "capital of France" [])
     = JInt 5.
Proof.
  destruct (analyze_falls_back_to_defaults failing_analyst
              "capital of France" []) as [_ [_ [Ht [_ [_ Hl]]]]].
  - right. left. now exists (mk_exn "APIConnectionError" "connection refused").
  - split; [exact Ht|exact Hl].
Defined.

(** ** handle_api_error *)

(** For every status code, listed or not, the message of an API error
    names the API; the summary repeats the message, the result is marked
    unsuccessful with the tag "APIError" and no sources, and the status
    code is passed on unchanged. *)
Theorem api_error_names_the_api
    (api_name : string) (status_code : Z) (response_text : string) :
  let r := ErrorHandler.handle_api_error api_name status_code response_text in
  mentions api_name (ErrorHandler.message r)
  /\ ErrorHandler.summary r = ErrorHandler.message r
  /\ ErrorHandler.success r = false
  /\ ErrorHandler.error_type r = "APIError"
  /\ ErrorHandler.status_code r = status_code
  /\ ErrorHandler.sources r = [].
Proof.
  intros r. subst r. unfold ErrorHandler.handle_api_error.
  cbn [ErrorHandler.message ErrorHandler.summary ErrorHandler.success
       ErrorHandler.error_type ErrorHandler.status_code ErrorHandler.sources].
  split; [|repeat split].
  unfold ErrorHandler.status_messages.
  cbn [ErrorHandler.status_get].
  repeat match goal with
         | |- context [if ?k =? status_code then _ else _] =>
             destruct (k =? status_code)
         end;
    first [ now eexists _, _
          | exists ""%string; eexists; reflexivity ].
Qed.

(** ** SearchTool._mock_search *)

Lemma append_cancel_l (p a b : string) :
  (p ++ a)%string = (p ++ b)%string -> a = b.
Proof.
  induction p as [|c p IH]; simpl; [trivial|].
  intros H. injection H as H. now apply IH.
Qed.

Lemma mock_search_news_urls (str_title : string -> string) (query : string) :
  map SearchTool.url (SearchTool.mock_search str_title query true)
  = map (fun n => ("https://news.example.com/"
                   ++ replace_char " " "-" (lower query)
                   ++ "-article-" ++ n)%string)
        ["1"; "2"; "3"; "4"; "5"]%string.
Proof. reflexivity. Qed.

Lemma mock_search_web_urls (str_title : string -> string) (query : string) :
  map SearchTool.url (SearchTool.mock_search str_title query false)
  = ("https://en.wikipedia.org/wiki/" ++ replace_char " " "_" query)%string
    :: map (fun p => ("https://" ++ fst p ++ "/"
                      ++ replace_char " " "-" (lower query)
                      ++ "-" ++ snd p)%string)
         [("wikipedia.org", "1"); ("blog.example.com", "2");
          ("news.example.com", "3"); ("research.example.org", "4");
          ("academic.example.edu", "5")]%string.
Proof. reflexivity. Qed.

(** Two URLs differ: at a character of their fixed parts, or in what
    follows the sanitized query. *)
Ltac differ H :=
  simpl in H;
  first [ discriminate H
        | repeat (injection H as H); apply append_cancel_l in H;
          discriminate H ].

Ltac distinct_urls :=
  repeat (constructor;
          [ simpl; intros H;
            repeat (destruct H as [H|H]; [differ H|]); exact H | ]);
  constructor.

Lemma mock_search_NoDup (str_title : string -> string) (query : string)
    (is_news : bool) :
  NoDup (map SearchTool.url (SearchTool.mock_search str_title query is_news)).
Proof.
  destruct is_news.
  - rewrite mock_search_news_urls.
    set (sq := replace_char " " "-" (lower query)). cbn [map].
    distinct_urls.
  - rewrite mock_search_web_urls.
    set (sq := replace_char " " "-" (lower query)). cbn [map fst snd].
    distinct_urls.
Qed.

Lemma mock_search_length (str_title : string -> string) (query : string)
    (is_news : bool) :
  len (SearchTool.mock_search str_title query is_news)
  = if is_news then 5 else 6.
Proof. now destruct is_news. Qed.

(** For every query, the mock backend returns five results for a news
    query and six otherwise (the Wikipedia page first); their URLs are
    pairwise distinct and all start with "https://", and every result is
    marked as coming from the mock source. *)
Theorem mock_search_results_distinct
    (str_title : string -> string) (query : string) (is_news : bool) :
  let results := SearchTool.mock_search str_title query is_news in
  NoDup (map SearchTool.url results)
  /\ len results = (if is_news then 5 else 6)
  /\ Forall (fun r =>
               startswith "https://" (SearchTool.url r) = true
               /\ exists d, SearchTool.metadata r = JDict d
                            /\ dict_get "source_api" d = Some (JStr "mock"))
            results.
Proof.
  intros results. subst results.
  split; [apply mock_search_NoDup|].
  split; [apply mock_search_length|].
  destruct is_news;
    repeat (constructor; [split; [reflexivity|eexists; split; reflexivity]|]);
    constructor.
Qed.


